(** * ds005863 file-renaming scripts: a shallow embedding

    The repository holds three Python scripts:
    - [cleanup_and_fix.py]  (module [CleanupAndFix] below),
    - [fix_vmrk_files.py]   (module [FixVmrk]),
    - [cleanup_files.py]    (module [CleanupFiles]).

    They walk [base_dir/sub-<n>/eeg/], copy the BrainVision marker and data
    files to names derived from the subject number, and delete such copies
    again.  The embedding has three layers:

    - Python text primitives: [str.split], [int], the format spec [03d],
      [str.startswith] and [fnmatch] for patterns made of literals and [*];
    - a file-system tree with owner permission bits, on which [pathlib] and
      [shutil] calls are explicit state-passing functions that either return
      or raise;
    - the scripts themselves, statement by statement.

    Modelling conventions.  File and directory names are byte strings; only
    ASCII digits and ASCII white space are recognised by [py_int].  A directory
    is an ordered association list: its order is the order in which
    [os.scandir] presents the entries.  The process is the unprivileged owner
    of every node; for files the owner read and write bits are modelled, for
    directories the owner write bit (creating and removing entries).
    Directories are assumed listable and searchable, and symbolic links are
    absent.  What the scripts print is kept as a list of events, one per
    printed line of the loops; the summary blocks, which only repeat the
    counters, are not kept. *)

From Stdlib Require Import ZArith List String Ascii Bool Lia DecimalString Permutation.
From Stdlib Require Import Sorted.
Import ListNotations.
Open Scope string_scope.
Open Scope Z_scope.

(** ** Exceptions and results *)

Inductive exn : Type :=
| ValueError     (* int() on text that is not an integer literal *)
| IndexError     (* list index out of range *)
| TypeError      (* Path / None *)
| OSError.       (* PermissionError, IsADirectoryError, FileNotFoundError, ... *)

Inductive result (A : Type) : Type :=
| Ok (a : A)
| Raise (e : exn).
Arguments Ok {A} a.
Arguments Raise {A} e.

Definition bind {A B : Type} (r : result A) (k : A -> result B) : result B :=
  match r with
  | Ok a => k a
  | Raise e => Raise e
  end.

Notation "x <- c1 ;; c2" := (bind c1 (fun x => c2))
  (at level 61, c1 at next level, right associativity).

Definition exn_eqb (a b : exn) : bool :=
  match a, b with
  | ValueError, ValueError | IndexError, IndexError
  | TypeError, TypeError | OSError, OSError => true
  | _, _ => false
  end.

(** ** Python text primitives *)

Module PyStr.

(** [s.split(sep)] for a one-character separator: the fields between the
    occurrences of [sep], in order; never the empty list. *)
Fixpoint split_on (sep : ascii) (s : string) : list string :=
  match s with
  | EmptyString => [EmptyString]
  | String c s' =>
      if Ascii.eqb c sep then EmptyString :: split_on sep s'
      else match split_on sep s' with
           | f :: fs => String c f :: fs
           | [] => [String c EmptyString]
           end
  end.

(** [s.startswith(p)] *)
Definition startswith (p s : string) : bool := String.prefix p s.

(** C [isspace]: space, \t, \n, \v, \f, \r. *)
Definition is_space (c : ascii) : bool :=
  let n := nat_of_ascii c in
  (Nat.eqb n 32 || (Nat.leb 9 n && Nat.leb n 13))%bool.

Fixpoint lstrip (s : string) : string :=
  match s with
  | EmptyString => EmptyString
  | String c s' => if is_space c then lstrip s' else s
  end.

Fixpoint rstrip (s : string) : string :=
  match s with
  | EmptyString => EmptyString
  | String c s' =>
      let r := rstrip s' in
      if (is_space c && String.eqb r EmptyString)%bool then EmptyString
      else String c r
  end.

Definition strip (s : string) : string := lstrip (rstrip s).

Definition digit_val (c : ascii) : option Z :=
  let n := nat_of_ascii c in
  if (Nat.leb 48 n && Nat.leb n 57)%bool then Some (Z.of_nat (n - 48)) else None.

(** The digit part of an integer literal: digits, with single underscores
    allowed between two digits.  [prev] tells whether the previous character
    was a digit. *)
Fixpoint parse_digits (acc : Z) (prev : bool) (s : string) : option Z :=
  match s with
  | EmptyString => if prev then Some acc else None
  | String c s' =>
      match digit_val c with
      | Some d => parse_digits (10 * acc + d) true s'
      | None =>
          if (Ascii.eqb c "_" && prev)%bool then parse_digits acc false s'
          else None
      end
  end.

(** [int(s)] in base 10: surrounding white space, an optional sign, then the
    digit part; anything else raises [ValueError]. *)
Definition py_int (s : string) : result Z :=
  let t := strip s in
  let r :=
    match t with
    | String "+"%char d => parse_digits 0 false d
    | String "-"%char d => option_map Z.opp (parse_digits 0 false d)
    | _ => parse_digits 0 false t
    end in
  match r with
  | Some z => Ok z
  | None => Raise ValueError
  end.

Fixpoint zeros (k : nat) : string :=
  match k with
  | O => EmptyString
  | S k' => String "0"%char (zeros k')
  end.

(** Decimal rendering of a natural number, without leading zeros. *)
Definition decimal (n : N) : string := NilZero.string_of_uint (N.to_uint n).

(** [format(n, "03d")]: sign-aware zero padding to width 3. *)
Definition format_03d (n : Z) : string :=
  let d := decimal (Z.abs_N n) in
  if n <? 0 then "-" ++ zeros (2 - String.length d) ++ d
  else zeros (3 - String.length d) ++ d.

(** [fnmatch.fnmatchcase(name, pat)] for patterns whose only metacharacter is
    [*] (any run of characters, possibly empty); every other character of the
    pattern stands for itself.  The scripts' patterns contain neither [?] nor
    brackets. *)
Fixpoint fnmatch (pat : string) (name : string) : bool :=
  match pat with
  | EmptyString =>
      match name with EmptyString => true | _ => false end
  | String p pat' =>
      if Ascii.eqb p "*" then
        (fix star (nm : string) : bool :=
           (fnmatch pat' nm ||
            match nm with
            | EmptyString => false
            | String _ nm' => star nm'
            end)%bool) name
      else
        match name with
        | EmptyString => false
        | String c name' => (Ascii.eqb p c && fnmatch pat' name')%bool
        end
  end.

End PyStr.

(** ** Paths *)

(** A [pathlib.Path] below [base_dir], as its list of components. *)
Definition Path : Type := list string.

(** [p.name] *)
Definition name (p : Path) : string := last p EmptyString.

(** [p / child] *)
Definition joinpath (p : Path) (child : string) : Path := (p ++ [child])%list.

(** ** The file-system tree *)

#[warnings="-register-all"]
Inductive node : Type :=
| File (mode : Z) (mtime : Z) (data : string)
| Dir (mode : Z) (entries : list (string * node)).

Module FS.

(** Owner permission bits: 0o400 and 0o200. *)
Definition readable (mode : Z) : bool := negb (Z.land mode 256 =? 0).
Definition writable (mode : Z) : bool := negb (Z.land mode 128 =? 0).

Definition is_dir_node (n : node) : bool :=
  match n with
  | Dir _ _ => true
  | File _ _ _ => false
  end.

(** The entry called [nm] of a directory listing. *)
Fixpoint lookup (nm : string) (es : list (string * node)) : option node :=
  match es with
  | [] => None
  | (k, v) :: es' => if String.eqb k nm then Some v else lookup nm es'
  end.

(** Replace the entry [nm] where it stands, or add it at the end. *)
Fixpoint put (nm : string) (v : node) (es : list (string * node))
  : list (string * node) :=
  match es with
  | [] => [(nm, v)]
  | (k, x) :: es' =>
      if String.eqb k nm then (k, v) :: es' else (k, x) :: put nm v es'
  end.

Fixpoint remove (nm : string) (es : list (string * node))
  : list (string * node) :=
  match es with
  | [] => []
  | (k, x) :: es' =>
      if String.eqb k nm then remove nm es' else (k, x) :: remove nm es'
  end.

(** The node a path leads to, from the node [n]. *)
Fixpoint resolve (p : Path) (n : node) : option node :=
  match p with
  | [] => Some n
  | c :: p' =>
      match n with
      | Dir _ es =>
          match lookup c es with
          | Some ch => resolve p' ch
          | None => None
          end
      | File _ _ _ => None
      end
  end.

(** [p.exists()] and [p.is_dir()] *)
Definition exists_ (fs : node) (p : Path) : bool :=
  match resolve p fs with
  | Some _ => true
  | None => false
  end.

Definition is_dir (fs : node) (p : Path) : bool :=
  match resolve p fs with
  | Some n => is_dir_node n
  | None => false
  end.

(** [p.iterdir()], in listing order. *)
Definition iterdir (fs : node) (p : Path) : result (list Path) :=
  match resolve p fs with
  | Some (Dir _ es) => Ok (map (fun e => joinpath p (fst e)) es)
  | _ => Raise OSError
  end.

(** [p.glob(pat)] for a pattern without a directory part: the entries of
    [p] whose name matches, in listing order; nothing when [p] is not a
    directory. *)
Definition glob (fs : node) (p : Path) (pat : string) : list Path :=
  match resolve p fs with
  | Some (Dir _ es) =>
      map (fun e => joinpath p (fst e))
          (filter (fun e => PyStr.fnmatch pat (fst e)) es)
  | _ => []
  end.

(** [p.rglob(pat)]: the matches in [p] itself, then those below each
    subdirectory, in listing order. *)
Fixpoint rglob_node (pat : string) (here : Path) (n : node) : list Path :=
  match n with
  | File _ _ _ => []
  | Dir _ es =>
      (map (fun e => joinpath here (fst e))
           (filter (fun e => PyStr.fnmatch pat (fst e)) es)
       ++ flat_map (fun e => match e with
                             | (nm, ch) => rglob_node pat (joinpath here nm) ch
                             end) es)%list
  end.

Definition rglob (fs : node) (pat : string) : list Path := rglob_node pat [] fs.

(** Change the entry a path names.  [f] sees the mode of the parent directory
    and the present entry, and answers with the new entry ([None]: no entry)
    or raises. *)
Fixpoint alter_at (f : Z -> option node -> result (option node))
  (p : Path) (n : node) : result node :=
  match n with
  | File _ _ _ => Raise OSError
  | Dir pm es =>
      match p with
      | [] => Raise OSError
      | c :: p' =>
          match p' with
          | [] =>
              r <- f pm (lookup c es) ;;
              Ok (Dir pm (match r with
                          | Some v => put c v es
                          | None => remove c es
                          end))
          | _ :: _ =>
              match lookup c es with
              | Some ch =>
                  ch' <- alter_at f p' ch ;;
                  Ok (Dir pm (put c ch' es))
              | None => Raise OSError
              end
          end
      end
  end.

(** What [open(dst, 'wb')], the write and [copystat] leave at [dst]. *)
Definition write_entry (new : node) (pm : Z) (cur : option node)
  : result (option node) :=
  match cur with
  | Some (File m _ _) => if writable m then Ok (Some new) else Raise OSError
  | Some (Dir _ _) => Raise OSError
  | None => if writable pm then Ok (Some new) else Raise OSError
  end.

Definition chmod_entry (mode : Z) (pm : Z) (cur : option node)
  : result (option node) :=
  match cur with
  | Some (File _ t d) => Ok (Some (File mode t d))
  | Some (Dir _ es) => Ok (Some (Dir mode es))
  | None => Raise OSError
  end.

Definition unlink_entry (pm : Z) (cur : option node) : result (option node) :=
  match cur with
  | Some (File _ _ _) => if writable pm then Ok None else Raise OSError
  | _ => Raise OSError
  end.

(** [os.chmod(p, mode)] and [p.unlink()] *)
Definition chmod (fs : node) (p : Path) (mode : Z) : result node :=
  alter_at (chmod_entry mode) p fs.

Definition unlink (fs : node) (p : Path) : result node :=
  alter_at unlink_entry p fs.

Definition path_eqb (p q : Path) : bool :=
  if list_eq_dec string_dec p q then true else false.

(** [shutil.copy2(src, dst)]: a directory [dst] stands for [dst/src.name];
    the source must be a readable regular file other than the destination;
    the destination receives the data, the mode and the modification time. *)
Definition copy2 (fs : node) (src dst : Path) : result node :=
  let dst := if is_dir fs dst then joinpath dst (name src) else dst in
  if path_eqb src dst then Raise OSError
  else
    match resolve src fs with
    | Some (File m t d) =>
        if readable m then alter_at (write_entry (File m t d)) dst fs
        else Raise OSError
    | _ => Raise OSError
    end.

End FS.

(** ** What the scripts print *)

Inductive event : Type :=
| Found (n : nat)
| Processing (subject : string)
| WarnNoEegDir (subject : string)
| WarnNoVmrk (eeg_dir : Path)
| WarnNoEeg (eeg_dir : Path)
| WarnUnknownRange (subject : string)
| CreatedVmrk (source target : string)
| CreatedEeg (source target : string)
| ErrorCreating (e : exn)
| Deleted (file_path : Path)
| ErrorDeleting (file_path : Path) (e : exn).

Definition is_warning (ev : event) : bool :=
  match ev with
  | WarnNoEegDir _ | WarnNoVmrk _ | WarnNoEeg _ | WarnUnknownRange _ => true
  | _ => false
  end.

(** ** The walkers' state *)

Record walk_state : Type := mkWalk {
  fs : node;
  fixed_vmrk_count : Z;
  fixed_eeg_count : Z;
  error_count : Z;
  out : list event
}.

Definition print (st : walk_state) (ev : event) : walk_state :=
  mkWalk (fs st) (fixed_vmrk_count st) (fixed_eeg_count st) (error_count st)
         (out st ++ [ev])%list.

(** The [except Exception] clause of both walkers. *)
Definition except (st : walk_state) (e : exn) : walk_state :=
  mkWalk (fs st) (fixed_vmrk_count st) (fixed_eeg_count st)
         (error_count st + 1) (out st ++ [ErrorCreating e])%list.

(** [int(subject_dir.name.split('-')[1])], the first statement of both
    versions of [get_expected_filename] and the sort key of both walkers. *)
Definition subject_number (subject_dir : Path) : result Z :=
  match nth_error (PyStr.split_on "-" (name subject_dir)) 1 with
  | None => Raise IndexError
  | Some field => PyStr.py_int field
  end.

(** [l.sort(key=...)]: the keys are computed first, one per element and in
    order; then the list is sorted by key, equal keys keeping their order. *)
Fixpoint keys_of (l : list Path) : result (list (Z * Path)) :=
  match l with
  | [] => Ok []
  | x :: l' =>
      k <- subject_number x ;;
      ks <- keys_of l' ;;
      Ok ((k, x) :: ks)
  end.

Fixpoint insert_by_key (k : Z) (x : Path) (l : list (Z * Path))
  : list (Z * Path) :=
  match l with
  | [] => [(k, x)]
  | (k', y) :: l' =>
      if k <=? k' then (k, x) :: l else (k', y) :: insert_by_key k x l'
  end.

Fixpoint sort_keyed (l : list (Z * Path)) : list (Z * Path) :=
  match l with
  | [] => []
  | (k, x) :: l' => insert_by_key k x (sort_keyed l')
  end.

Definition sort_by_subject_number (l : list Path) : result (list Path) :=
  ks <- keys_of l ;;
  Ok (map snd (sort_keyed ks)).

(** [[d for d in base_dir.iterdir() if d.is_dir() and d.name.startswith('sub-')]]
    followed by the sort. *)
Definition subject_candidates (fs0 : node) (base_dir : Path) : result (list Path) :=
  ds <- FS.iterdir fs0 base_dir ;;
  Ok (filter (fun d => (FS.is_dir fs0 d && PyStr.startswith "sub-" (name d))%bool) ds).

Definition subject_dirs_of (fs0 : node) (base_dir : Path) : result (list Path) :=
  subject_dirs <- subject_candidates fs0 base_dir ;;
  sort_by_subject_number subject_dirs.

Definition vmrk_pattern : string := "*_task-visualoddball_eeg.vmrk".
Definition eeg_pattern : string := "*_task-visualoddball_eeg.eeg".

(** The exit status of [python script.py]: 0 when the module body returns,
    1 when an exception escapes it. *)
Definition exit_status {A : Type} (r : result A) : Z :=
  match r with
  | Ok _ => 0
  | Raise _ => 1
  end.

(** ** cleanup_and_fix.py *)

Module CleanupAndFix.

Record clean_state : Type := mkClean {
  cfs : node;
  deleted_count : Z;
  cout : list event
}.

(** The body of the [for file_path in all_files] loop. *)
Definition delete_step (st : clean_state) (file_path : Path) : clean_state :=
  match FS.chmod (cfs st) file_path 420 with
  | Raise e =>
      mkClean (cfs st) (deleted_count st) (cout st ++ [ErrorDeleting file_path e])%list
  | Ok fs1 =>
      match FS.unlink fs1 file_path with
      | Raise e =>
          mkClean fs1 (deleted_count st) (cout st ++ [ErrorDeleting file_path e])%list
      | Ok fs2 =>
          mkClean fs2 (deleted_count st + 1) (cout st ++ [Deleted file_path])%list
      end
  end.

Definition cleanup_incorrect_files (fs0 : node) : clean_state :=
  let cocoa_files := FS.rglob fs0 "COCOA_*_VO.*" in
  let sasa_files := FS.rglob fs0 "SASA_*_VO.*" in
  let all_files := (cocoa_files ++ sasa_files)%list in
  fold_left delete_step all_files (mkClean fs0 0 [Found (List.length all_files)]).

(** [None] is the sentinel of the last branch. *)
Definition get_expected_filename (subject_dir : Path) (file_type : string)
  : result (option string) :=
  subject_num <- subject_number subject_dir ;;
  if ((1 <=? subject_num) && (subject_num <=? 56))%bool then
    Ok (Some ("COCOA_" ++ PyStr.format_03d (subject_num + 12) ++ "_VO." ++ file_type))
  else if ((57 <=? subject_num) && (subject_num <=? 77))%bool then
    Ok (Some ("COCOA_" ++ PyStr.format_03d (subject_num + 13) ++ "_VO." ++ file_type))
  else if ((78 <=? subject_num) && (subject_num <=? 96))%bool then
    Ok (Some ("COCOA_" ++ PyStr.format_03d (subject_num + 14) ++ "_VO." ++ file_type))
  else if ((111 <=? subject_num) && (subject_num <=? 127))%bool then
    Ok (Some ("SASA_" ++ PyStr.format_03d (subject_num - 96) ++ "_VO." ++ file_type))
  else
    Ok None.

(** The body of the [for subject_dir in subject_dirs] loop.  Each early
    return is a [continue]; a [Raise] inside the [try] goes to [except].
    The unused [subject_num = subject_dir.name.split('-')[1]] is left out:
    the loop runs over names that start with [sub-], which have that field. *)
Definition loop_body (st : walk_state) (subject_dir : Path) : walk_state :=
  let st := print st (Processing (name subject_dir)) in
  let eeg_dir := joinpath subject_dir "eeg" in
  if negb (FS.exists_ (fs st) eeg_dir) then
    print st (WarnNoEegDir (name subject_dir))
  else
    match FS.glob (fs st) eeg_dir vmrk_pattern with
    | [] => print st (WarnNoVmrk eeg_dir)
    | existing_vmrk :: _ =>
        match FS.glob (fs st) eeg_dir eeg_pattern with
        | [] => print st (WarnNoEeg eeg_dir)
        | existing_eeg :: _ =>
            match get_expected_filename subject_dir "vmrk" with
            | Raise e => except st e
            | Ok None => print st (WarnUnknownRange (name subject_dir))
            | Ok (Some expected_vmrk_name) =>
                let target_vmrk_path := joinpath eeg_dir expected_vmrk_name in
                match FS.copy2 (fs st) existing_vmrk target_vmrk_path with
                | Raise e => except st e
                | Ok fs1 =>
                    let st :=
                      mkWalk fs1 (fixed_vmrk_count st + 1) (fixed_eeg_count st)
                        (error_count st)
                        (out st ++ [CreatedVmrk (name existing_vmrk) expected_vmrk_name])%list in
                    match get_expected_filename subject_dir "eeg" with
                    | Raise e => except st e
                    | Ok None => except st TypeError
                    | Ok (Some expected_eeg_name) =>
                        let target_eeg_path := joinpath eeg_dir expected_eeg_name in
                        match FS.copy2 (fs st) existing_eeg target_eeg_path with
                        | Raise e => except st e
                        | Ok fs2 =>
                            mkWalk fs2 (fixed_vmrk_count st) (fixed_eeg_count st + 1)
                              (error_count st)
                              (out st ++ [CreatedEeg (name existing_eeg) expected_eeg_name])%list
                        end
                    end
                end
            end
        end
    end.

Definition recreate_correct_files (fs0 : node) : result walk_state :=
  subject_dirs <- subject_dirs_of fs0 [] ;;
  Ok (fold_left loop_body subject_dirs
        (mkWalk fs0 0 0 0 [Found (List.length subject_dirs)])).

(** [main()]: step 1, then step 2 on what step 1 left. *)
Definition main (fs0 : node) : result walk_state :=
  let st := cleanup_incorrect_files fs0 in
  recreate_correct_files (cfs st).

(** [if __name__ == "__main__": main()] *)
Definition script (fs0 : node) : result walk_state := main fs0.

End CleanupAndFix.

(** ** cleanup_files.py *)

Module CleanupFiles.

Record clean_state : Type := mkClean {
  cfs : node;
  deleted_count : Z;
  error_count : Z;
  cout : list event
}.

Definition delete_step (st : clean_state) (file_path : Path) : clean_state :=
  match FS.chmod (cfs st) file_path 420 with
  | Raise e =>
      mkClean (cfs st) (deleted_count st) (error_count st + 1)
        (cout st ++ [ErrorDeleting file_path e])%list
  | Ok fs1 =>
      match FS.unlink fs1 file_path with
      | Raise e =>
          mkClean fs1 (deleted_count st) (error_count st + 1)
            (cout st ++ [ErrorDeleting file_path e])%list
      | Ok fs2 =>
          mkClean fs2 (deleted_count st + 1) (error_count st)
            (cout st ++ [Deleted file_path])%list
      end
  end.

Definition cleanup_files (fs0 : node) : clean_state :=
  let cocoa_files := FS.rglob fs0 "COCOA_*_VO.*" in
  let sasa_files := FS.rglob fs0 "SASA_*_VO.*" in
  let all_files := (cocoa_files ++ sasa_files)%list in
  fold_left delete_step all_files (mkClean fs0 0 0 [Found (List.length all_files)]).

(** [if __name__ == "__main__": cleanup_files()]; every exception of the
    loop is caught inside it. *)
Definition script (fs0 : node) : result clean_state := Ok (cleanup_files fs0).

End CleanupFiles.

(** ** fix_vmrk_files.py *)

Module FixVmrk.

(** One COCOA range with offset 13, and a generic [SUBJECT_] name where the
    later script has its sentinel: this version always returns a name. *)
Definition get_expected_filename (subject_dir : Path) (file_type : string)
  : result string :=
  subject_num <- subject_number subject_dir ;;
  if ((1 <=? subject_num) && (subject_num <=? 96))%bool then
    Ok ("COCOA_" ++ PyStr.format_03d (subject_num + 13) ++ "_VO." ++ file_type)
  else if ((111 <=? subject_num) && (subject_num <=? 127))%bool then
    Ok ("SASA_" ++ PyStr.format_03d (subject_num - 96) ++ "_VO." ++ file_type)
  else
    Ok ("SUBJECT_" ++ PyStr.format_03d subject_num ++ "_VO." ++ file_type).

Definition loop_body (st : walk_state) (subject_dir : Path) : walk_state :=
  let st := print st (Processing (name subject_dir)) in
  let eeg_dir := joinpath subject_dir "eeg" in
  if negb (FS.exists_ (fs st) eeg_dir) then
    print st (WarnNoEegDir (name subject_dir))
  else
    match FS.glob (fs st) eeg_dir vmrk_pattern with
    | [] => print st (WarnNoVmrk eeg_dir)
    | existing_vmrk :: _ =>
        match FS.glob (fs st) eeg_dir eeg_pattern with
        | [] => print st (WarnNoEeg eeg_dir)
        | existing_eeg :: _ =>
            match get_expected_filename subject_dir "vmrk" with
            | Raise e => except st e
            | Ok expected_vmrk_name =>
                let target_vmrk_path := joinpath eeg_dir expected_vmrk_name in
                match FS.copy2 (fs st) existing_vmrk target_vmrk_path with
                | Raise e => except st e
                | Ok fs1 =>
                    let st :=
                      mkWalk fs1 (fixed_vmrk_count st + 1) (fixed_eeg_count st)
                        (error_count st)
                        (out st ++ [CreatedVmrk (name existing_vmrk) expected_vmrk_name])%list in
                    match get_expected_filename subject_dir "eeg" with
                    | Raise e => except st e
                    | Ok expected_eeg_name =>
                        let target_eeg_path := joinpath eeg_dir expected_eeg_name in
                        match FS.copy2 (fs st) existing_eeg target_eeg_path with
                        | Raise e => except st e
                        | Ok fs2 =>
                            mkWalk fs2 (fixed_vmrk_count st) (fixed_eeg_count st + 1)
                              (error_count st)
                              (out st ++ [CreatedEeg (name existing_eeg) expected_eeg_name])%list
                        end
                    end
                end
            end
        end
    end.

Definition fix_vmrk_files (fs0 : node) : result walk_state :=
  subject_dirs <- subject_dirs_of fs0 [] ;;
  Ok (fold_left loop_body subject_dirs
        (mkWalk fs0 0 0 0 [Found (List.length subject_dirs)])).

(** [if __name__ == "__main__": fix_vmrk_files()] *)
Definition script (fs0 : node) : result walk_state := fix_vmrk_files fs0.

End FixVmrk.

(** ** The loop body, factored

    Both walkers run the same statements once the [eeg] directory is known
    to exist: [copy_stage] is that common part, given the two results of the
    mapper ([gv] for vmrk, [ge] for eeg), the directory [eeg_dir] it works in
    and the path [label] it prints in warnings.  [subject_body] is the loop
    body as it acts on the node of the subject directory itself, with paths
    relative to that node. *)

Definition with_fs (st : walk_state) (n : node) : walk_state :=
  mkWalk n (fixed_vmrk_count st) (fixed_eeg_count st) (error_count st) (out st).

Definition copy_stage (label : Path) (d : string) (gv ge : result (option string))
  (eeg_dir : Path) (st : walk_state) : walk_state :=
  match FS.glob (fs st) eeg_dir vmrk_pattern with
  | [] => print st (WarnNoVmrk label)
  | existing_vmrk :: _ =>
      match FS.glob (fs st) eeg_dir eeg_pattern with
      | [] => print st (WarnNoEeg label)
      | existing_eeg :: _ =>
          match gv with
          | Raise e => except st e
          | Ok None => print st (WarnUnknownRange d)
          | Ok (Some tv) =>
              match FS.copy2 (fs st) existing_vmrk (joinpath eeg_dir tv) with
              | Raise e => except st e
              | Ok fs1 =>
                  let st :=
                    mkWalk fs1 (fixed_vmrk_count st + 1) (fixed_eeg_count st)
                      (error_count st)
                      (out st ++ [CreatedVmrk (name existing_vmrk) tv])%list in
                  match ge with
                  | Raise e => except st e
                  | Ok None => except st TypeError
                  | Ok (Some te) =>
                      match FS.copy2 (fs st) existing_eeg (joinpath eeg_dir te) with
                      | Raise e => except st e
                      | Ok fs2 =>
                          mkWalk fs2 (fixed_vmrk_count st) (fixed_eeg_count st + 1)
                            (error_count st)
                            (out st ++ [CreatedEeg (name existing_eeg) te])%list
                      end
                  end
              end
          end
      end
  end.

Definition subject_body (d : string) (gv ge : result (option string))
  (st : walk_state) : walk_state :=
  let st := print st (Processing d) in
  if negb (FS.exists_ (fs st) ["eeg"]) then print st (WarnNoEegDir d)
  else copy_stage [d; "eeg"] d gv ge ["eeg"] st.

(** The mapper of fix_vmrk_files.py in the shape of the later one. *)
Definition always_named (r : result string) : result (option string) :=
  match r with
  | Ok s => Ok (Some s)
  | Raise e => Raise e
  end.

(** What one loop iteration adds to the counters and to the output: the
    state [st] moved on top of the counters and output of [base]. *)
Definition shift (base st : walk_state) : walk_state :=
  mkWalk (fs st)
    (fixed_vmrk_count base + fixed_vmrk_count st)
    (fixed_eeg_count base + fixed_eeg_count st)
    (error_count base + error_count st)
    (out base ++ out st)%list.

(** A state with the file system [n], zero counters and no output. *)
Definition fresh (n : node) : walk_state := mkWalk n 0 0 0 [].

(** The sum of one counter over a list of states. *)
Definition total (f : walk_state -> Z) (l : list walk_state) : Z :=
  fold_right Z.add 0 (map f l).

(** The names of a directory listing are pairwise distinct, as they are in
    every directory of a real file system. *)
Fixpoint distinct (l : list string) : bool :=
  match l with
  | [] => true
  | x :: l' => (negb (existsb (String.eqb x) l') && distinct l')%bool
  end.

Definition distinct_names (n : node) : bool :=
  match n with
  | Dir _ es => distinct (map fst es)
  | File _ _ _ => true
  end.

(** What the loop body does for the subject [nm] whose node is [sub],
    counted from zero. *)
Definition subject_result (gv ge : string -> result (option string))
  (nm : string) (sub : node) : walk_state :=
  subject_body nm (gv nm) (ge nm) (fresh sub).

(** Two states report the same counters and the same output. *)
Definition same_report (a b : walk_state) : Prop :=
  fixed_vmrk_count a = fixed_vmrk_count b /\
  fixed_eeg_count a = fixed_eeg_count b /\
  error_count a = error_count b /\
  out a = out b.

(** The counters and outputs of a list of runs, added up, over the file
    system [n]. *)
Definition combine (l : list walk_state) (n : node) : walk_state :=
  mkWalk n (total fixed_vmrk_count l) (total fixed_eeg_count l)
    (total error_count l) (flat_map out l).

(** [p] is an initial segment of [q] (possibly [q] itself). *)
Fixpoint is_prefix (p q : Path) : bool :=
  match p, q with
  | [], _ => true
  | a :: p', b :: q' => (String.eqb a b && is_prefix p' q')%bool
  | _ :: _, [] => false
  end.

(** The text has no [*]: as a pattern it matches itself only. *)
Fixpoint star_free (s : string) : bool :=
  match s with
  | EmptyString => true
  | String c s' => (negb (Ascii.eqb c "*") && star_free s')%bool
  end.

(** The entry [v] holds a copy of the file [src] called [s]: it is that
    file, or a directory with that file under the name [s]. *)
Definition holds_copy (v : node) (s : string) (src : node) : Prop :=
  v = src \/ exists dm des, v = Dir dm des /\ FS.lookup s des = Some src.

(** The source file the walker selects in the directory node [en] for the
    pattern [pat], and whether its owner may write it. *)
Definition selected (en : node) (pat : string) : option node :=
  match FS.glob en [] pat with
  | p :: _ => FS.resolve p en
  | [] => None
  end.

Definition source_writable (en : node) (pat : string) : bool :=
  match selected en pat with
  | Some (File m _ _) => FS.writable m
  | _ => true
  end.

(** The selected sources of the subject directory [d] are writable. *)
Definition sources_writable_in (sub : node) : bool :=
  match FS.resolve ["eeg"] sub with
  | Some en => (source_writable en vmrk_pattern && source_writable en eeg_pattern)%bool
  | None => true
  end.

Definition sources_writable_at (fs0 : node) (d : Path) : bool :=
  match FS.resolve d fs0 with
  | Some sub => sources_writable_in sub
  | None => true
  end.





(** The walker of a script, as a function of its loop body. *)
Definition walker (body : walk_state -> Path -> walk_state) (fs0 : node)
  : result walk_state :=
  subject_dirs <- subject_dirs_of fs0 [] ;;
  Ok (fold_left body subject_dirs
        (mkWalk fs0 0 0 0 [Found (List.length subject_dirs)])).

(** Neither path leads to the other. *)
Definition unrelated (q p : Path) : Prop :=
  is_prefix q p = false /\ is_prefix p q = false.


(** Two nodes of the same kind; directories with the same mode. *)
Definition kept (n0 n : node) : Prop :=
  match n0, n with
  | Dir m _, Dir m' _ => m = m'
  | File _ _ _, File _ _ _ => True
  | _, _ => False
  end.

(** From [a] to [b] nothing was removed and no kind or directory mode was
    changed; whatever is new is a file in a directory that was writable. *)
Definition grows (a b : node) : Prop :=
  (forall q n0, FS.resolve q a = Some n0 ->
                exists n, FS.resolve q b = Some n /\ kept n0 n) /\
  (forall q n, FS.resolve q b = Some n -> FS.resolve q a = None ->
               FS.is_dir_node n = false /\
               exists par c pm es,
                 q = joinpath par c /\
                 FS.resolve par a = Some (Dir pm es) /\ FS.writable pm = true).


(** The effect of one [delete_step] on the file system, the same in both
    cleanup scripts: the mode change stays when the unlink fails. *)
Definition delete_fs (n : node) (file_path : Path) : node :=
  match FS.chmod n file_path 420 with
  | Raise _ => n
  | Ok n1 =>
      match FS.unlink n1 file_path with
      | Raise _ => n1
      | Ok n2 => n2
      end
  end.

(** The name is one the cleanup scripts look for. *)
Definition cleanup_name (nm : string) : bool :=
  (PyStr.fnmatch "COCOA_*_VO.*" nm || PyStr.fnmatch "SASA_*_VO.*" nm)%bool.

(** ** Specification-side definitions *)

(** The three decimal digits of [n], for [0 <= n < 1000]: what the claims
    write [{n:03d}]. *)
Definition digit_char (d : Z) : ascii := ascii_of_nat (48 + Z.to_nat d).

Definition pad3 (n : Z) : string :=
  String (digit_char (n / 100))
    (String (digit_char ((n / 10) mod 10))
       (String (digit_char (n mod 10)) EmptyString)).

(** The subject indices for which no mapping is declared. *)
Definition out_of_range (i : Z) : Prop := i < 1 \/ 97 <= i <= 110 \/ i > 127.

(** [nm] is the first entry of the listing [es] that matches [pat]. *)
Definition first_match_in (pat : string) (es : list (string * node))
  (nm : string) : Prop :=
  exists pre v post,
    es = (pre ++ (nm, v) :: post)%list /\
    PyStr.fnmatch pat nm = true /\
    Forall (fun e => PyStr.fnmatch pat (fst e) = false) pre.





(** ** Example file systems *)

(** A subject directory with its [eeg] directory and the two recordings;
    [vmode] is the mode of the marker file. *)
Definition subject (nm : string) (vmode : Z) : string * node :=
  (nm,
   Dir 493
     [("eeg",
       Dir 493
         [(nm ++ "_task-visualoddball_eeg.vmrk", File vmode 1700000000 ("markers " ++ nm));
          (nm ++ "_task-visualoddball_eeg.eeg", File 420 1700000001 ("signal " ++ nm))])]).

(** Two good subjects out of order, one without [eeg], one out of range,
    one whose marker file cannot be read (mode 0o200), and a plain file. *)
Definition dataset : node :=
  Dir 493
    [subject "sub-002" 420;
     subject "sub-001" 420;
     ("sub-005", Dir 493 []);
     subject "sub-100" 420;
     subject "sub-115" 128;
     ("README", File 420 0 "ds005863")].

(** One subject whose marker file is read-only (mode 0o444). *)
Definition read_only_dataset : node := Dir 493 [subject "sub-001" 292].


(** Two listings of the same three files of one [eeg] directory, with the two
    marker files in either order. *)
Definition listing_ab : list (string * node) :=
  [("a_task-visualoddball_eeg.vmrk", File 420 1 "A");
   ("b_task-visualoddball_eeg.vmrk", File 420 2 "B");
   ("x_task-visualoddball_eeg.eeg", File 420 3 "E")].

Definition listing_ba : list (string * node) :=
  [("b_task-visualoddball_eeg.vmrk", File 420 2 "B");
   ("a_task-visualoddball_eeg.vmrk", File 420 1 "A");
   ("x_task-visualoddball_eeg.eeg", File 420 3 "E")].

Definition one_subject (listing : list (string * node)) : node :=
  Dir 493 [("sub-001", Dir 493 [("eeg", Dir 493 listing)])].



(** A leftover copy in an [eeg] directory that is not writable (0o555). *)
Definition locked_dataset : node :=
  Dir 493
    [("sub-001",
      Dir 493 [("eeg", Dir 365 [("COCOA_013_VO.vmrk", File 292 0 "markers")])])].

(** ** Orders, counts and traces *)

(** The subject number of [d1] is at most that of [d2]. *)
Definition number_le (d1 d2 : Path) : Prop :=
  exists i j, subject_number d1 = Ok i /\ subject_number d2 = Ok j /\ i <= j.

Definition has_number (k : Z) (d : Path) : bool :=
  match subject_number d with
  | Ok i => i =? k
  | Raise _ => false
  end.

(** The directories of [l] whose subject number is [k], in the order of [l]. *)
Definition numbered (k : Z) (l : list Path) : list Path :=
  filter (has_number k) l.

(** Orders and keys on the list [sort] works on. *)
Definition key_le (a b : Z * Path) : Prop := fst a <= fst b.

Definition keyed (kx : Z * Path) : Prop := subject_number (snd kx) = Ok (fst kx).

Definition is_processing (ev : event) : bool :=
  match ev with Processing _ => true | _ => false end.

Definition is_created_vmrk (ev : event) : bool :=
  match ev with CreatedVmrk _ _ => true | _ => false end.

Definition is_created_eeg (ev : event) : bool :=
  match ev with CreatedEeg _ _ => true | _ => false end.

Definition is_error_creating (ev : event) : bool :=
  match ev with ErrorCreating _ => true | _ => false end.

Definition is_deleted (ev : event) : bool :=
  match ev with Deleted _ => true | _ => false end.

Definition is_error_deleting (ev : event) : bool :=
  match ev with ErrorDeleting _ _ => true | _ => false end.

(** How many printed lines of [l] are of the kind [p]. *)
Definition lines (p : event -> bool) (l : list event) : Z :=
  Z.of_nat (List.length (filter p l)).

(** The walk state [st] agrees with what it has printed, and its counters
    stand in the order the loop body keeps: [n] subjects were announced and
    at most [k] of them ended with both copies or with an error. *)
Definition counted_upto (k n : Z) (st : walk_state) : Prop :=
  fixed_vmrk_count st = lines is_created_vmrk (out st) /\
  fixed_eeg_count st = lines is_created_eeg (out st) /\
  error_count st = lines is_error_creating (out st) /\
  n = lines is_processing (out st) /\
  0 <= fixed_eeg_count st <= fixed_vmrk_count st /\
  fixed_vmrk_count st <= fixed_eeg_count st + error_count st /\
  fixed_eeg_count st + error_count st <= k.

Definition counted (n : Z) (st : walk_state) : Prop := counted_upto n n st.

(** ** What a cleanup may change *)

(** The mode [m] of the path [q] after the cleanup of the paths [l], against
    its mode [m0] before: unchanged, or 0o644 when [q] is one of [l]. *)
Definition mode_kept (l : list Path) (q : Path) (m0 m : Z) : Prop :=
  m = m0 \/ (m = 420 /\ In q l).

(** The path [q] in [a] and in [b]: a file keeps its time and data, a
    directory stays one, only a file among [l] may have gone, nothing has
    appeared. *)
Definition cleaned_at (l : list Path) (a b : node) (q : Path) : Prop :=
  match FS.resolve q a, FS.resolve q b with
  | Some (File m0 t0 d0), Some (File m t d) =>
      t = t0 /\ d = d0 /\ mode_kept l q m0 m
  | Some (Dir m0 _), Some (Dir m _) => mode_kept l q m0 m
  | Some (File _ _ _), None => In q l
  | None, None => True
  | _, _ => False
  end.

Definition cleaned (l : list Path) (a b : node) : Prop :=
  forall q, cleaned_at l a b q.

(** The state of cleanup_files.py agrees with what it has printed; [n]
    paths were handled. *)
Definition cleanup_counted (n : Z) (st : CleanupFiles.clean_state) : Prop :=
  CleanupFiles.deleted_count st = lines is_deleted (CleanupFiles.cout st) /\
  CleanupFiles.error_count st = lines is_error_deleting (CleanupFiles.cout st) /\
  CleanupFiles.deleted_count st + CleanupFiles.error_count st = n /\
  0 <= CleanupFiles.deleted_count st /\ 0 <= CleanupFiles.error_count st.

(** The states of the two cleanup scripts hold the same file system, the
    same number of deleted files and the same printed lines. *)
Definition same_cleanup (a : CleanupAndFix.clean_state)
  (b : CleanupFiles.clean_state) : Prop :=
  CleanupAndFix.cfs a = CleanupFiles.cfs b /\
  CleanupAndFix.deleted_count a = CleanupFiles.deleted_count b /\
  CleanupAndFix.cout a = CleanupFiles.cout b.

(** The names of the listing [es] the walkers take for subject
    directories, in listing order. *)
Definition sub_names (es : list (string * node)) : list string :=
  filter (fun nm => (match FS.lookup nm es with
                     | Some n => FS.is_dir_node n
                     | None => false
                     end && PyStr.startswith "sub-" nm)%bool)
         (map fst es).

(** An entry operation that keeps the kind of an entry, creates none, and
    removes regular files only: [os.chmod] and [unlink] are such. *)
Definition keeps_kinds (f : Z -> option node -> result (option node)) : Prop :=
  forall pm cur r, f pm cur = Ok r ->
    match cur, r with
    | Some old, Some v => FS.is_dir_node v = FS.is_dir_node old
    | Some old, None => FS.is_dir_node old = false
    | None, _ => False
    end.


(** * Properties *)

(** ** Text *)

Lemma format_03d_table :
  forallb (fun k => String.eqb (PyStr.format_03d (Z.of_nat k)) (pad3 (Z.of_nat k)))
          (seq 0 1000) = true.
Proof. vm_compute. reflexivity. Qed.

Lemma format_03d_pad3 (n : Z) : 0 <= n < 1000 -> PyStr.format_03d n = pad3 n.
Proof.
  intros Hn.
  pose proof format_03d_table as T.
  rewrite forallb_forall in T.
  specialize (T (Z.to_nat n)).
  rewrite Z2Nat.id in T by lia.
  apply String.eqb_eq, T, in_seq. lia.
Qed.

(** ** The mapper of cleanup_and_fix.py *)

Ltac range_cases :=
  repeat match goal with
         | |- context [?a <=? ?b] => destruct (Z.leb_spec a b); simpl; try lia
         end.

(** C1. For a subject directory whose number is [i], the mapper returns
    COCOA_{i+12}, COCOA_{i+13}, COCOA_{i+14} or SASA_{i-96}, three digits wide,
    followed by _VO. and the extension as given, in the ranges 1..56, 57..77,
    78..96 and 111..127. *)
Theorem get_expected_filename_ranges :
  forall (subject_dir : Path) (i : Z) (ext : string),
    subject_number subject_dir = Ok i ->
    (1 <= i <= 56 ->
     CleanupAndFix.get_expected_filename subject_dir ext
     = Ok (Some ("COCOA_" ++ pad3 (i + 12) ++ "_VO." ++ ext))) /\
    (57 <= i <= 77 ->
     CleanupAndFix.get_expected_filename subject_dir ext
     = Ok (Some ("COCOA_" ++ pad3 (i + 13) ++ "_VO." ++ ext))) /\
    (78 <= i <= 96 ->
     CleanupAndFix.get_expected_filename subject_dir ext
     = Ok (Some ("COCOA_" ++ pad3 (i + 14) ++ "_VO." ++ ext))) /\
    (111 <= i <= 127 ->
     CleanupAndFix.get_expected_filename subject_dir ext
     = Ok (Some ("SASA_" ++ pad3 (i - 96) ++ "_VO." ++ ext))).
Proof.
  intros subject_dir i ext Hi.
  unfold CleanupAndFix.get_expected_filename. rewrite Hi. simpl.
  repeat split; intros Hr; range_cases;
    rewrite format_03d_pad3 by lia; reflexivity.
Qed.

Lemma get_expected_filename_ranges_witness :
  CleanupAndFix.get_expected_filename ["sub-001"] "vmrk"
  = Ok (Some "COCOA_013_VO.vmrk").
Proof.
  apply (proj1 (get_expected_filename_ranges ["sub-001"] 1 "vmrk" eq_refl)).
  lia.
Defined.

Lemma get_expected_filename_sentinel :
  forall (subject_dir : Path) (i : Z) (ext : string),
    subject_number subject_dir = Ok i ->
    out_of_range i ->
    CleanupAndFix.get_expected_filename subject_dir ext = Ok None.
Proof.
  intros subject_dir i ext Hi Hr.
  unfold CleanupAndFix.get_expected_filename. rewrite Hi. simpl.
  unfold out_of_range in Hr. range_cases; reflexivity.
Qed.

(** Whether the mapper raises, returns the sentinel or returns a name does
    not depend on the extension. *)
Lemma get_expected_filename_shape :
  forall (subject_dir : Path) (e1 e2 : string),
    match CleanupAndFix.get_expected_filename subject_dir e1,
          CleanupAndFix.get_expected_filename subject_dir e2 with
    | Raise x, Raise y => x = y
    | Ok None, Ok None => True
    | Ok (Some _), Ok (Some _) => True
    | _, _ => False
    end.
Proof.
  intros subject_dir e1 e2.
  unfold CleanupAndFix.get_expected_filename.
  destruct (subject_number subject_dir) as [i|x]; simpl; [|reflexivity].
  repeat match goal with
         | |- context [if ?c then _ else _] => destruct c; simpl
         end; exact I.
Qed.

(** The older mapper of fix_vmrk_files.py disagrees on 1..56 and 78..96 and
    has no sentinel. *)
Example fix_vmrk_mapper_differs :
  FixVmrk.get_expected_filename ["sub-001"] "vmrk" = Ok "COCOA_014_VO.vmrk" /\
  FixVmrk.get_expected_filename ["sub-100"] "vmrk" = Ok "SUBJECT_100_VO.vmrk".
Proof. split; reflexivity. Qed.

(** ** Directory listings *)

Lemma lookup_put_same (nm : string) (v : node) (es : list (string * node)) :
  FS.lookup nm (FS.put nm v es) = Some v.
Proof.
  induction es as [|[k x] es IH]; simpl.
  - now rewrite String.eqb_refl.
  - destruct (String.eqb k nm) eqn:E; simpl; rewrite E; auto.
Qed.

Lemma lookup_put_other (k nm : string) (v : node) (es : list (string * node)) :
  k <> nm -> FS.lookup k (FS.put nm v es) = FS.lookup k es.
Proof.
  intros Hk. induction es as [|[k' x] es IH]; simpl.
  - destruct (String.eqb_spec nm k); congruence.
  - destruct (String.eqb_spec k' nm); simpl.
    + subst. destruct (String.eqb_spec nm k); congruence.
    + now rewrite IH.
Qed.

Lemma lookup_remove_same (nm : string) (es : list (string * node)) :
  FS.lookup nm (FS.remove nm es) = None.
Proof.
  induction es as [|[k x] es IH]; simpl; auto.
  destruct (String.eqb k nm) eqn:E; simpl; auto. now rewrite E.
Qed.

Lemma lookup_remove_other (k nm : string) (es : list (string * node)) :
  k <> nm -> FS.lookup k (FS.remove nm es) = FS.lookup k es.
Proof.
  intros Hk. induction es as [|[k' x] es IH]; simpl; auto.
  destruct (String.eqb_spec k' nm); simpl.
  - subst. destruct (String.eqb_spec nm k); congruence.
  - now rewrite IH.
Qed.

Lemma put_lookup_id (nm : string) (v : node) (es : list (string * node)) :
  FS.lookup nm es = Some v -> FS.put nm v es = es.
Proof.
  induction es as [|[k x] es IH]; simpl; [discriminate|].
  destruct (String.eqb k nm) eqn:E; intros H.
  - now inversion H.
  - now rewrite IH.
Qed.

Lemma put_put (nm : string) (v w : node) (es : list (string * node)) :
  FS.put nm v (FS.put nm w es) = FS.put nm v es.
Proof.
  induction es as [|[k x] es IH]; simpl.
  - now rewrite String.eqb_refl.
  - destruct (String.eqb k nm) eqn:E; simpl; rewrite E; auto. now rewrite IH.
Qed.

Lemma put_names (nm : string) (v x : node) (es : list (string * node)) :
  FS.lookup nm es = Some x -> map fst (FS.put nm v es) = map fst es.
Proof.
  induction es as [|[k y] es IH]; simpl; [discriminate|].
  destruct (String.eqb k nm); simpl; [reflexivity|].
  intros H. now rewrite IH.
Qed.


Lemma In_lookup (nm : string) (v : node) (es : list (string * node)) :
  In (nm, v) es -> exists w, FS.lookup nm es = Some w.
Proof.
  induction es as [|[k x] es IH]; simpl; [tauto|].
  intros [H|H]; destruct (String.eqb_spec k nm); eauto.
  inversion H; congruence.
Qed.

(** ** Transport of the file-system calls below a directory entry *)

Lemma glob_cons (pm : Z) (es : list (string * node)) (c : string) (ch : node)
  (q : Path) (pat : string) :
  FS.lookup c es = Some ch ->
  FS.glob (Dir pm es) (c :: q) pat = map (cons c) (FS.glob ch q pat).
Proof.
  intros H. unfold FS.glob. simpl. rewrite H.
  destruct (FS.resolve q ch) as [[|m es']|]; simpl; auto.
  now rewrite map_map.
Qed.

Lemma name_cons (c : string) (p : Path) : p <> [] -> name (c :: p) = name p.
Proof. destruct p; [congruence|reflexivity]. Qed.

Lemma path_eqb_cons (c : string) (p q : Path) :
  FS.path_eqb (c :: p) (c :: q) = FS.path_eqb p q.
Proof.
  unfold FS.path_eqb.
  destruct (list_eq_dec string_dec p q), (list_eq_dec string_dec (c :: p) (c :: q));
    congruence.
Qed.

Lemma alter_at_cons (f : Z -> option node -> result (option node))
  (pm : Z) (es : list (string * node)) (c : string) (ch : node) (p : Path) :
  FS.lookup c es = Some ch -> p <> [] ->
  FS.alter_at f (c :: p) (Dir pm es)
  = (ch' <- FS.alter_at f p ch ;; Ok (Dir pm (FS.put c ch' es))).
Proof.
  intros H Hp. destruct p; [congruence|]. simpl. now rewrite H.
Qed.

Lemma copy2_cons (pm : Z) (es : list (string * node)) (c : string) (ch : node)
  (s t : Path) :
  FS.lookup c es = Some ch -> s <> [] -> t <> [] ->
  FS.copy2 (Dir pm es) (c :: s) (c :: t)
  = (ch' <- FS.copy2 ch s t ;; Ok (Dir pm (FS.put c ch' es))).
Proof.
  intros H Hs Ht. unfold FS.copy2, FS.is_dir. simpl FS.resolve. rewrite H.
  rewrite (name_cons c s Hs).
  assert (E : forall b : bool,
             (if b then joinpath (c :: t) (name s) else c :: t)
             = c :: (if b then joinpath t (name s) else t)) by (now intros []).
  rewrite E, path_eqb_cons.
  destruct (FS.path_eqb s _); [reflexivity|].
  destruct (FS.resolve s ch) as [[m mt d|]|]; try reflexivity.
  destruct (FS.readable m); [|reflexivity].
  apply alter_at_cons; auto.
  destruct (match FS.resolve t ch with Some n => FS.is_dir_node n | None => false end);
    unfold joinpath; destruct t; simpl; congruence.
Qed.

(** ** The loop bodies in terms of [copy_stage] *)

Lemma cleanup_and_fix_loop_body_stage (st : walk_state) (sd : Path) :
  CleanupAndFix.loop_body st sd
  = let st1 := print st (Processing (name sd)) in
    if negb (FS.exists_ (fs st1) (joinpath sd "eeg"))
    then print st1 (WarnNoEegDir (name sd))
    else copy_stage (joinpath sd "eeg") (name sd)
           (CleanupAndFix.get_expected_filename sd "vmrk")
           (CleanupAndFix.get_expected_filename sd "eeg")
           (joinpath sd "eeg") st1.
Proof. reflexivity. Qed.

Lemma fix_vmrk_loop_body_stage (st : walk_state) (sd : Path) :
  FixVmrk.loop_body st sd
  = let st1 := print st (Processing (name sd)) in
    if negb (FS.exists_ (fs st1) (joinpath sd "eeg"))
    then print st1 (WarnNoEegDir (name sd))
    else copy_stage (joinpath sd "eeg") (name sd)
           (always_named (FixVmrk.get_expected_filename sd "vmrk"))
           (always_named (FixVmrk.get_expected_filename sd "eeg"))
           (joinpath sd "eeg") st1.
Proof.
  unfold FixVmrk.loop_body, copy_stage. cbv zeta.
  destruct (negb _); [reflexivity|].
  destruct (FS.glob _ _ vmrk_pattern); [reflexivity|].
  destruct (FS.glob _ _ eeg_pattern); [reflexivity|].
  destruct (FixVmrk.get_expected_filename sd "vmrk"); [|reflexivity].
  simpl always_named. cbv iota.
  destruct (FS.copy2 _ _ _); [|reflexivity].
  destruct (FixVmrk.get_expected_filename sd "eeg"); reflexivity.
Qed.

Lemma glob_nonempty (n : node) (p : Path) (pat : string) (x : Path) :
  In x (FS.glob n p pat) -> x <> [].
Proof.
  unfold FS.glob. destruct (FS.resolve p n) as [[|m es]|]; simpl; try tauto.
  rewrite in_map_iff. intros [e [<- _]]. unfold joinpath. now destruct p.
Qed.

Lemma copy_stage_cons (label : Path) (d : string) (gv ge : result (option string))
  (p : Path) (st : walk_state) (pm : Z) (es : list (string * node))
  (c : string) (ch : node) :
  fs st = Dir pm es -> FS.lookup c es = Some ch ->
  copy_stage label d gv ge (c :: p) st
  = let st' := copy_stage label d gv ge p (with_fs st ch) in
    with_fs st' (Dir pm (FS.put c (fs st') es)).
Proof.
  destruct st as [f v e r o]. simpl. intros -> H.
  unfold copy_stage. simpl fs.
  rewrite !(glob_cons pm es c ch p _ H).
  pose proof (glob_nonempty ch p vmrk_pattern) as Nv.
  pose proof (glob_nonempty ch p eeg_pattern) as Ne.
  destruct (FS.glob ch p vmrk_pattern) as [|sv lv]; simpl.
  { unfold print, with_fs; simpl. now rewrite (put_lookup_id _ _ _ H). }
  destruct (FS.glob ch p eeg_pattern) as [|se le]; simpl.
  { unfold print, with_fs; simpl. now rewrite (put_lookup_id _ _ _ H). }
  assert (Hsv : sv <> []) by (apply Nv; now left).
  assert (Hse : se <> []) by (apply Ne; now left).
  assert (J : forall t, joinpath p t <> []) by (intros t; unfold joinpath; now destruct p).
  destruct gv as [[tv|]|x];
    try (unfold print, except, with_fs; simpl; now rewrite (put_lookup_id _ _ _ H)).
  change (joinpath (c :: p) tv) with (c :: joinpath p tv).
  rewrite (copy2_cons pm es c ch sv (joinpath p tv) H Hsv (J tv)).
  rewrite (name_cons c sv Hsv).
  destruct (FS.copy2 ch sv (joinpath p tv)) as [ch1|x]; simpl;
    [|unfold except, with_fs; simpl; now rewrite (put_lookup_id _ _ _ H)].
  destruct ge as [[te|]|x];
    try (unfold except, with_fs; simpl; reflexivity).
  change (joinpath (c :: p) te) with (c :: joinpath p te).
  rewrite (copy2_cons pm _ c ch1 se (joinpath p te) (lookup_put_same _ _ _) Hse (J te)).
  rewrite (name_cons c se Hse).
  destruct (FS.copy2 ch1 se (joinpath p te)) as [ch2|x]; simpl.
  - unfold with_fs; simpl. now rewrite put_put.
  - reflexivity.
Qed.

(** On the base directory, the loop body for the subject [nm] is
    [subject_body] on that subject's node. *)
Lemma stage_subject (d : string) (gv ge : result (option string))
  (st : walk_state) (pm : Z) (es : list (string * node)) (sub : node) :
  fs st = Dir pm es -> FS.lookup d es = Some sub ->
  (let st1 := print st (Processing d) in
   if negb (FS.exists_ (fs st1) [d; "eeg"])
   then print st1 (WarnNoEegDir d)
   else copy_stage [d; "eeg"] d gv ge [d; "eeg"] st1)
  = let st' := subject_body d gv ge (with_fs st sub) in
    with_fs st' (Dir pm (FS.put d (fs st') es)).
Proof.
  intros Hfs H. unfold subject_body. cbv zeta.
  unfold FS.exists_. simpl fs. rewrite Hfs. simpl FS.resolve. rewrite H.
  destruct (match sub with Dir _ _ => _ | File _ _ _ => _ end) eqn:E.
  - simpl negb. cbv iota.
    rewrite (copy_stage_cons _ d gv ge ["eeg"] (print st (Processing d)) pm es d sub);
      [reflexivity|simpl; exact Hfs|exact H].
  - simpl. unfold print, with_fs. simpl. rewrite Hfs.
    now rewrite (put_lookup_id _ _ _ H).
Qed.

(** ** Counters and output are accumulated *)

Ltac walk_eq :=
  unfold shift, print, except, with_fs, fresh; simpl;
  f_equal; try lia; rewrite <- ?app_assoc; reflexivity.

Lemma copy_stage_shift (label : Path) (d : string) (gv ge : result (option string))
  (p : Path) (st : walk_state) :
  copy_stage label d gv ge p st
  = shift st (copy_stage label d gv ge p (fresh (fs st))).
Proof.
  destruct st as [f v e r o]. unfold copy_stage. simpl fs.
  destruct (FS.glob f p vmrk_pattern); [walk_eq|].
  destruct (FS.glob f p eeg_pattern); [walk_eq|].
  destruct gv as [[tv|]|x]; try walk_eq.
  destruct (FS.copy2 f _ _); [|walk_eq]. simpl fs.
  destruct ge as [[te|]|x]; try walk_eq.
  destruct (FS.copy2 _ _ _); walk_eq.
Qed.

Lemma subject_body_shift (d : string) (gv ge : result (option string))
  (st : walk_state) :
  subject_body d gv ge st = shift st (subject_body d gv ge (fresh (fs st))).
Proof.
  unfold subject_body. cbv zeta. simpl fs.
  destruct (negb _).
  - destruct st; walk_eq.
  - rewrite copy_stage_shift.
    rewrite (copy_stage_shift _ _ _ _ _ (print (fresh (fs st)) _)).
    destruct st; walk_eq.
Qed.

Lemma shift_fs (base st : walk_state) : fs (shift base st) = fs st.
Proof. reflexivity. Qed.

(** ** Sorting keeps the elements *)

Lemma keys_of_snd (l : list Path) (ks : list (Z * Path)) :
  keys_of l = Ok ks -> map snd ks = l.
Proof.
  revert ks. induction l as [|x l IH]; simpl; intros ks H.
  - now inversion H.
  - destruct (subject_number x); simpl in H; [|discriminate].
    destruct (keys_of l); simpl in H; [|discriminate].
    inversion H; subst. simpl. f_equal. now apply IH.
Qed.

Lemma insert_by_key_perm (k : Z) (x : Path) (l : list (Z * Path)) :
  Permutation (insert_by_key k x l) ((k, x) :: l).
Proof.
  induction l as [|[k' y] l IH]; simpl; auto.
  destruct (k <=? k'); auto.
  rewrite IH. apply perm_swap.
Qed.

Lemma sort_keyed_perm (l : list (Z * Path)) : Permutation (sort_keyed l) l.
Proof.
  induction l as [|[k x] l IH]; simpl; auto.
  rewrite insert_by_key_perm. now constructor.
Qed.

Lemma sort_by_subject_number_perm (l ds : list Path) :
  sort_by_subject_number l = Ok ds -> Permutation ds l.
Proof.
  unfold sort_by_subject_number.
  destruct (keys_of l) as [ks|] eqn:E; simpl; [|discriminate].
  intros H. inversion H; subst.
  rewrite <- (keys_of_snd _ _ E). apply Permutation_map, sort_keyed_perm.
Qed.

Lemma distinct_NoDup (l : list string) : distinct l = true -> NoDup l.
Proof.
  induction l as [|x l IH]; simpl; intros H; constructor.
  - apply andb_prop in H as [H _]. intros Hin.
    assert (E : existsb (String.eqb x) l = true).
    { apply existsb_exists. exists x. split; auto. apply String.eqb_refl. }
    rewrite E in H. discriminate.
  - apply andb_prop in H as [_ H]. auto.
Qed.

(** The subject directories are entries of the base directory, each listed
    once when the names of the base directory are distinct. *)
Lemma subject_dirs_of_base (pm : Z) (es : list (string * node)) (ds : list Path) :
  subject_dirs_of (Dir pm es) [] = Ok ds ->
  (forall d, In d ds -> exists nm sub, d = [nm] /\ FS.lookup nm es = Some sub) /\
  (distinct (map fst es) = true -> NoDup ds).
Proof.
  unfold subject_dirs_of, subject_candidates, FS.iterdir. simpl. intros H.
  apply sort_by_subject_number_perm in H. split.
  - intros d Hd. apply (Permutation_in _ H) in Hd.
    apply filter_In in Hd as [Hd Hf]. apply in_map_iff in Hd as [[nm n] [<- Hin]].
    simpl in *. apply andb_prop in Hf as [Hf _].
    unfold FS.is_dir in Hf. simpl in Hf.
    destruct (FS.lookup nm es) as [sub|] eqn:E; [|discriminate].
    exists nm, sub. split; [reflexivity|exact E].
  - intros Hdist. apply (Permutation_NoDup (Permutation_sym H)).
    apply NoDup_filter.
    apply distinct_NoDup in Hdist.
    assert (G : forall l : list (string * node),
               NoDup (map fst l) -> NoDup (map (fun e => joinpath [] (fst e)) l)).
    { induction l as [|[k x] l IH]; simpl; intros N; constructor;
        inversion N; subst; auto.
      rewrite in_map_iff. intros [[k' x'] [E Hin]]. simpl in E.
      inversion E; subst. apply H2. apply in_map_iff. exists (k, x'). auto. }
    auto.
Qed.

(** ** The loop over the subject directories *)

Lemma same_report_refl (a : walk_state) : same_report a a.
Proof. repeat split. Qed.

Lemma combine_same_report (l1 l2 : list walk_state) (n : node) :
  Forall2 same_report l1 l2 -> combine l1 n = combine l2 n.
Proof.
  intros H. unfold combine, total.
  induction H as [|a b l1 l2 (Hv & He & Hr & Ho) _ IH]; [reflexivity|].
  inversion IH. simpl. congruence.
Qed.

Section Walk.

Variable body : walk_state -> Path -> walk_state.
Variables gv ge : string -> result (option string).

Hypothesis body_stage :
  forall (st : walk_state) (nm : string),
    body st [nm]
    = let st1 := print st (Processing nm) in
      if negb (FS.exists_ (fs st1) [nm; "eeg"])
      then print st1 (WarnNoEegDir nm)
      else copy_stage [nm; "eeg"] nm (gv nm) (ge nm) [nm; "eeg"] st1.

Lemma body_on_base (st : walk_state) (pm : Z) (es : list (string * node))
  (nm : string) (sub : node) :
  fs st = Dir pm es -> FS.lookup nm es = Some sub ->
  body st [nm]
  = let r := subject_result gv ge nm sub in
    shift st (with_fs r (Dir pm (FS.put nm (fs r) es))).
Proof.
  intros Hfs H. rewrite body_stage.
  rewrite (stage_subject nm (gv nm) (ge nm) st pm es sub Hfs H).
  cbv zeta. rewrite subject_body_shift. reflexivity.
Qed.

Lemma body_solo_report (pm : Z) (es : list (string * node)) (nm : string) (sub : node) :
  FS.lookup nm es = Some sub ->
  same_report (body (fresh (Dir pm es)) [nm]) (subject_result gv ge nm sub).
Proof.
  intros H. rewrite (body_on_base (fresh (Dir pm es)) pm es nm sub eq_refl H).
  cbv zeta. unfold same_report, shift, with_fs, fresh. simpl. repeat split.
Qed.


Lemma fold_body (ds : list Path) :
  forall (st : walk_state) (pm : Z) (es : list (string * node)),
    fs st = Dir pm es ->
    NoDup ds ->
    (forall d, In d ds -> exists nm sub, d = [nm] /\ FS.lookup nm es = Some sub) ->
    exists es',
      fold_left body ds st
      = shift st (combine (map (body (fresh (Dir pm es))) ds) (Dir pm es')) /\
      (forall nm sub, In [nm] ds -> FS.lookup nm es = Some sub ->
                      FS.lookup nm es' = Some (fs (subject_result gv ge nm sub))) /\
      (forall nm, ~ In [nm] ds -> FS.lookup nm es' = FS.lookup nm es) /\
      map fst es' = map fst es.
Proof.
  induction ds as [|d ds IH]; intros st pm es Hfs Hnd Hin.
  - exists es. simpl. split; [|split; [tauto|split; reflexivity]].
    destruct st as [f v e r o]. simpl in Hfs. subst.
    unfold shift, combine, total. simpl. f_equal; try lia. now rewrite app_nil_r.
  - inversion Hnd as [|? ? Hd Hnd']; subst.
    destruct (Hin d (or_introl eq_refl)) as (nm & sub & -> & Hsub).
    simpl fold_left.
    pose proof (body_on_base st pm es nm sub Hfs Hsub) as E. cbv zeta in E.
    set (r := subject_result gv ge nm sub) in *.
    set (es1 := FS.put nm (fs r) es) in *.
    assert (Hin1 : forall d, In d ds ->
              exists nm' sub', d = [nm'] /\ FS.lookup nm' es1 = Some sub' /\
                               FS.lookup nm' es = Some sub').
    { intros d' Hd'. destruct (Hin d' (or_intror Hd')) as (nm' & sub' & -> & H').
      exists nm', sub'. repeat split; auto. unfold es1.
      rewrite lookup_put_other; auto. intros ->. contradiction. }
    destruct (IH (body st [nm]) pm es1) as (es' & Hfold & Hin' & Hout' & Hnames); auto.
    { now rewrite E. }
    { intros d' Hd'. destruct (Hin1 d' Hd') as (nm' & sub' & ? & ? & _). eauto. }
    exists es'. split; [|split; [|split]].
    + rewrite Hfold.
      rewrite (combine_same_report
                 (map (body (fresh (Dir pm es1))) ds)
                 (map (body (fresh (Dir pm es))) ds)).
      2:{ clear - Hin1 body_stage. induction ds as [|d' ds' IHd]; constructor.
          - destruct (Hin1 d' (or_introl eq_refl)) as (nm' & sub' & -> & H1 & H2).
            destruct (body_solo_report pm es1 nm' sub' H1) as (a1 & a2 & a3 & a4).
            destruct (body_solo_report pm es nm' sub' H2) as (b1 & b2 & b3 & b4).
            unfold same_report. repeat split; congruence.
          - apply IHd. intros d Hd. apply Hin1. now right. }
      destruct (body_solo_report pm es nm sub Hsub) as (a1 & a2 & a3 & a4).
      fold r in a1, a2, a3, a4.
      rewrite E. unfold shift, combine, total, with_fs. simpl.
      rewrite a1, a2, a3, a4.
      f_equal; try lia. now rewrite app_assoc.
    + intros nm' sub' [Heq|Hd'] Hl.
      * inversion Heq; subst nm'. rewrite Hout' by assumption.
        unfold es1. rewrite lookup_put_same.
        assert (sub' = sub) by congruence. subst sub'. reflexivity.
      * destruct (Hin1 _ Hd') as (nm2 & sub2 & Heq & H1 & H2).
        inversion Heq; subst nm2.
        rewrite (Hin' nm' sub2 Hd' H1). congruence.
    + intros nm' Hn. rewrite Hout' by (intros ?; apply Hn; now right).
      unfold es1. apply lookup_put_other. intros ->. apply Hn. now left.
    + rewrite Hnames. unfold es1. eapply put_names; eauto.
Qed.

End Walk.

(** ** Changing one entry: what the other paths see *)

Lemma is_prefix_app (p q : Path) :
  is_prefix p q = true <-> exists ext, q = (p ++ ext)%list.
Proof.
  revert q. induction p as [|a p IH]; intros q; simpl.
  - split; eauto.
  - destruct q as [|b q].
    + split; [discriminate|]. intros [ext H]. discriminate.
    + rewrite andb_true_iff, IH. split.
      * intros [E [ext ->]]. apply String.eqb_eq in E. subst. eauto.
      * intros [ext H]. inversion H; subst. rewrite String.eqb_refl. eauto.
Qed.

Lemma is_prefix_refl (p : Path) : is_prefix p p = true.
Proof. apply is_prefix_app. exists []. now rewrite app_nil_r. Qed.

Lemma alter_at_last (f : Z -> option node -> result (option node))
  (pm : Z) (es : list (string * node)) (c : string) :
  FS.alter_at f [c] (Dir pm es)
  = (r <- f pm (FS.lookup c es) ;;
     Ok (Dir pm (match r with
                 | Some v => FS.put c v es
                 | None => FS.remove c es
                 end))).
Proof. reflexivity. Qed.

Lemma alter_at_deeper (f : Z -> option node -> result (option node))
  (pm : Z) (es : list (string * node)) (c c' : string) (p : Path) :
  FS.alter_at f (c :: c' :: p) (Dir pm es)
  = match FS.lookup c es with
    | Some ch => ch' <- FS.alter_at f (c' :: p) ch ;; Ok (Dir pm (FS.put c ch' es))
    | None => Raise OSError
    end.
Proof. reflexivity. Qed.

Lemma alter_at_dir (f : Z -> option node -> result (option node))
  (p : Path) (n n' : node) :
  FS.alter_at f p n = Ok n' ->
  exists pm es es', n = Dir pm es /\ n' = Dir pm es'.
Proof.
  destruct n as [|pm es]; [destruct p; discriminate|].
  destruct p as [|c [|c' p]]; [discriminate| |].
  - rewrite alter_at_last.
    destruct (f pm (FS.lookup c es)); simpl; [|discriminate].
    intros H; inversion H; eauto.
  - rewrite alter_at_deeper.
    destruct (FS.lookup c es); [|discriminate].
    destruct (FS.alter_at f (c' :: p) n); simpl; [|discriminate].
    intros H; inversion H; eauto.
Qed.

Lemma alter_at_step (f : Z -> option node -> result (option node))
  (pm : Z) (es : list (string * node)) (c : string) (p : Path) (n' : node) :
  p <> [] ->
  FS.alter_at f (c :: p) (Dir pm es) = Ok n' ->
  exists ch ch', FS.lookup c es = Some ch /\ FS.alter_at f p ch = Ok ch' /\
                 n' = Dir pm (FS.put c ch' es).
Proof.
  intros Hp. destruct p as [|c' p]; [congruence|]. rewrite alter_at_deeper.
  destruct (FS.lookup c es) as [ch|]; [|discriminate].
  destruct (FS.alter_at f (c' :: p) ch) as [ch'|] eqn:E; simpl; [|discriminate].
  intros H; inversion H. eauto.
Qed.

Lemma alter_at_frame (f : Z -> option node -> result (option node)) (p : Path) :
  forall (n n' : node) (q : Path),
    FS.alter_at f p n = Ok n' ->
    is_prefix q p = false -> is_prefix p q = false ->
    FS.resolve q n' = FS.resolve q n.
Proof.
  induction p as [|c p IH]; intros n n' q H Hqp Hpq; [discriminate|].
  destruct q as [|b q]; [discriminate|].
  destruct (alter_at_dir _ _ _ _ H) as (pm & es & es' & -> & ->).
  simpl in Hqp, Hpq.
  destruct p as [|c' p].
  - rewrite alter_at_last in H.
    destruct (f pm (FS.lookup c es)) as [r|]; simpl in H; [|discriminate].
    inversion H; subst es'. simpl.
    destruct (String.eqb_spec c b) as [->|Hne]; [simpl in Hpq; discriminate|].
    destruct r; [rewrite lookup_put_other|rewrite lookup_remove_other]; auto.
  - apply alter_at_step in H as (ch & ch' & Hl & Ha & E); [|discriminate].
    inversion E; subst es'. simpl FS.resolve.
    destruct (String.eqb_spec b c) as [->|Hne].
    + rewrite lookup_put_same, Hl. rewrite String.eqb_refl in Hpq. simpl in Hpq, Hqp.
      eapply IH; eauto.
    + rewrite lookup_put_other by auto. reflexivity.
Qed.

Lemma alter_at_above (f : Z -> option node -> result (option node)) (q : Path) :
  forall (n n' : node) (ext : Path),
    FS.alter_at f (q ++ ext)%list n = Ok n' -> ext <> [] ->
    exists m es es',
      FS.resolve q n = Some (Dir m es) /\ FS.resolve q n' = Some (Dir m es').
Proof.
  induction q as [|a q IH]; intros n n' ext H Hext.
  - destruct (alter_at_dir _ _ _ _ H) as (pm & es & es' & -> & ->).
    simpl. eauto.
  - destruct (alter_at_dir _ _ _ _ H) as (pm & es & es' & -> & ->).
    simpl app in H. apply alter_at_step in H as (ch & ch' & Hl & Ha & E).
    + inversion E; subst es'. simpl. rewrite lookup_put_same, Hl.
      eapply IH; eauto.
    + destruct q; simpl; [assumption|discriminate].
Qed.

Lemma alter_at_here (f : Z -> option node -> result (option node)) (par : Path) :
  forall (n n' : node) (c : string),
    FS.alter_at f (par ++ [c])%list n = Ok n' ->
    exists pm es r,
      FS.resolve par n = Some (Dir pm es) /\
      f pm (FS.lookup c es) = Ok r /\
      FS.resolve par n'
      = Some (Dir pm (match r with
                      | Some v => FS.put c v es
                      | None => FS.remove c es
                      end)).
Proof.
  induction par as [|a par IH]; intros n n' c H.
  - destruct (alter_at_dir _ _ _ _ H) as (pm & es & es' & -> & ->).
    simpl app in H. rewrite alter_at_last in H.
    destruct (f pm (FS.lookup c es)) as [r|] eqn:E; simpl in H; [|discriminate].
    inversion H. exists pm, es, r. simpl. auto.
  - destruct (alter_at_dir _ _ _ _ H) as (pm & es & es' & -> & ->).
    simpl app in H. apply alter_at_step in H as (ch & ch' & Hl & Ha & E).
    + inversion E; subst es'. simpl. rewrite lookup_put_same, Hl.
      eapply IH; eauto.
    + destruct par; discriminate.
Qed.

Lemma resolve_app (p q : Path) :
  forall n : node,
    FS.resolve (p ++ q)%list n
    = match FS.resolve p n with
      | Some m => FS.resolve q m
      | None => None
      end.
Proof.
  induction p as [|a p IH]; intros n; simpl; [reflexivity|].
  destruct n as [|pm es]; [reflexivity|].
  destruct (FS.lookup a es); [apply IH|reflexivity].
Qed.

(** ** Strings and patterns *)

Lemma append_assoc (a b c : string) : (a ++ b) ++ c = a ++ (b ++ c).
Proof. induction a as [|x a IH]; simpl; congruence. Qed.

Lemma length_append (a b : string) :
  String.length (a ++ b) = (String.length a + String.length b)%nat.
Proof. induction a as [|x a IH]; simpl; congruence. Qed.

Lemma append_tail_inj (x : string) :
  forall y a b : string,
    x ++ a = y ++ b -> String.length a = String.length b -> a = b.
Proof.
  induction x as [|c x IH]; intros y a b H L.
  - destruct y as [|c' y]; [exact H|].
    simpl in H. subst a. simpl in L. rewrite length_append in L. lia.
  - destruct y as [|c' y].
    + simpl in H. subst b. simpl in L. rewrite length_append in L. lia.
    + simpl in H. inversion H. eauto.
Qed.

Lemma fnmatch_star_free (lit : string) :
  star_free lit = true ->
  forall nm : string, PyStr.fnmatch lit nm = true -> nm = lit.
Proof.
  induction lit as [|c lit IH]; simpl; intros SF nm H.
  - destruct nm; [reflexivity|discriminate].
  - apply andb_prop in SF as [Hc SF].
    destruct (Ascii.eqb c "*"); [discriminate|].
    destruct nm as [|c' nm]; [discriminate|].
    apply andb_prop in H as [E H]. apply Ascii.eqb_eq in E. subst.
    f_equal. auto.
Qed.

Lemma fnmatch_star_suffix (lit nm : string) :
  star_free lit = true ->
  PyStr.fnmatch (String "*" lit) nm = true ->
  exists pre : string, nm = pre ++ lit.
Proof.
  intros SF. simpl.
  induction nm as [|c nm IH]; intros H.
  - apply orb_prop in H as [H|H]; [|discriminate].
    exists EmptyString. simpl. now apply fnmatch_star_free.
  - apply orb_prop in H as [H|H].
    + exists EmptyString. simpl. now apply fnmatch_star_free.
    + destruct (IH H) as [pre ->]. now exists (String c pre).
Qed.

(** A name ending in [_VO.vmrk] or [_VO.eeg] is no source file. *)
Lemma vo_not_source (x ext : string) :
  ext = "vmrk" \/ ext = "eeg" ->
  PyStr.fnmatch vmrk_pattern (x ++ "_VO." ++ ext) = false /\
  PyStr.fnmatch eeg_pattern (x ++ "_VO." ++ ext) = false.
Proof.
  intros Hext. split.
  - destruct (PyStr.fnmatch vmrk_pattern _) eqn:E; [|reflexivity]. exfalso.
    apply fnmatch_star_suffix in E as [pre E]; [|reflexivity].
    destruct Hext as [-> | ->].
    + change (x ++ "_VO." ++ "vmrk") with (x ++ "_VO.vmrk") in E.
      change "_task-visualoddball_eeg.vmrk"
        with ("_task-visualoddball_" ++ "eeg.vmrk") in E.
      rewrite <- append_assoc in E.
      apply append_tail_inj in E; [discriminate|reflexivity].
    + change (x ++ "_VO." ++ "eeg") with (x ++ "_VO" ++ ".eeg") in E.
      change "_task-visualoddball_eeg.vmrk"
        with ("_task-visualoddball_eeg." ++ "vmrk") in E.
      rewrite <- !append_assoc in E.
      apply append_tail_inj in E; [discriminate|reflexivity].
  - destruct (PyStr.fnmatch eeg_pattern _) eqn:E; [|reflexivity]. exfalso.
    apply fnmatch_star_suffix in E as [pre E]; [|reflexivity].
    destruct Hext as [-> | ->].
    + change (x ++ "_VO." ++ "vmrk") with (x ++ "_VO.v" ++ "mrk") in E.
      change "_task-visualoddball_eeg.eeg"
        with ("_task-visualoddball_eeg." ++ "eeg") in E.
      rewrite <- !append_assoc in E.
      apply append_tail_inj in E; [discriminate|reflexivity].
    + change (x ++ "_VO." ++ "eeg") with (x ++ "_VO.eeg") in E.
      change "_task-visualoddball_eeg.eeg"
        with ("_task-visualoddball_" ++ "eeg.eeg") in E.
      rewrite <- append_assoc in E.
      apply append_tail_inj in E; [discriminate|reflexivity].
Qed.

Lemma vo_distinct (x y : string) : x ++ "_VO.vmrk" <> y ++ "_VO.eeg".
Proof.
  intros E.
  change (x ++ "_VO.vmrk") with (x ++ "_VO.vmr" ++ "k") in E.
  change (y ++ "_VO.eeg") with (y ++ "_VO.ee" ++ "g") in E.
  rewrite <- !append_assoc in E.
  apply append_tail_inj in E; [discriminate|reflexivity].
Qed.

(** ** Copies inside one directory *)

Lemma write_entry_ok (new : node) (pm : Z) (cur r : option node) :
  FS.write_entry new pm cur = Ok r -> r = Some new.
Proof.
  unfold FS.write_entry.
  destruct cur as [[m ? ?|]|]; try discriminate;
    match goal with |- context [if ?b then _ else _] => destruct b end;
    intros H; inversion H; reflexivity.
Qed.

Lemma glob_top (em : Z) (ees : list (string * node)) (pat : string) :
  FS.glob (Dir em ees) [] pat
  = map (fun e => [fst e]) (filter (fun e => PyStr.fnmatch pat (fst e)) ees).
Proof. reflexivity. Qed.

Lemma glob_top_first (em : Z) (ees : list (string * node)) (pat : string)
  (p : Path) (l : list Path) :
  FS.glob (Dir em ees) [] pat = p :: l ->
  exists sv v, p = [sv] /\ PyStr.fnmatch pat sv = true /\ FS.lookup sv ees = Some v.
Proof.
  rewrite glob_top. intros H.
  assert (Hin : In p (map (fun e : string * node => [fst e])
                        (filter (fun e => PyStr.fnmatch pat (fst e)) ees)))
    by (rewrite H; now left).
  apply in_map_iff in Hin as [[sv v] [<- Hf]].
  apply filter_In in Hf as [Hin Hm]. simpl in *.
  destruct (In_lookup _ _ _ Hin) as [w Hw]. eauto.
Qed.

Lemma glob_top_put (em : Z) (ees : list (string * node)) (pat t : string) (v : node) :
  PyStr.fnmatch pat t = false ->
  FS.glob (Dir em (FS.put t v ees)) [] pat = FS.glob (Dir em ees) [] pat.
Proof.
  intros Hn. rewrite !glob_top. f_equal.
  induction ees as [|[k x] ees IH]; simpl.
  - now rewrite Hn.
  - destruct (String.eqb_spec k t) as [->|Hne]; simpl.
    + now rewrite Hn.
    + destruct (PyStr.fnmatch pat k); simpl; now rewrite IH.
Qed.

Lemma copy2_top_file (em : Z) (ees : list (string * node)) (s t : string) :
  FS.is_dir (Dir em ees) [t] = false ->
  FS.copy2 (Dir em ees) [s] [t]
  = if String.eqb s t then Raise OSError
    else match FS.lookup s ees with
         | Some (File m mt dd) =>
             if FS.readable m then
               match FS.write_entry (File m mt dd) em (FS.lookup t ees) with
               | Ok _ => Ok (Dir em (FS.put t (File m mt dd) ees))
               | Raise e => Raise e
               end
             else Raise OSError
         | _ => Raise OSError
         end.
Proof.
  intros Hd. unfold FS.copy2. rewrite Hd.
  unfold FS.path_eqb.
  destruct (list_eq_dec string_dec [s] [t]) as [E|E];
    destruct (String.eqb_spec s t) as [E'|E']; try congruence.
  simpl FS.resolve.
  destruct (FS.lookup s ees) as [[m mt dd|]|]; try reflexivity.
  destruct (FS.readable m); [|reflexivity].
  rewrite alter_at_last.
  destruct (FS.write_entry _ em _) as [r|] eqn:W; simpl; [|reflexivity].
  now rewrite (write_entry_ok _ _ _ _ W).
Qed.

Lemma copy2_top_dir (em : Z) (ees : list (string * node)) (s t : string)
  (dm : Z) (des : list (string * node)) :
  FS.lookup t ees = Some (Dir dm des) ->
  FS.copy2 (Dir em ees) [s] [t]
  = match FS.lookup s ees with
    | Some (File m mt dd) =>
        if FS.readable m then
          match FS.write_entry (File m mt dd) dm (FS.lookup s des) with
          | Ok _ => Ok (Dir em (FS.put t (Dir dm (FS.put s (File m mt dd) des)) ees))
          | Raise e => Raise e
          end
        else Raise OSError
    | _ => Raise OSError
    end.
Proof.
  intros Hd. unfold FS.copy2, FS.is_dir. simpl FS.resolve. rewrite Hd. simpl FS.is_dir_node.
  cbv iota. unfold FS.path_eqb.
  destruct (list_eq_dec string_dec [s] (joinpath [t] (name [s]))); [discriminate|].
  destruct (FS.lookup s ees) as [[m mt dd|]|]; try reflexivity.
  destruct (FS.readable m); [|reflexivity].
  change (joinpath [t] (name [s])) with [t; s].
  rewrite alter_at_deeper, Hd, alter_at_last.
  destruct (FS.write_entry _ dm _) as [r|] eqn:W; simpl; [|reflexivity].
  now rewrite (write_entry_ok _ _ _ _ W).
Qed.

Lemma is_dir_top (em : Z) (ees : list (string * node)) (t : string) :
  FS.is_dir (Dir em ees) [t]
  = match FS.lookup t ees with
    | Some v => FS.is_dir_node v
    | None => false
    end.
Proof. unfold FS.is_dir. simpl. now destruct (FS.lookup t ees). Qed.

(** A copy that returns leaves a copy of a readable file at the target. *)
Lemma copy2_top_ok (em : Z) (ees : list (string * node)) (s t : string) (X : node) :
  FS.copy2 (Dir em ees) [s] [t] = Ok X ->
  exists v m mt dd,
    X = Dir em (FS.put t v ees) /\ s <> t /\
    FS.lookup s ees = Some (File m mt dd) /\ FS.readable m = true /\
    holds_copy v s (File m mt dd).
Proof.
  destruct (FS.lookup t ees) as [[?|dm des]|] eqn:Ht.
  1,3: rewrite copy2_top_file by (rewrite is_dir_top, Ht; reflexivity);
       destruct (String.eqb_spec s t) as [|Hne]; [discriminate|];
       destruct (FS.lookup s ees) as [[m mt dd|]|]; try discriminate;
       destruct (FS.readable m) eqn:R; [|discriminate];
       destruct (FS.write_entry _ _ _); [|discriminate];
       intros H; inversion H;
       exists (File m mt dd), m, mt, dd; repeat split; auto; now left.
  rewrite (copy2_top_dir _ _ _ _ _ _ Ht).
  destruct (FS.lookup s ees) as [[m mt dd|]|] eqn:Hs; try discriminate.
  destruct (FS.readable m) eqn:R; [|discriminate].
  destruct (FS.write_entry _ _ _); [|discriminate].
  intros H; inversion H.
  exists (Dir dm (FS.put s (File m mt dd) des)), m, mt, dd. repeat split; auto.
  - intros ->. congruence.
  - right. exists dm, (FS.put s (File m mt dd) des). split; auto.
    apply lookup_put_same.
Qed.

(** Copying again onto a copy changes nothing. *)
Lemma copy2_top_stable (em : Z) (ees : list (string * node)) (s t : string)
  (src v X : node) :
  FS.lookup s ees = Some src -> FS.lookup t ees = Some v ->
  holds_copy v s src ->
  FS.copy2 (Dir em ees) [s] [t] = Ok X -> X = Dir em ees.
Proof.
  intros Hs Ht Hc H.
  destruct (copy2_top_ok _ _ _ _ _ H) as (v' & m & mt & dd & _ & Hne & Hs' & _ & _).
  assert (src = File m mt dd) by congruence. subst src.
  destruct Hc as [->|(dm & des & -> & Hd)].
  - rewrite copy2_top_file in H by (rewrite is_dir_top, Ht; reflexivity).
    destruct (String.eqb_spec s t); [discriminate|]. rewrite Hs in H.
    destruct (FS.readable m); [|discriminate].
    destruct (FS.write_entry _ _ _); [|discriminate].
    inversion H. now rewrite (put_lookup_id _ _ _ Ht).
  - rewrite (copy2_top_dir _ _ _ _ _ _ Ht), Hs in H.
    destruct (FS.readable m); [|discriminate].
    destruct (FS.write_entry _ _ _); [|discriminate].
    inversion H. rewrite (put_lookup_id _ _ _ Hd). now rewrite (put_lookup_id _ _ _ Ht).
Qed.

(** Copying again onto a copy succeeds when the source is writable: the copy
    has the mode of the source. *)
Lemma copy2_top_again (em : Z) (ees : list (string * node)) (s t : string)
  (m mt : Z) (dd : string) (v : node) :
  s <> t ->
  FS.lookup s ees = Some (File m mt dd) -> FS.lookup t ees = Some v ->
  holds_copy v s (File m mt dd) ->
  FS.readable m = true -> FS.writable m = true ->
  exists X, FS.copy2 (Dir em ees) [s] [t] = Ok X.
Proof.
  intros Hne Hs Ht Hc R W.
  destruct Hc as [->|(dm & des & -> & Hd)].
  - rewrite copy2_top_file by (rewrite is_dir_top, Ht; reflexivity).
    destruct (String.eqb_spec s t); [contradiction|]. rewrite Hs, R, Ht.
    simpl. rewrite W. eauto.
  - rewrite (copy2_top_dir _ _ _ _ _ _ Ht), Hs, R, Hd. simpl. rewrite W. eauto.
Qed.

(** ** Running the copy stage twice in one directory *)

Section Stage.

Variables (label : Path) (d : string) (gv ge : result (option string)).

Hypothesis gv_name : forall tv, gv = Ok (Some tv) -> exists x, tv = x ++ "_VO.vmrk".
Hypothesis ge_name : forall te, ge = Ok (Some te) -> exists x, te = x ++ "_VO.eeg".

Lemma stage_error_le_1 (p : Path) (n : node) :
  0 <= error_count (copy_stage label d gv ge p (fresh n)) <= 1.
Proof.
  unfold copy_stage, fresh. simpl fs.
  destruct (FS.glob n p vmrk_pattern); [simpl; lia|].
  destruct (FS.glob n p eeg_pattern); [simpl; lia|].
  destruct gv as [[tv|]|x]; try (simpl; lia).
  destruct (FS.copy2 n _ _); [|simpl; lia]. simpl fs.
  destruct ge as [[te|]|x]; try (simpl; lia).
  destruct (FS.copy2 _ _ _); simpl; lia.
Qed.

Lemma stage_twice (en : node) :
  let r1 := copy_stage label d gv ge [] (fresh en) in
  let r2 := copy_stage label d gv ge [] (fresh (fs r1)) in
  fs r2 = fs r1 /\
  (source_writable en vmrk_pattern = true ->
   source_writable en eeg_pattern = true ->
   error_count r2 <= error_count r1).
Proof.
  destruct en as [m0 t0 d0|em ees]; [split; [reflexivity|intros; simpl; lia]|].
  intros r1 r2. subst r2.
  assert (E1 : r1 = copy_stage label d gv ge [] (fresh (Dir em ees))) by reflexivity.
  clearbody r1. revert E1.
  unfold source_writable, selected.
  unfold copy_stage at 1. unfold fresh at 1. simpl fs.
  destruct (FS.glob (Dir em ees) [] vmrk_pattern) as [|pv lv] eqn:Gv.
  { intros ->. simpl fs. unfold copy_stage, fresh. simpl fs. rewrite Gv.
    split; [reflexivity|simpl; lia]. }
  destruct (FS.glob (Dir em ees) [] eeg_pattern) as [|pe le] eqn:Ge.
  { intros ->. simpl fs. unfold copy_stage, fresh. simpl fs. rewrite Gv, Ge.
    split; [reflexivity|simpl; lia]. }
  destruct (glob_top_first _ _ _ _ _ Gv) as (sv & nv & -> & Msv & Lsv).
  destruct (glob_top_first _ _ _ _ _ Ge) as (se & ne & -> & Mse & Lse).
  simpl FS.resolve. rewrite Lsv, Lse.
  destruct gv as [[tv|]|x] eqn:Egv.
  2,3: intros ->; simpl fs; unfold copy_stage, fresh; simpl fs; rewrite Gv, Ge;
       split; [reflexivity|simpl; lia].
  destruct (gv_name tv eq_refl) as [xv Etv].
  destruct (vo_not_source xv "vmrk" (or_introl eq_refl)) as [Nvv Nve].
  change (xv ++ "_VO." ++ "vmrk") with (xv ++ "_VO.vmrk") in Nvv, Nve.
  rewrite <- Etv in Nvv, Nve.
  change (joinpath [] tv) with [tv].
  destruct (FS.copy2 (Dir em ees) [sv] [tv]) as [X1|x] eqn:C1.
  2:{ intros ->. simpl fs. unfold copy_stage, fresh. simpl fs. rewrite Gv, Ge.
      change (joinpath [] tv) with [tv]. rewrite C1.
      split; [reflexivity|simpl; lia]. }
  destruct (copy2_top_ok _ _ _ _ _ C1) as (v1 & m1 & t1 & d1 & -> & Nsv & Lsv' & R1 & H1).
  rewrite Lsv in Lsv'. inversion Lsv'; subst nv. clear Lsv'.
  set (ees1 := FS.put tv v1 ees) in *.
  assert (Gv1 : FS.glob (Dir em ees1) [] vmrk_pattern = [sv] :: lv)
    by (unfold ees1; rewrite glob_top_put; assumption).
  assert (Ge1 : FS.glob (Dir em ees1) [] eeg_pattern = [se] :: le)
    by (unfold ees1; rewrite glob_top_put; assumption).
  assert (Lsv1 : FS.lookup sv ees1 = Some (File m1 t1 d1))
    by (unfold ees1; rewrite lookup_put_other; auto).
  assert (Ltv1 : FS.lookup tv ees1 = Some v1) by apply lookup_put_same.
  assert (Again1 : forall X, FS.copy2 (Dir em ees1) [sv] [tv] = Ok X -> X = Dir em ees1)
    by (intros X; eapply copy2_top_stable; eauto).
  simpl fs.
  destruct ge as [[te|]|y] eqn:Ege.
  2,3: intros ->; simpl fs; unfold copy_stage, fresh; simpl fs; rewrite Gv1, Ge1;
       change (joinpath [] tv) with [tv];
       destruct (FS.copy2 (Dir em ees1) [sv] [tv]) as [X|x] eqn:C1';
       [rewrite (Again1 X eq_refl)|]; split; try reflexivity; simpl; lia.
  destruct (ge_name te eq_refl) as [xe Ete].
  destruct (vo_not_source xe "eeg" (or_intror eq_refl)) as [Nev Nee].
  change (xe ++ "_VO." ++ "eeg") with (xe ++ "_VO.eeg") in Nev, Nee.
  rewrite <- Ete in Nev, Nee.
  assert (Dte : tv <> te) by (rewrite Etv, Ete; apply vo_distinct).
  change (joinpath [] te) with [te].
  destruct (FS.copy2 (Dir em ees1) [se] [te]) as [X2|x] eqn:C2.
  2:{ intros ->. simpl fs. unfold copy_stage, fresh. simpl fs. rewrite Gv1, Ge1.
      change (joinpath [] tv) with [tv].
      destruct (FS.copy2 (Dir em ees1) [sv] [tv]) as [X|x'] eqn:C1';
        [rewrite (Again1 X eq_refl)|]; [|split; [reflexivity|simpl; lia]].
      simpl fs. change (joinpath [] te) with [te]. rewrite C2.
      split; [reflexivity|simpl; lia]. }
  destruct (copy2_top_ok _ _ _ _ _ C2) as (v2 & m2 & t2 & d2 & -> & Nse & Lse1 & R2 & H2).
  set (ees2 := FS.put te v2 ees1) in *.
  assert (Gv2 : FS.glob (Dir em ees2) [] vmrk_pattern = [sv] :: lv)
    by (unfold ees2; rewrite glob_top_put; assumption).
  assert (Ge2 : FS.glob (Dir em ees2) [] eeg_pattern = [se] :: le)
    by (unfold ees2; rewrite glob_top_put; assumption).
  assert (Nsvte : sv <> te) by (intros ->; congruence).
  assert (Lsv2 : FS.lookup sv ees2 = Some (File m1 t1 d1))
    by (unfold ees2; rewrite lookup_put_other; auto).
  assert (Ltv2 : FS.lookup tv ees2 = Some v1)
    by (unfold ees2; rewrite lookup_put_other; auto).
  assert (Lse2 : FS.lookup se ees2 = Some (File m2 t2 d2))
    by (unfold ees2; rewrite lookup_put_other; auto).
  assert (Lte2 : FS.lookup te ees2 = Some v2) by apply lookup_put_same.
  assert (Again2v : forall X, FS.copy2 (Dir em ees2) [sv] [tv] = Ok X -> X = Dir em ees2)
    by (intros X; eapply copy2_top_stable; eauto).
  assert (Again2e : forall X, FS.copy2 (Dir em ees2) [se] [te] = Ok X -> X = Dir em ees2)
    by (intros X; eapply copy2_top_stable; eauto).
  assert (Lse0 : FS.lookup se ees = Some (File m2 t2 d2)).
  { unfold ees1 in Lse1. rewrite lookup_put_other in Lse1; auto.
    intros ->. congruence. }
  rewrite Lse in Lse0. inversion Lse0; subst ne. clear Lse0.
  intros ->. simpl fs. unfold copy_stage, fresh. simpl fs. rewrite Gv2, Ge2.
  change (joinpath [] tv) with [tv]. change (joinpath [] te) with [te].
  destruct (FS.copy2 (Dir em ees2) [sv] [tv]) as [X|x'] eqn:C1'.
  - rewrite (Again2v X eq_refl). simpl fs.
    destruct (FS.copy2 (Dir em ees2) [se] [te]) as [X'|x''] eqn:C2'.
    + rewrite (Again2e X' eq_refl). split; [reflexivity|simpl; lia].
    + split; [reflexivity|]. intros Wv We. exfalso.
      destruct (copy2_top_again em ees2 se te m2 t2 d2 v2) as [X' HX']; auto.
      congruence.
  - split; [reflexivity|]. intros Wv We. exfalso.
    destruct (copy2_top_again em ees2 sv tv m1 t1 d1 v1) as [X' HX']; auto.
    congruence.
Qed.

End Stage.

(** ** Running the loop body twice on one subject *)

Section Subject.

Variables (d : string) (gv ge : result (option string)).

Hypothesis gv_name : forall tv, gv = Ok (Some tv) -> exists x, tv = x ++ "_VO.vmrk".
Hypothesis ge_name : forall te, ge = Ok (Some te) -> exists x, te = x ++ "_VO.eeg".

Lemma subject_body_no_eeg (sub : node) :
  FS.resolve ["eeg"] sub = None ->
  subject_body d gv ge (fresh sub)
  = print (print (fresh sub) (Processing d)) (WarnNoEegDir d).
Proof.
  intros H. unfold subject_body, FS.exists_. cbv zeta. simpl fs. now rewrite H.
Qed.

Lemma subject_body_eeg (cm : Z) (ces : list (string * node)) (en : node) :
  FS.lookup "eeg" ces = Some en ->
  let q := copy_stage [d; "eeg"] d gv ge [] (fresh en) in
  fs (subject_body d gv ge (fresh (Dir cm ces))) = Dir cm (FS.put "eeg" (fs q) ces) /\
  error_count (subject_body d gv ge (fresh (Dir cm ces))) = error_count q.
Proof.
  intros H q. unfold subject_body, FS.exists_. cbv zeta. simpl fs. simpl FS.resolve.
  rewrite H. simpl negb. cbv iota.
  rewrite (copy_stage_cons _ d gv ge [] (print (fresh (Dir cm ces)) (Processing d))
             cm ces "eeg" en eq_refl H).
  cbv zeta. rewrite copy_stage_shift. simpl. split; reflexivity.
Qed.

Lemma subject_body_kind (sub : node) :
  FS.is_dir_node (fs (subject_body d gv ge (fresh sub))) = FS.is_dir_node sub.
Proof.
  destruct (FS.resolve ["eeg"] sub) as [en|] eqn:E.
  - destruct sub as [|cm ces]; [discriminate|]. simpl in E.
    destruct (FS.lookup "eeg" ces) as [en'|] eqn:L; [|discriminate].
    destruct (subject_body_eeg cm ces en' L) as [-> _]. reflexivity.
  - now rewrite subject_body_no_eeg.
Qed.

Lemma subject_twice (sub : node) :
  let r1 := subject_body d gv ge (fresh sub) in
  let r2 := subject_body d gv ge (fresh (fs r1)) in
  fs r2 = fs r1 /\
  (sources_writable_in sub = true -> error_count r2 <= error_count r1).
Proof.
  intros r1 r2. subst r1 r2. unfold sources_writable_in.
  destruct (FS.resolve ["eeg"] sub) as [en|] eqn:E.
  - destruct sub as [|cm ces]; [discriminate|]. simpl in E.
    destruct (FS.lookup "eeg" ces) as [en'|] eqn:L; [|discriminate].
    inversion E; subst en'. clear E.
    destruct (subject_body_eeg cm ces en L) as [F1 E1]. cbv zeta in F1, E1.
    rewrite F1, E1.
    destruct (subject_body_eeg cm (FS.put "eeg"
                (fs (copy_stage [d; "eeg"] d gv ge [] (fresh en))) ces) _
                (lookup_put_same _ _ _)) as [F2 E2].
    cbv zeta in F2, E2. rewrite F2, E2. rewrite put_put.
    destruct (stage_twice [d; "eeg"] d gv ge gv_name ge_name en) as [Hf He].
    rewrite Hf. split; [reflexivity|].
    intros W. apply andb_prop in W as [Wv We]. auto.
  - rewrite (subject_body_no_eeg sub E). simpl fs.
    rewrite (subject_body_no_eeg sub E). split; [reflexivity|simpl; lia].
Qed.

End Subject.

(** ** Running a walker twice *)

Lemma subject_dirs_of_stable (pm : Z) (es es' : list (string * node)) :
  map fst es' = map fst es ->
  (forall nm, option_map FS.is_dir_node (FS.lookup nm es')
              = option_map FS.is_dir_node (FS.lookup nm es)) ->
  subject_dirs_of (Dir pm es') [] = subject_dirs_of (Dir pm es) [].
Proof.
  intros Hn Hk. unfold subject_dirs_of, subject_candidates, FS.iterdir. simpl.
  assert (E : forall l : list (string * node),
             map (fun e => joinpath [] (fst e)) l = map (fun nm => [nm]) (map fst l))
    by (intros l; rewrite map_map; reflexivity).
  rewrite !E, Hn. f_equal.
  apply filter_ext_in. intros p Hp. apply in_map_iff in Hp as [nm [<- _]].
  f_equal. unfold FS.is_dir. simpl. specialize (Hk nm).
  destruct (FS.lookup nm es'), (FS.lookup nm es); simpl in Hk; congruence.
Qed.

Lemma total_le (f : walk_state -> Z) (g1 g2 : Path -> walk_state) (ds : list Path) :
  (forall d, In d ds -> f (g2 d) <= f (g1 d)) ->
  total f (map g2 ds) <= total f (map g1 ds).
Proof.
  unfold total. induction ds as [|d ds IH]; simpl; intros H; [lia|].
  pose proof (H d (or_introl eq_refl)).
  assert (fold_right Z.add 0 (map f (map g2 ds))
          <= fold_right Z.add 0 (map f (map g1 ds)))
    by (apply IH; intros; apply H; now right).
  lia.
Qed.

Section Rerun.

Variable body : walk_state -> Path -> walk_state.
Variables gv ge : string -> result (option string).

Hypothesis body_stage :
  forall (st : walk_state) (nm : string),
    body st [nm]
    = let st1 := print st (Processing nm) in
      if negb (FS.exists_ (fs st1) [nm; "eeg"])
      then print st1 (WarnNoEegDir nm)
      else copy_stage [nm; "eeg"] nm (gv nm) (ge nm) [nm; "eeg"] st1.

Hypothesis gv_name :
  forall nm tv, gv nm = Ok (Some tv) -> exists x, tv = x ++ "_VO.vmrk".
Hypothesis ge_name :
  forall nm te, ge nm = Ok (Some te) -> exists x, te = x ++ "_VO.eeg".

Lemma fold_fixed (ds : list Path) :
  forall st : walk_state,
    (forall d st', In d ds -> fs st' = fs st -> fs (body st' d) = fs st) ->
    fs (fold_left body ds st) = fs st.
Proof.
  induction ds as [|d ds IH]; intros st H; [reflexivity|].
  simpl. assert (E : fs (body st d) = fs st) by (apply H; auto; now left).
  rewrite IH; [exact E|].
  intros d' st' Hd' Hst'. rewrite E in *. apply H; auto. now right.
Qed.

Lemma walk_twice (pm : Z) (es : list (string * node)) (ds : list Path) (o : list event) :
  distinct (map fst es) = true ->
  subject_dirs_of (Dir pm es) [] = Ok ds ->
  let st1 := fold_left body ds (mkWalk (Dir pm es) 0 0 0 o) in
  let st2 := fold_left body ds (mkWalk (fs st1) 0 0 0 o) in
  subject_dirs_of (fs st1) [] = Ok ds /\
  fs st2 = fs st1 /\
  (forallb (sources_writable_at (Dir pm es)) ds = true ->
   error_count st2 <= error_count st1).
Proof.
  intros Hdist Hds st1 st2.
  destruct (subject_dirs_of_base pm es ds Hds) as [Hform Hnd].
  specialize (Hnd Hdist).
  destruct (fold_body body gv ge body_stage ds (mkWalk (Dir pm es) 0 0 0 o) pm es
              eq_refl Hnd Hform) as (es1 & F1 & In1 & Out1 & N1).
  fold st1 in F1.
  assert (Hfs1 : fs st1 = Dir pm es1) by (rewrite F1; reflexivity).
  assert (Hkind : forall nm, option_map FS.is_dir_node (FS.lookup nm es1)
                             = option_map FS.is_dir_node (FS.lookup nm es)).
  { intros nm. destruct (in_dec (list_eq_dec string_dec) [nm] ds) as [Hi|Hi].
    - destruct (Hform _ Hi) as (nm' & sub & Heq & Hl). inversion Heq; subst nm'.
      rewrite (In1 nm sub Hi Hl), Hl. simpl. f_equal.
      apply subject_body_kind.
    - now rewrite (Out1 nm Hi). }
  assert (Hform1 : forall d, In d ds ->
            exists nm sub, d = [nm] /\ FS.lookup nm es = Some sub /\
              FS.lookup nm es1 = Some (fs (subject_result gv ge nm sub))).
  { intros d Hd. destruct (Hform _ Hd) as (nm & sub & -> & Hl).
    exists nm, sub. repeat split; auto. }
  split; [|split].
  - rewrite Hfs1, <- Hds. now apply subject_dirs_of_stable.
  - unfold st2. rewrite fold_fixed; [reflexivity|].
    simpl fs. intros d st' Hd Hst'. rewrite Hfs1 in *.
    destruct (Hform1 _ Hd) as (nm & sub & -> & Hl & Hl1).
    rewrite (body_on_base body gv ge body_stage st' pm es1 nm _ Hst' Hl1).
    cbv zeta. simpl fs.
    destruct (subject_twice nm (gv nm) (ge nm) (gv_name nm) (ge_name nm) sub) as [Hf _].
    cbv zeta in Hf. fold (subject_result gv ge nm sub) in Hf.
    fold (subject_result gv ge nm (fs (subject_result gv ge nm sub))) in Hf.
    rewrite Hf. now rewrite (put_lookup_id _ _ _ Hl1).
  - intros W.
    destruct (fold_body body gv ge body_stage ds (mkWalk (Dir pm es1) 0 0 0 o) pm es1
                eq_refl Hnd) as (es2 & F2 & _).
    { intros d Hd. destruct (Hform1 _ Hd) as (nm & sub & -> & _ & Hl1). eauto. }
    unfold st2. rewrite Hfs1, F2, F1. simpl error_count.
    assert (total error_count (map (body (fresh (Dir pm es1))) ds)
            <= total error_count (map (body (fresh (Dir pm es))) ds)); [|lia].
    apply total_le. intros d Hd.
    destruct (Hform1 _ Hd) as (nm & sub & -> & Hl & Hl1).
    destruct (body_solo_report body gv ge body_stage pm es1 nm _ Hl1) as (_ & _ & -> & _).
    destruct (body_solo_report body gv ge body_stage pm es nm _ Hl) as (_ & _ & -> & _).
    destruct (subject_twice nm (gv nm) (ge nm) (gv_name nm) (ge_name nm) sub) as [_ He].
    apply He. rewrite forallb_forall in W. specialize (W _ Hd).
    unfold sources_writable_at in W. simpl in W. now rewrite Hl in W.
Qed.

End Rerun.

(** ** The two walkers *)

Lemma recreate_correct_files_walker (fs0 : node) :
  CleanupAndFix.recreate_correct_files fs0 = walker CleanupAndFix.loop_body fs0.
Proof. reflexivity. Qed.

Lemma fix_vmrk_files_walker (fs0 : node) :
  FixVmrk.fix_vmrk_files fs0 = walker FixVmrk.loop_body fs0.
Proof. reflexivity. Qed.

Ltac name_prefix :=
  match goal with
  | |- context [PyStr.format_03d ?k] =>
      first [ exists ("COCOA_" ++ PyStr.format_03d k); reflexivity
            | exists ("SASA_" ++ PyStr.format_03d k); reflexivity
            | exists ("SUBJECT_" ++ PyStr.format_03d k); reflexivity ]
  end.

Lemma cleanup_and_fix_name (sd : Path) (ext t : string) :
  CleanupAndFix.get_expected_filename sd ext = Ok (Some t) ->
  exists x, t = x ++ "_VO." ++ ext.
Proof.
  unfold CleanupAndFix.get_expected_filename.
  destruct (subject_number sd) as [i|]; unfold bind; [|discriminate].
  repeat match goal with
         | |- context [if ?c then _ else _] => destruct c
         end; intros H; inversion H; name_prefix.
Qed.

Lemma fix_vmrk_name (sd : Path) (ext t : string) :
  always_named (FixVmrk.get_expected_filename sd ext) = Ok (Some t) ->
  exists x, t = x ++ "_VO." ++ ext.
Proof.
  unfold FixVmrk.get_expected_filename.
  destruct (subject_number sd) as [i|]; unfold bind; [|discriminate].
  repeat match goal with
         | |- context [if ?c then _ else _] => destruct c
         end; unfold always_named; intros H; inversion H; name_prefix.
Qed.

Section Outcome.

Variable body : walk_state -> Path -> walk_state.
Variables gv ge : string -> result (option string).

Hypothesis body_stage :
  forall (st : walk_state) (nm : string),
    body st [nm]
    = let st1 := print st (Processing nm) in
      if negb (FS.exists_ (fs st1) [nm; "eeg"])
      then print st1 (WarnNoEegDir nm)
      else copy_stage [nm; "eeg"] nm (gv nm) (ge nm) [nm; "eeg"] st1.




End Outcome.

Lemma cleanup_and_fix_stage (st : walk_state) (nm : string) :
  CleanupAndFix.loop_body st [nm]
  = let st1 := print st (Processing nm) in
    if negb (FS.exists_ (fs st1) [nm; "eeg"])
    then print st1 (WarnNoEegDir nm)
    else copy_stage [nm; "eeg"] nm
           (CleanupAndFix.get_expected_filename [nm] "vmrk")
           (CleanupAndFix.get_expected_filename [nm] "eeg")
           [nm; "eeg"] st1.
Proof. apply cleanup_and_fix_loop_body_stage. Qed.

Lemma fix_vmrk_stage (st : walk_state) (nm : string) :
  FixVmrk.loop_body st [nm]
  = let st1 := print st (Processing nm) in
    if negb (FS.exists_ (fs st1) [nm; "eeg"])
    then print st1 (WarnNoEegDir nm)
    else copy_stage [nm; "eeg"] nm
           (always_named (FixVmrk.get_expected_filename [nm] "vmrk"))
           (always_named (FixVmrk.get_expected_filename [nm] "eeg"))
           [nm; "eeg"] st1.
Proof. apply fix_vmrk_loop_body_stage. Qed.

(** ** One copy, seen from every path *)

Lemma path_trichotomy (p q : Path) :
  (exists ext, q = (p ++ ext)%list) \/
  (exists ext, ext <> [] /\ p = (q ++ ext)%list) \/
  (is_prefix q p = false /\ is_prefix p q = false).
Proof.
  destruct (is_prefix p q) eqn:Epq.
  - left. now apply is_prefix_app.
  - destruct (is_prefix q p) eqn:Eqp; [|now right; right].
    right; left. apply is_prefix_app in Eqp as [ext ->].
    exists ext. split; [|reflexivity]. intros ->.
    rewrite app_nil_r, is_prefix_refl in Epq. discriminate.
Qed.

Lemma is_prefix_siblings (par : Path) (a b : string) :
  a <> b -> is_prefix (par ++ [a])%list (par ++ [b])%list = false.
Proof.
  intros Hne. induction par as [|c par IH]; simpl.
  - destruct (String.eqb_spec a b); [contradiction|reflexivity].
  - now rewrite IH, andb_false_r.
Qed.

Lemma name_joinpath (p : Path) (nm : string) : name (joinpath p nm) = nm.
Proof. apply last_last. Qed.



(** What a change at [par/c] leaves at and below that path. *)
Lemma alter_at_below (f : Z -> option node -> result (option node))
  (par : Path) (c : string) (n n' : node) :
  FS.alter_at f (par ++ [c])%list n = Ok n' ->
  exists pm es r,
    FS.resolve par n = Some (Dir pm es) /\
    f pm (FS.lookup c es) = Ok r /\
    (forall ext, FS.resolve (par ++ [c] ++ ext)%list n
                 = match FS.lookup c es with
                   | Some v => FS.resolve ext v
                   | None => None
                   end) /\
    (forall ext, FS.resolve (par ++ [c] ++ ext)%list n'
                 = match r with
                   | Some v => FS.resolve ext v
                   | None => None
                   end).
Proof.
  intros H. destruct (alter_at_here _ _ _ _ _ H) as (pm & es & r & Hp & Hf & Hp').
  exists pm, es, r. repeat split; auto; intros ext; rewrite resolve_app.
  - rewrite Hp. reflexivity.
  - rewrite Hp'. simpl.
    destruct r; [now rewrite lookup_put_same|now rewrite lookup_remove_same].
Qed.


(** ** The copy step of one iteration *)

Ltac out_contra H :=
  simpl in H; rewrite <- ?app_assoc in H; apply app_inv_head in H; discriminate.

Lemma copy_stage_created (label : Path) (d : string) (gv ge : result (option string))
  (p : Path) (st : walk_state) (sv se tv te : string) :
  out (copy_stage label d gv ge p st)
  = (out st ++ [CreatedVmrk sv tv; CreatedEeg se te])%list ->
  exists pv pe lv le fs1,
    FS.glob (fs st) p vmrk_pattern = pv :: lv /\
    FS.glob (fs st) p eeg_pattern = pe :: le /\
    name pv = sv /\ name pe = se /\
    gv = Ok (Some tv) /\ ge = Ok (Some te) /\
    FS.copy2 (fs st) pv (joinpath p tv) = Ok fs1 /\
    FS.copy2 fs1 pe (joinpath p te) = Ok (fs (copy_stage label d gv ge p st)).
Proof.
  unfold copy_stage.
  destruct (FS.glob (fs st) p vmrk_pattern) as [|pv lv]; [intros H; out_contra H|].
  destruct (FS.glob (fs st) p eeg_pattern) as [|pe le]; [intros H; out_contra H|].
  destruct gv as [[tv0|]|x]; try (intros H; out_contra H).
  destruct (FS.copy2 (fs st) pv _) as [fs1|x] eqn:C1; [|intros H; out_contra H].
  simpl fs.
  destruct ge as [[te0|]|x]; try (intros H; out_contra H).
  destruct (FS.copy2 fs1 pe _) as [fs2|x] eqn:C2; [|intros H; out_contra H].
  intros H. simpl in H. rewrite <- app_assoc in H. apply app_inv_head in H.
  inversion H; subst.
  exists pv, pe, lv, le, fs1. simpl. repeat split; auto.
Qed.

Lemma siblings_unrelated (par : Path) (a b : string) :
  a <> b -> unrelated (joinpath par a) (joinpath par b).
Proof.
  intros H. split; apply is_prefix_siblings; congruence.
Qed.


(** ** What the walkers add *)

Lemma kept_refl (n : node) : kept n n.
Proof. destruct n; simpl; auto. Qed.

Lemma kept_trans (a b c : node) : kept a b -> kept b c -> kept a c.
Proof. destruct a, b, c; simpl; intuition congruence. Qed.

Lemma grows_refl (a : node) : grows a a.
Proof.
  split.
  - intros q n0 H. exists n0. split; [exact H|apply kept_refl].
  - intros q n H1 H2. congruence.
Qed.

Lemma grows_trans (a b c : node) : grows a b -> grows b c -> grows a c.
Proof.
  intros [A1 A2] [B1 B2]. split.
  - intros q n0 H. destruct (A1 q n0 H) as (n & Hn & K1).
    destruct (B1 q n Hn) as (n' & Hn' & K2). exists n'. split; auto.
    eapply kept_trans; eauto.
  - intros q n Hc Ha.
    destruct (FS.resolve q b) as [nb|] eqn:Hb.
    + destruct (A2 q nb Hb Ha) as [Fb P]. split; [|exact P].
      destruct (B1 q nb Hb) as (n' & Hn' & K). rewrite Hc in Hn'.
      inversion Hn'; subst n'. destruct nb, n; simpl in *; auto; contradiction.
    + destruct (B2 q n Hc Hb) as [Fn (par & c0 & pm & es & -> & Hp & W)].
      split; [exact Fn|]. exists par, c0, pm.
      destruct (FS.resolve par a) as [n0|] eqn:Hpa.
      * destruct (A1 par n0 Hpa) as (n1 & Hn1 & K). rewrite Hp in Hn1.
        inversion Hn1; subst n1. destruct n0 as [|m0 es0]; simpl in K; [contradiction|].
        subst m0. exists es0. auto.
      * destruct (A2 par _ Hp Hpa) as [F _]. discriminate.
Qed.

Lemma resolve_file_ext (m mt : Z) (dd : string) (ext : Path) (n : node) :
  FS.resolve ext (File m mt dd) = Some n -> ext = [] /\ n = File m mt dd.
Proof. destruct ext; simpl; intros H; inversion H; auto. Qed.

Lemma write_grows (m mt : Z) (dd : string) (p : Path) (a b : node) :
  FS.alter_at (FS.write_entry (File m mt dd)) p a = Ok b -> grows a b.
Proof.
  intros H.
  destruct (exists_last (l := p)) as (par & c & ->).
  { intros ->. destruct a; discriminate. }
  destruct (alter_at_below _ _ _ _ _ H) as (pm & es & r & Hp & Hf & Ha & Hb).
  pose proof (write_entry_ok _ _ _ _ Hf) as ->.
  split.
  - intros q n0 Hq.
    destruct (path_trichotomy (par ++ [c])%list q) as [[ext ->]|[(ext & Hne & E)|[U1 U2]]].
    + rewrite <- app_assoc in Hq |- *. rewrite Ha in Hq. rewrite Hb.
      destruct (FS.lookup c es) as [[m' mt' dd'|]|] eqn:L; try discriminate.
      apply resolve_file_ext in Hq as [-> ->]. simpl. eexists; split; eauto. exact I.
    + rewrite E in H. destruct (alter_at_above _ _ _ _ _ H Hne) as (m0 & es0 & es' & H0 & H1).
      rewrite Hq in H0. inversion H0; subst n0. exists (Dir m0 es'). split; auto.
      reflexivity.
    + exists n0. split; [|apply kept_refl].
      rewrite <- Hq. eapply alter_at_frame; eauto.
  - intros q n Hq Hqa.
    destruct (path_trichotomy (par ++ [c])%list q) as [[ext ->]|[(ext & Hne & E)|[U1 U2]]].
    + rewrite <- app_assoc in Hq, Hqa. rewrite Hb in Hq. rewrite Ha in Hqa.
      apply resolve_file_ext in Hq as [-> ->]. split; [reflexivity|].
      exists par, c, pm, es. rewrite app_nil_r. repeat split; auto.
      destruct (FS.lookup c es) as [v|]; [simpl in Hqa; discriminate|].
      simpl in Hf. destruct (FS.writable pm); [reflexivity|discriminate].
    + rewrite E in H. destruct (alter_at_above _ _ _ _ _ H Hne) as (m0 & es0 & es' & H0 & H1).
      congruence.
    + rewrite (alter_at_frame _ _ _ _ _ H U1 U2) in Hq. congruence.
Qed.

Lemma copy2_grows (a b : node) (src dst : Path) :
  FS.copy2 a src dst = Ok b -> grows a b.
Proof.
  unfold FS.copy2.
  destruct (FS.path_eqb src _); [discriminate|].
  destruct (FS.resolve src a) as [[m mt dd|]|]; try discriminate.
  destruct (FS.readable m); [|discriminate].
  apply write_grows.
Qed.

Lemma copy_stage_grows (label : Path) (d : string) (gv ge : result (option string))
  (p : Path) (st : walk_state) :
  grows (fs st) (fs (copy_stage label d gv ge p st)).
Proof.
  unfold copy_stage.
  destruct (FS.glob (fs st) p vmrk_pattern); [apply grows_refl|].
  destruct (FS.glob (fs st) p eeg_pattern); [apply grows_refl|].
  destruct gv as [[tv|]|x]; try apply grows_refl.
  destruct (FS.copy2 (fs st) _ _) as [fs1|x] eqn:C1; [|apply grows_refl].
  apply copy2_grows in C1. simpl fs.
  destruct ge as [[te|]|x]; try exact C1.
  destruct (FS.copy2 fs1 _ _) as [fs2|x] eqn:C2; [|exact C1].
  apply copy2_grows in C2. simpl. eapply grows_trans; eauto.
Qed.

Lemma loop_bodies_grow (st : walk_state) (sd : Path) :
  grows (fs st) (fs (CleanupAndFix.loop_body st sd)) /\
  grows (fs st) (fs (FixVmrk.loop_body st sd)).
Proof.
  rewrite cleanup_and_fix_loop_body_stage, fix_vmrk_loop_body_stage. cbv zeta.
  destruct (negb _); split; try apply grows_refl;
    apply (copy_stage_grows _ _ _ _ _ (print st (Processing (name sd)))).
Qed.

Lemma fold_grows (body : walk_state -> Path -> walk_state) :
  (forall st sd, grows (fs st) (fs (body st sd))) ->
  forall ds st, grows (fs st) (fs (fold_left body ds st)).
Proof.
  intros Hb. induction ds as [|d ds IH]; intros st; simpl; [apply grows_refl|].
  eapply grows_trans; [apply Hb|apply IH].
Qed.

(** ** What the cleanup removes *)











Lemma cleanup_files_fold (l : list Path) :
  forall st, CleanupFiles.cfs (fold_left CleanupFiles.delete_step l st)
             = fold_left delete_fs l (CleanupFiles.cfs st).
Proof.
  induction l as [|p l IH]; intros st; simpl; [reflexivity|].
  rewrite IH. f_equal. unfold CleanupFiles.delete_step, delete_fs.
  destruct (FS.chmod _ _ _); [|reflexivity].
  destruct (FS.unlink _ _); reflexivity.
Qed.

Lemma cleanup_incorrect_files_fold (l : list Path) :
  forall st, CleanupAndFix.cfs (fold_left CleanupAndFix.delete_step l st)
             = fold_left delete_fs l (CleanupAndFix.cfs st).
Proof.
  induction l as [|p l IH]; intros st; simpl; [reflexivity|].
  rewrite IH. f_equal. unfold CleanupAndFix.delete_step, delete_fs.
  destruct (FS.chmod _ _ _); [|reflexivity].
  destruct (FS.unlink _ _); reflexivity.
Qed.

Lemma cleanup_fs_both (fs1 : node) :
  CleanupFiles.cfs (CleanupFiles.cleanup_files fs1)
  = fold_left delete_fs
      (FS.rglob fs1 "COCOA_*_VO.*" ++ FS.rglob fs1 "SASA_*_VO.*")%list fs1 /\
  CleanupAndFix.cfs (CleanupAndFix.cleanup_incorrect_files fs1)
  = fold_left delete_fs
      (FS.rglob fs1 "COCOA_*_VO.*" ++ FS.rglob fs1 "SASA_*_VO.*")%list fs1.
Proof.
  unfold CleanupFiles.cleanup_files, CleanupAndFix.cleanup_incorrect_files.
  cbv zeta. rewrite cleanup_files_fold, cleanup_incorrect_files_fold.
  split; reflexivity.
Qed.


(** * The claims *)

(** C2. For a subject number below 1, from 97 to 110 or above 127 the mapper
    of cleanup_and_fix.py returns the sentinel for every extension, and the
    loop body then only prints a warning: the file system and the three
    counters are as before. *)
Theorem out_of_range_is_skipped :
  forall (st : walk_state) (subject_dir : Path) (i : Z) (ext : string),
    subject_number subject_dir = Ok i ->
    out_of_range i ->
    CleanupAndFix.get_expected_filename subject_dir ext = Ok None /\
    let st' := CleanupAndFix.loop_body st subject_dir in
    fs st' = fs st /\
    fixed_vmrk_count st' = fixed_vmrk_count st /\
    fixed_eeg_count st' = fixed_eeg_count st /\
    error_count st' = error_count st /\
    exists w, is_warning w = true /\
              out st' = (out st ++ [Processing (name subject_dir); w])%list.
Proof.
  intros st sd i ext Hi Hr.
  split; [eapply get_expected_filename_sentinel; eauto|].
  cbv zeta. unfold CleanupAndFix.loop_body.
  rewrite (get_expected_filename_sentinel sd i "vmrk" Hi Hr).
  destruct (negb _);
    [|destruct (FS.glob _ _ vmrk_pattern);
      [|destruct (FS.glob _ _ eeg_pattern)]];
    simpl; repeat split; eexists; (split; [|rewrite <- app_assoc; reflexivity]);
    reflexivity.
Qed.

Lemma out_of_range_is_skipped_witness :
  CleanupAndFix.get_expected_filename ["sub-100"] "eeg" = Ok None /\
  fs (CleanupAndFix.loop_body (fresh dataset) ["sub-100"]) = dataset.
Proof.
  destruct (out_of_range_is_skipped (fresh dataset) ["sub-100"] 100 "eeg" eq_refl)
    as [H1 [H2 _]].
  - right; left; lia.
  - split; [exact H1|exact H2].
Defined.

(** ** No [TypeError] *)

Lemma subject_number_not_type_error (sd : Path) :
  subject_number sd <> Raise TypeError.
Proof.
  unfold subject_number, PyStr.py_int.
  destruct (nth_error _ 1); [|discriminate].
  match goal with |- context [match ?r with Some _ => _ | None => _ end] =>
    destruct r end; discriminate.
Qed.

Lemma get_expected_filename_not_type_error (sd : Path) (ext : string) :
  CleanupAndFix.get_expected_filename sd ext <> Raise TypeError.
Proof.
  unfold CleanupAndFix.get_expected_filename.
  pose proof (subject_number_not_type_error sd) as N.
  destruct (subject_number sd) as [i|e]; simpl.
  - repeat match goal with
           | |- context [if ?c then _ else _] => destruct c
           end; discriminate.
  - congruence.
Qed.

Lemma alter_at_raises (f : Z -> option node -> result (option node)) (p : Path) :
  (forall pm cur e, f pm cur = Raise e -> e = OSError) ->
  forall n e, FS.alter_at f p n = Raise e -> e = OSError.
Proof.
  intros Hf. induction p as [|c p IH]; intros n e H.
  - destruct n; simpl in H; congruence.
  - destruct n as [|pm es]; [simpl in H; congruence|].
    destruct p as [|c' p].
    + rewrite alter_at_last in H.
      destruct (f pm (FS.lookup c es)) eqn:E; simpl in H; [discriminate|].
      inversion H; subst. eauto.
    + rewrite alter_at_deeper in H.
      destruct (FS.lookup c es) as [ch|]; [|congruence].
      destruct (FS.alter_at f (c' :: p) ch) eqn:E; simpl in H; [discriminate|].
      inversion H; subst. eauto.
Qed.

Lemma copy2_raises (n : node) (src dst : Path) (e : exn) :
  FS.copy2 n src dst = Raise e -> e = OSError.
Proof.
  unfold FS.copy2.
  destruct (FS.path_eqb src _); [congruence|].
  destruct (FS.resolve src n) as [[m mt dd|]|]; try congruence.
  destruct (FS.readable m); [|congruence].
  apply alter_at_raises. intros pm cur e'. unfold FS.write_entry.
  destruct cur as [[m' ? ?|]|]; try congruence;
    match goal with |- context [if ?b then _ else _] => destruct b end; congruence.
Qed.

Lemma loop_body_no_type_error (st : walk_state) (sd : Path) :
  In (ErrorCreating TypeError) (out (CleanupAndFix.loop_body st sd)) ->
  In (ErrorCreating TypeError) (out st).
Proof.
  pose proof (get_expected_filename_shape sd "vmrk" "eeg") as Sh.
  pose proof (get_expected_filename_not_type_error sd "vmrk") as Nv.
  pose proof (get_expected_filename_not_type_error sd "eeg") as Ne.
  unfold CleanupAndFix.loop_body.
  assert (P : forall l ev, ev <> ErrorCreating TypeError ->
                In (ErrorCreating TypeError) (l ++ [ev])%list ->
                In (ErrorCreating TypeError) l).
  { intros l ev Hev Hin. apply in_app_or in Hin as [H|[H|[]]]; congruence. }
  assert (Q : forall l ev1 ev2, ev1 <> ErrorCreating TypeError ->
                ev2 <> ErrorCreating TypeError ->
                In (ErrorCreating TypeError) ((l ++ [ev1]) ++ [ev2])%list ->
                In (ErrorCreating TypeError) l) by (intros; eauto).
  destruct (negb _); simpl; [apply Q; discriminate|].
  destruct (FS.glob _ _ vmrk_pattern); simpl; [apply Q; discriminate|].
  destruct (FS.glob _ _ eeg_pattern); simpl; [apply Q; discriminate|].
  destruct (CleanupAndFix.get_expected_filename sd "vmrk") as [[tv|]|x];
    simpl; try (apply Q; congruence).
  destruct (FS.copy2 _ _ _) as [fs1|x] eqn:C1; simpl.
  2:{ apply copy2_raises in C1. subst x. apply Q; discriminate. }
  destruct (CleanupAndFix.get_expected_filename sd "eeg") as [[te|]|x];
    simpl; try contradiction.
  destruct (FS.copy2 fs1 _ _) as [fs2|x] eqn:C2; simpl.
  - intros H. apply P in H; [|discriminate]. revert H. apply Q; discriminate.
  - apply copy2_raises in C2. subst x.
    intros H. apply P in H; [|discriminate]. revert H. apply Q; discriminate.
Qed.

(** C9. The mapper of cleanup_and_fix.py returns the sentinel for "vmrk"
    exactly when it does for "eeg"; so the unchecked second call in
    [recreate_correct_files] never meets it: no loop iteration and no run
    records the [TypeError] that joining a path with [None] would raise. *)
Theorem sentinel_independent_of_extension :
  (forall subject_dir : Path,
      CleanupAndFix.get_expected_filename subject_dir "vmrk" = Ok None <->
      CleanupAndFix.get_expected_filename subject_dir "eeg" = Ok None) /\
  (forall (st : walk_state) (subject_dir : Path),
      In (ErrorCreating TypeError) (out (CleanupAndFix.loop_body st subject_dir)) ->
      In (ErrorCreating TypeError) (out st)) /\
  (forall (fs0 : node) (st : walk_state),
      CleanupAndFix.recreate_correct_files fs0 = Ok st ->
      ~ In (ErrorCreating TypeError) (out st)).
Proof.
  split; [|split].
  - intros sd. pose proof (get_expected_filename_shape sd "vmrk" "eeg") as Sh.
    destruct (CleanupAndFix.get_expected_filename sd "vmrk") as [[?|]|?],
             (CleanupAndFix.get_expected_filename sd "eeg") as [[?|]|?];
      try contradiction; split; intros H; congruence.
  - apply loop_body_no_type_error.
  - intros fs0 st. unfold CleanupAndFix.recreate_correct_files.
    destruct (subject_dirs_of fs0 []) as [ds|]; simpl; [|discriminate].
    intros H. inversion H. clear H H1.
    assert (G : forall ds st0, ~ In (ErrorCreating TypeError) (out st0) ->
              ~ In (ErrorCreating TypeError)
                  (out (fold_left CleanupAndFix.loop_body ds st0))).
    { clear. induction ds as [|d ds IH]; intros st0 H0; simpl; [exact H0|].
      apply IH. intros H. apply H0. eapply loop_body_no_type_error; eauto. }
    apply G. simpl. intros [H|[]]. discriminate.
Qed.

Lemma sentinel_independent_of_extension_witness :
  CleanupAndFix.get_expected_filename ["sub-100"] "eeg" = Ok None.
Proof.
  apply (proj1 (proj1 sentinel_independent_of_extension ["sub-100"])).
  reflexivity.
Defined.

(** ** Failures stay with their subject *)

Lemma cleanup_and_fix_gv_name (nm tv : string) :
  CleanupAndFix.get_expected_filename [nm] "vmrk" = Ok (Some tv) ->
  exists x, tv = x ++ "_VO.vmrk".
Proof. apply cleanup_and_fix_name. Qed.

Lemma cleanup_and_fix_ge_name (nm te : string) :
  CleanupAndFix.get_expected_filename [nm] "eeg" = Ok (Some te) ->
  exists x, te = x ++ "_VO.eeg".
Proof. apply cleanup_and_fix_name. Qed.

Lemma fix_vmrk_gv_name (nm tv : string) :
  always_named (FixVmrk.get_expected_filename [nm] "vmrk") = Ok (Some tv) ->
  exists x, tv = x ++ "_VO.vmrk".
Proof. apply fix_vmrk_name. Qed.

Lemma fix_vmrk_ge_name (nm te : string) :
  always_named (FixVmrk.get_expected_filename [nm] "eeg") = Ok (Some te) ->
  exists x, te = x ++ "_VO.eeg".
Proof. apply fix_vmrk_name. Qed.



(** ** Two runs *)

Section Twice.

Variable body : walk_state -> Path -> walk_state.
Variables gv ge : string -> result (option string).

Hypothesis body_stage :
  forall (st : walk_state) (nm : string),
    body st [nm]
    = let st1 := print st (Processing nm) in
      if negb (FS.exists_ (fs st1) [nm; "eeg"])
      then print st1 (WarnNoEegDir nm)
      else copy_stage [nm; "eeg"] nm (gv nm) (ge nm) [nm; "eeg"] st1.

Hypothesis gv_name :
  forall nm tv, gv nm = Ok (Some tv) -> exists x, tv = x ++ "_VO.vmrk".
Hypothesis ge_name :
  forall nm te, ge nm = Ok (Some te) -> exists x, te = x ++ "_VO.eeg".

Lemma walker_twice (fs0 : node) (ds : list Path) (st1 : walk_state) :
  distinct_names fs0 = true ->
  subject_dirs_of fs0 [] = Ok ds ->
  walker body fs0 = Ok st1 ->
  exists st2,
    walker body (fs st1) = Ok st2 /\
    fs st2 = fs st1 /\
    (forallb (sources_writable_at fs0) ds = true ->
     error_count st2 <= error_count st1).
Proof.
  intros Hdist Hds. unfold walker. rewrite Hds. simpl bind.
  intros H. inversion H as [E]. clear H.
  destruct fs0 as [|pm es]; [discriminate|]. simpl in Hdist.
  destruct (walk_twice body gv ge body_stage gv_name ge_name pm es ds
              [Found (List.length ds)] Hdist Hds) as (D & F & Er).
  rewrite D. simpl bind. eexists. split; [reflexivity|]. split; assumption.
Qed.

End Twice.

(** C5, as the code has it.  A second run of either walker finds the same
    subjects and leaves the file system exactly as the first run left it;
    its error count is no larger than that of the first run when the source
    files the walker selects are writable by their owner. *)
Theorem second_run_keeps_files :
  forall (fs0 : node) (ds : list Path),
    distinct_names fs0 = true ->
    subject_dirs_of fs0 [] = Ok ds ->
    (forall st1, CleanupAndFix.recreate_correct_files fs0 = Ok st1 ->
       exists st2,
         CleanupAndFix.recreate_correct_files (fs st1) = Ok st2 /\
         fs st2 = fs st1 /\
         (forallb (sources_writable_at fs0) ds = true ->
          error_count st2 <= error_count st1)) /\
    (forall st1, FixVmrk.fix_vmrk_files fs0 = Ok st1 ->
       exists st2,
         FixVmrk.fix_vmrk_files (fs st1) = Ok st2 /\
         fs st2 = fs st1 /\
         (forallb (sources_writable_at fs0) ds = true ->
          error_count st2 <= error_count st1)).
Proof.
  intros fs0 ds Hdist Hds. split; intros st1 H1.
  - rewrite recreate_correct_files_walker in H1.
    destruct (walker_twice CleanupAndFix.loop_body _ _ cleanup_and_fix_stage
                cleanup_and_fix_gv_name cleanup_and_fix_ge_name
                fs0 ds st1 Hdist Hds H1) as (st2 & H2 & F & E).
    exists st2. rewrite recreate_correct_files_walker. auto.
  - rewrite fix_vmrk_files_walker in H1.
    destruct (walker_twice FixVmrk.loop_body _ _ fix_vmrk_stage
                fix_vmrk_gv_name fix_vmrk_ge_name
                fs0 ds st1 Hdist Hds H1) as (st2 & H2 & F & E).
    exists st2. rewrite fix_vmrk_files_walker. auto.
Qed.

Lemma second_run_keeps_files_witness :
  exists st1 st2,
    CleanupAndFix.recreate_correct_files dataset = Ok st1 /\
    CleanupAndFix.recreate_correct_files (fs st1) = Ok st2 /\
    fs st2 = fs st1 /\
    error_count st2 <= error_count st1.
Proof.
  destruct (CleanupAndFix.recreate_correct_files dataset) as [st1|] eqn:R;
    [|vm_compute in R; discriminate R].
  destruct (proj1 (second_run_keeps_files dataset
                     [["sub-001"]; ["sub-002"]; ["sub-005"]; ["sub-100"]; ["sub-115"]]
                     eq_refl eq_refl) st1 R) as (st2 & R2 & F & E).
  exists st1, st2. split; [reflexivity|]. split; [exact R2|]. split; [exact F|].
  apply E. vm_compute. reflexivity.
Defined.

(** C5 as stated fails: with a read-only marker file the first run makes
    both copies without error, the copy inherits the mode, and the second run
    cannot overwrite it. *)
Lemma second_run_error_count_grows :
  exists st1 st2,
    CleanupAndFix.recreate_correct_files read_only_dataset = Ok st1 /\
    CleanupAndFix.recreate_correct_files (fs st1) = Ok st2 /\
    error_count st1 = 0 /\ error_count st2 = 1 /\
    ~ error_count st2 <= error_count st1.
Proof.
  eexists. eexists. split; [vm_compute; reflexivity|].
  split; [vm_compute; reflexivity|].
  split; [reflexivity|]. split; [reflexivity|]. simpl. lia.
Qed.

(** ** The copy step *)





(** ** Which source is selected *)

Lemma filter_head {A : Type} (f : A -> bool) (l : list A) (x : A) (r : list A) :
  filter f l = x :: r ->
  exists pre post,
    l = (pre ++ x :: post)%list /\ f x = true /\ Forall (fun e => f e = false) pre.
Proof.
  induction l as [|a l IH]; simpl; [discriminate|].
  destruct (f a) eqn:E.
  - intros H. inversion H; subst. exists [], l. auto.
  - intros H. destruct (IH H) as (pre & post & -> & Hx & Hp).
    exists (a :: pre), post. repeat split; auto.
Qed.

Lemma glob_head (n : node) (p : Path) (pat : string) (x : Path) (r : list Path) :
  FS.glob n p pat = x :: r ->
  exists m es nm,
    FS.resolve p n = Some (Dir m es) /\ x = joinpath p nm /\
    first_match_in pat es nm.
Proof.
  unfold FS.glob. destruct (FS.resolve p n) as [[|m es]|]; try discriminate.
  intros H. apply map_eq_cons in H as ([nm v] & tl & Hf & Hx & _).
  destruct (filter_head _ _ _ _ Hf) as (pre & post & E & M & Hp).
  exists m, es, nm. repeat split; auto.
  exists pre, v, post. auto.
Qed.

Lemma stage_selects (gv ge : result (option string)) (st : walk_state)
  (sd : Path) (sv se tv te : string) :
  let st' :=
    (let st1 := print st (Processing (name sd)) in
     if negb (FS.exists_ (fs st1) (joinpath sd "eeg"))
     then print st1 (WarnNoEegDir (name sd))
     else copy_stage (joinpath sd "eeg") (name sd) gv ge (joinpath sd "eeg") st1) in
  out st' = (out st ++ [Processing (name sd); CreatedVmrk sv tv; CreatedEeg se te])%list ->
  exists m es,
    FS.resolve (joinpath sd "eeg") (fs st) = Some (Dir m es) /\
    first_match_in vmrk_pattern es sv /\ first_match_in eeg_pattern es se.
Proof.
  cbv zeta. destruct (negb _); [intros H; out_contra H|].
  intros H.
  assert (H' : out (copy_stage (joinpath sd "eeg") (name sd) gv ge (joinpath sd "eeg")
                      (print st (Processing (name sd))))
               = (out (print st (Processing (name sd)))
                  ++ [CreatedVmrk sv tv; CreatedEeg se te])%list)
    by (rewrite H; simpl; now rewrite <- app_assoc).
  destruct (copy_stage_created _ _ _ _ _ _ _ _ _ _ H')
    as (pv & pe & lv & le & fs1 & Gv & Ge & Nv & Ne & _).
  simpl fs in Gv, Ge.
  destruct (glob_head _ _ _ _ _ Gv) as (m & es & nv & R & -> & Fv).
  destruct (glob_head _ _ _ _ _ Ge) as (m' & es' & ne & R' & -> & Fe).
  rewrite R in R'. inversion R'; subst m' es'.
  rewrite name_joinpath in Nv, Ne. subst nv ne.
  exists m, es. auto.
Qed.

(** C8, as the code has it.  With several matches no walker fails; the
    sources an iteration copies are the first entries, in the order of the
    directory listing, that match the two patterns. *)
Theorem first_match_is_selected :
  forall (st : walk_state) (subject_dir : Path) (sv se tv te : string),
    (out (CleanupAndFix.loop_body st subject_dir)
     = (out st ++ [Processing (name subject_dir);
                   CreatedVmrk sv tv; CreatedEeg se te])%list ->
     exists m es,
       FS.resolve (joinpath subject_dir "eeg") (fs st) = Some (Dir m es) /\
       first_match_in vmrk_pattern es sv /\ first_match_in eeg_pattern es se) /\
    (out (FixVmrk.loop_body st subject_dir)
     = (out st ++ [Processing (name subject_dir);
                   CreatedVmrk sv tv; CreatedEeg se te])%list ->
     exists m es,
       FS.resolve (joinpath subject_dir "eeg") (fs st) = Some (Dir m es) /\
       first_match_in vmrk_pattern es sv /\ first_match_in eeg_pattern es se).
Proof.
  intros st sd sv se tv te. split.
  - rewrite cleanup_and_fix_loop_body_stage. apply stage_selects.
  - rewrite fix_vmrk_loop_body_stage. apply stage_selects.
Qed.

Lemma first_match_is_selected_witness :
  exists m es,
    FS.resolve ["sub-001"; "eeg"] (one_subject listing_ba) = Some (Dir m es) /\
    first_match_in vmrk_pattern es "b_task-visualoddball_eeg.vmrk" /\
    first_match_in eeg_pattern es "x_task-visualoddball_eeg.eeg".
Proof.
  apply (proj1 (first_match_is_selected (fresh (one_subject listing_ba)) ["sub-001"]
                  "b_task-visualoddball_eeg.vmrk" "x_task-visualoddball_eeg.eeg"
                  "COCOA_013_VO.vmrk" "COCOA_013_VO.eeg")).
  vm_compute. reflexivity.
Defined.

(** C8 as stated fails: the same three files listed in two orders give two
    different marker targets. *)
Lemma selection_depends_on_listing_order :
  Permutation listing_ab listing_ba /\
  exists sta stb,
    CleanupAndFix.recreate_correct_files (one_subject listing_ab) = Ok sta /\
    CleanupAndFix.recreate_correct_files (one_subject listing_ba) = Ok stb /\
    FS.resolve ["sub-001"; "eeg"; "COCOA_013_VO.vmrk"] (fs sta) = Some (File 420 1 "A") /\
    FS.resolve ["sub-001"; "eeg"; "COCOA_013_VO.vmrk"] (fs stb) = Some (File 420 2 "B") /\
    FS.resolve ["sub-001"; "eeg"; "COCOA_013_VO.vmrk"] (fs sta)
    <> FS.resolve ["sub-001"; "eeg"; "COCOA_013_VO.vmrk"] (fs stb).
Proof.
  split; [apply perm_swap|].
  eexists. eexists. split; [vm_compute; reflexivity|].
  split; [vm_compute; reflexivity|].
  repeat split. simpl. discriminate.
Qed.

(** ** Walker, then cleanup *)

Lemma fnmatch_literal (lit pat s : string) :
  star_free lit = true ->
  PyStr.fnmatch (lit ++ pat) (lit ++ s) = PyStr.fnmatch pat s.
Proof.
  induction lit as [|c lit IH]; intros SF; [reflexivity|].
  simpl in SF. apply andb_prop in SF as [Hc SF].
  simpl. destruct (Ascii.eqb c "*"); [discriminate|].
  rewrite Ascii.eqb_refl. simpl. auto.
Qed.

Lemma fnmatch_star_unfold (pat : string) (c : ascii) (s : string) :
  PyStr.fnmatch (String "*" pat) (String c s)
  = (PyStr.fnmatch pat (String c s) || PyStr.fnmatch (String "*" pat) s)%bool.
Proof. destruct s; reflexivity. Qed.

Lemma fnmatch_star_skip (pat pre s : string) :
  PyStr.fnmatch pat s = true ->
  PyStr.fnmatch (String "*" pat) (pre ++ s) = true.
Proof.
  intros H. induction pre as [|c pre IH].
  - simpl append. destruct s as [|c s].
    + simpl. simpl in H. now rewrite H.
    + rewrite fnmatch_star_unfold, H. reflexivity.
  - simpl append. rewrite fnmatch_star_unfold, IH. apply orb_true_r.
Qed.

Lemma fnmatch_star_any (s : string) : PyStr.fnmatch "*" s = true.
Proof.
  induction s as [|c s IH]; [reflexivity|].
  rewrite fnmatch_star_unfold, IH. apply orb_true_r.
Qed.

Lemma vo_matches (lit x ext : string) :
  star_free lit = true ->
  PyStr.fnmatch (lit ++ "*_VO.*") (lit ++ x ++ "_VO." ++ ext) = true.
Proof.
  intros SF. rewrite fnmatch_literal by assumption.
  apply fnmatch_star_skip.
  change "_VO.*" with ("_VO." ++ "*").
  rewrite fnmatch_literal by reflexivity. apply fnmatch_star_any.
Qed.





(** ** The exit status *)

(** C7, as the code has it.  No script looks at its error count when it
    ends: whenever the run returns, the exit status is 0; it is non-zero
    only when an exception escapes, which the cleanup script never lets
    happen. *)
Theorem exit_status_ignores_error_count :
  forall fs0 : node,
    (forall st, FixVmrk.script fs0 = Ok st -> exit_status (FixVmrk.script fs0) = 0) /\
    (forall st, CleanupAndFix.script fs0 = Ok st ->
                exit_status (CleanupAndFix.script fs0) = 0) /\
    exit_status (CleanupFiles.script fs0) = 0 /\
    (exit_status (FixVmrk.script fs0) <> 0 <-> exists e, FixVmrk.script fs0 = Raise e) /\
    (exit_status (CleanupAndFix.script fs0) <> 0 <->
     exists e, CleanupAndFix.script fs0 = Raise e).
Proof.
  intros fs0. repeat split.
  - intros st ->. reflexivity.
  - intros st ->. reflexivity.
  - destruct (FixVmrk.script fs0); simpl; [congruence|eauto].
  - intros [e ->]. discriminate.
  - destruct (CleanupAndFix.script fs0); simpl; [congruence|eauto].
  - intros [e ->]. discriminate.
Qed.

Lemma exit_status_ignores_error_count_witness :
  exit_status (FixVmrk.script dataset) = 0.
Proof.
  eapply (proj1 (exit_status_ignores_error_count dataset)).
  vm_compute. reflexivity.
Defined.

(** C7 as stated fails: runs with one error, exit status 0. *)
Lemma errors_with_exit_status_zero :
  (exists st, FixVmrk.script dataset = Ok st /\ error_count st = 1 /\
              exit_status (FixVmrk.script dataset) = 0) /\
  (exists st, CleanupAndFix.script dataset = Ok st /\ error_count st = 1 /\
              exit_status (CleanupAndFix.script dataset) = 0) /\
  (exists st, CleanupFiles.script locked_dataset = Ok st /\
              CleanupFiles.error_count st = 1 /\
              exit_status (CleanupFiles.script locked_dataset) = 0).
Proof.
  repeat split; eexists; (split; [vm_compute; reflexivity|]); split; reflexivity.
Qed.

(** ** The sort key *)


















(** * Further properties *)

(** ** The two mappers *)

Lemma pad3_table :
  forallb (fun k => match PyStr.py_int (pad3 (Z.of_nat k)) with
                    | Ok z => z =? Z.of_nat k
                    | Raise _ => false
                    end)
          (seq 0 1000) = true.
Proof. vm_compute. reflexivity. Qed.

(** [int] reads back the three digits. *)
Lemma py_int_pad3 (n : Z) : 0 <= n < 1000 -> PyStr.py_int (pad3 n) = Ok n.
Proof.
  intros Hn. pose proof pad3_table as T. rewrite forallb_forall in T.
  specialize (T (Z.to_nat n)). rewrite Z2Nat.id in T by lia.
  destruct (PyStr.py_int (pad3 n)) as [z|].
  - f_equal. apply Z.eqb_eq, T, in_seq. lia.
  - assert (false = true) by (apply T, in_seq; lia). discriminate.
Qed.

Lemma pad3_inj (a b : Z) :
  0 <= a < 1000 -> 0 <= b < 1000 -> pad3 a = pad3 b -> a = b.
Proof.
  intros Ha Hb E. pose proof (py_int_pad3 a Ha) as Pa.
  rewrite E, (py_int_pad3 b Hb) in Pa. congruence.
Qed.

Lemma series_inj (lit : string) (a b : Z) (r1 r2 : string) :
  lit ++ pad3 a ++ r1 = lit ++ pad3 b ++ r2 -> pad3 a = pad3 b /\ r1 = r2.
Proof.
  induction lit as [|c lit IH]; simpl.
  - unfold pad3. simpl. intros H. injection H as -> -> -> ->. split; reflexivity.
  - intros H. injection H as H'. auto.
Qed.

(** X1. The mapper of fix_vmrk_files.py: offset 13 over the whole range 1..96,
    offset -96 on 111..127, and the subject number itself under [SUBJECT_]
    everywhere else; it has a name for every subject number. *)
Theorem fix_vmrk_get_expected_filename_ranges :
  forall (subject_dir : Path) (i : Z) (ext : string),
    subject_number subject_dir = Ok i ->
    (1 <= i <= 96 ->
     FixVmrk.get_expected_filename subject_dir ext
     = Ok ("COCOA_" ++ pad3 (i + 13) ++ "_VO." ++ ext)) /\
    (111 <= i <= 127 ->
     FixVmrk.get_expected_filename subject_dir ext
     = Ok ("SASA_" ++ pad3 (i - 96) ++ "_VO." ++ ext)) /\
    (out_of_range i ->
     FixVmrk.get_expected_filename subject_dir ext
     = Ok ("SUBJECT_" ++ PyStr.format_03d i ++ "_VO." ++ ext)) /\
    (out_of_range i -> 0 <= i < 1000 ->
     FixVmrk.get_expected_filename subject_dir ext
     = Ok ("SUBJECT_" ++ pad3 i ++ "_VO." ++ ext)) /\
    (exists t, FixVmrk.get_expected_filename subject_dir ext = Ok t).
Proof.
  intros sd i ext Hi.
  unfold FixVmrk.get_expected_filename, out_of_range. rewrite Hi. simpl bind.
  repeat split.
  - intros Hr. range_cases. rewrite format_03d_pad3 by lia. reflexivity.
  - intros Hr. range_cases. rewrite format_03d_pad3 by lia. reflexivity.
  - intros Hr. range_cases; reflexivity.
  - intros Hr Hb. range_cases; rewrite format_03d_pad3 by lia; reflexivity.
  - repeat match goal with
           | |- context [if ?c then _ else _] => destruct c
           end; eauto.
Qed.

Lemma fix_vmrk_get_expected_filename_ranges_witness :
  FixVmrk.get_expected_filename ["sub-100"] "eeg" = Ok "SUBJECT_100_VO.eeg".
Proof.
  apply (proj1 (proj2 (proj2 (proj2
           (fix_vmrk_get_expected_filename_ranges ["sub-100"] 100 "eeg" eq_refl))))).
  - right; left; lia.
  - lia.
Defined.

(** X2. The two mappers return the same name exactly for the subject
    numbers 57..77 and 111..127. *)
Theorem mappers_agree_exactly_on :
  forall (subject_dir : Path) (i : Z) (ext : string),
    subject_number subject_dir = Ok i ->
    (always_named (FixVmrk.get_expected_filename subject_dir ext)
     = CleanupAndFix.get_expected_filename subject_dir ext
     <-> 57 <= i <= 77 \/ 111 <= i <= 127).
Proof.
  intros sd i ext Hi.
  unfold FixVmrk.get_expected_filename, CleanupAndFix.get_expected_filename.
  rewrite Hi. simpl bind. split.
  - range_cases; unfold always_named; intros E; try discriminate E;
      try (left; lia); try (right; lia); exfalso;
      injection E as E; rewrite !format_03d_pad3 in E by lia;
      apply (series_inj EmptyString) in E as [E _]; apply pad3_inj in E; lia.
  - intros Hr. range_cases; reflexivity.
Qed.

Lemma mappers_agree_exactly_on_witness :
  always_named (FixVmrk.get_expected_filename ["sub-060"] "vmrk")
  = CleanupAndFix.get_expected_filename ["sub-060"] "vmrk".
Proof.
  apply (proj2 (mappers_agree_exactly_on ["sub-060"] 60 "vmrk" eq_refl)).
  left. lia.
Defined.

(** X3. The mapper of cleanup_and_fix.py never gives two subject numbers
    the same name, and the name tells the extension. *)
Theorem get_expected_filename_injective :
  forall (d1 d2 : Path) (i j : Z) (e1 e2 t : string),
    subject_number d1 = Ok i ->
    subject_number d2 = Ok j ->
    CleanupAndFix.get_expected_filename d1 e1 = Ok (Some t) ->
    CleanupAndFix.get_expected_filename d2 e2 = Ok (Some t) ->
    i = j /\ e1 = e2.
Proof.
  intros d1 d2 i j e1 e2 t Hi Hj.
  unfold CleanupAndFix.get_expected_filename. rewrite Hi, Hj. simpl bind.
  assert (T : forall r1 r2 : string, "_VO." ++ r1 = "_VO." ++ r2 -> r1 = r2)
    by (intros r1 r2 H; injection H; auto).
  range_cases; intros E1 E2; try discriminate E1; try discriminate E2;
    injection E1 as <-; try discriminate E2; injection E2 as E2;
    rewrite !format_03d_pad3 in E2 by lia;
    apply (series_inj EmptyString) in E2 as [E2 E3]; apply pad3_inj in E2; try lia;
    split; try lia; symmetry; apply T; exact E3.
Qed.

Lemma get_expected_filename_injective_witness : 57 = 57 /\ "eeg" = "eeg".
Proof.
  apply (get_expected_filename_injective ["sub-057"] ["sub-57"] 57 57 "eeg" "eeg"
           "COCOA_070_VO.eeg"); reflexivity.
Defined.

(** ** The order of the walk *)

Lemma insert_by_key_sorted (k : Z) (x : Path) (l : list (Z * Path)) :
  StronglySorted key_le l -> StronglySorted key_le (insert_by_key k x l).
Proof.
  induction 1 as [|[k' y] l Hs IH Hf]; simpl.
  - constructor; constructor.
  - destruct (Z.leb_spec k k') as [Hle|Hgt].
    + constructor; [constructor; assumption|].
      constructor; [exact Hle|].
      rewrite Forall_forall in *. intros z Hz. specialize (Hf z Hz).
      unfold key_le in *. simpl in *. lia.
    + constructor; [exact IH|].
      rewrite Forall_forall in *. intros z Hz.
      apply (Permutation_in _ (insert_by_key_perm k x l)) in Hz.
      destruct Hz as [<-|Hz]; [unfold key_le; simpl; lia|auto].
Qed.

Lemma sort_keyed_sorted (l : list (Z * Path)) : StronglySorted key_le (sort_keyed l).
Proof.
  induction l as [|[k x] l IH]; simpl; [constructor|].
  now apply insert_by_key_sorted.
Qed.

Lemma insert_by_key_filter (k0 k : Z) (x : Path) (l : list (Z * Path)) :
  filter (fun kx => fst kx =? k0) (insert_by_key k x l)
  = if k =? k0 then (k, x) :: filter (fun kx => fst kx =? k0) l
    else filter (fun kx => fst kx =? k0) l.
Proof.
  induction l as [|[k' y] l IH]; simpl.
  - destruct (k =? k0); reflexivity.
  - destruct (Z.leb_spec k k') as [Hle|Hgt]; simpl.
    + destruct (k =? k0); reflexivity.
    + rewrite IH. destruct (Z.eqb_spec k k0) as [->|Hk]; [|reflexivity].
      destruct (Z.eqb_spec k' k0); [lia|reflexivity].
Qed.

Lemma sort_keyed_filter (k0 : Z) (l : list (Z * Path)) :
  filter (fun kx => fst kx =? k0) (sort_keyed l)
  = filter (fun kx => fst kx =? k0) l.
Proof.
  induction l as [|[k x] l IH]; simpl; [reflexivity|].
  rewrite insert_by_key_filter, IH. reflexivity.
Qed.

Lemma keys_of_keyed (l : list Path) :
  forall ks, keys_of l = Ok ks -> Forall keyed ks.
Proof.
  induction l as [|x l IH]; simpl; intros ks H.
  - injection H as <-. constructor.
  - destruct (subject_number x) as [k|] eqn:Hk; [|discriminate]. simpl in H.
    destruct (keys_of l) as [ks'|]; [|discriminate]. simpl in H.
    injection H as <-. constructor; [exact Hk|auto].
Qed.

Lemma keyed_sorted (l : list (Z * Path)) :
  Forall keyed l -> StronglySorted key_le l ->
  StronglySorted number_le (map snd l).
Proof.
  intros Hk Hs. induction Hs as [|[k x] l Hs IH Hf]; simpl; [constructor|].
  inversion Hk as [|? ? Hx Hl]; subst. constructor; [auto|].
  rewrite Forall_forall in *. intros d Hd.
  apply in_map_iff in Hd as ([k' y] & <- & Hy).
  exists k, k'. repeat split; [exact Hx|exact (Hl _ Hy)|exact (Hf _ Hy)].
Qed.

Lemma keyed_numbered (k0 : Z) (l : list (Z * Path)) :
  Forall keyed l ->
  numbered k0 (map snd l) = map snd (filter (fun kx => fst kx =? k0) l).
Proof.
  induction 1 as [|[k x] l Hx Hl IH]; simpl; [reflexivity|].
  unfold numbered in *. simpl. unfold has_number at 1.
  unfold keyed in Hx. simpl in Hx. rewrite Hx.
  destruct (k =? k0); simpl; now rewrite IH.
Qed.

(** X4. The walkers visit the subject directories in ascending order of the
    subject number; the list they walk holds exactly the candidate
    directories, and directories with the same number (sub-1, sub-001) stay
    in the order of the directory listing. *)
Theorem subject_dirs_sorted_stable :
  forall (fs0 : node) (cs ds : list Path),
    subject_candidates fs0 [] = Ok cs ->
    subject_dirs_of fs0 [] = Ok ds ->
    Permutation ds cs /\
    StronglySorted number_le ds /\
    (forall k, numbered k ds = numbered k cs).
Proof.
  intros fs0 cs ds Hc Hd. unfold subject_dirs_of in Hd. rewrite Hc in Hd.
  simpl in Hd. split; [now apply sort_by_subject_number_perm|].
  unfold sort_by_subject_number in Hd.
  destruct (keys_of cs) as [ks|] eqn:Hks; [|discriminate]. simpl in Hd.
  injection Hd as <-.
  pose proof (keys_of_keyed cs ks Hks) as K.
  assert (K' : Forall keyed (sort_keyed ks)).
  { rewrite Forall_forall in *. intros z Hz. apply K.
    exact (Permutation_in _ (sort_keyed_perm ks) Hz). }
  split.
  - apply keyed_sorted; [exact K'|apply sort_keyed_sorted].
  - intros k. rewrite (keyed_numbered k _ K'), sort_keyed_filter.
    rewrite <- (keyed_numbered k _ K). now rewrite (keys_of_snd cs ks Hks).
Qed.

Lemma subject_dirs_sorted_stable_witness :
  Permutation [["sub-001"]; ["sub-002"]; ["sub-005"]; ["sub-100"]; ["sub-115"]]
              [["sub-002"]; ["sub-001"]; ["sub-005"]; ["sub-100"]; ["sub-115"]] /\
  StronglySorted number_le
    [["sub-001"]; ["sub-002"]; ["sub-005"]; ["sub-100"]; ["sub-115"]] /\
  (forall k,
     numbered k [["sub-001"]; ["sub-002"]; ["sub-005"]; ["sub-100"]; ["sub-115"]]
     = numbered k [["sub-002"]; ["sub-001"]; ["sub-005"]; ["sub-100"]; ["sub-115"]]).
Proof.
  apply (subject_dirs_sorted_stable dataset); vm_compute; reflexivity.
Defined.

(** ** Counters and printed lines of the walkers *)

Lemma lines_app (p : event -> bool) (l : list event) (ev : event) :
  lines p (l ++ [ev]) = lines p l + (if p ev then 1 else 0).
Proof.
  unfold lines. rewrite filter_app, length_app. simpl.
  destruct (p ev); simpl; lia.
Qed.

Ltac count_lines :=
  unfold counted, counted_upto, print, except in *; simpl in *;
  rewrite ?lines_app; simpl; lia.

Lemma copy_stage_counted (label : Path) (d : string) (gv ge : result (option string))
  (p : Path) (st : walk_state) (n : Z) :
  counted_upto n (n + 1) st ->
  counted (n + 1) (copy_stage label d gv ge p st).
Proof.
  intros H. unfold copy_stage.
  destruct (FS.glob (fs st) p vmrk_pattern) as [|pv lv]; [count_lines|].
  destruct (FS.glob (fs st) p eeg_pattern) as [|pe le]; [count_lines|].
  destruct gv as [[tv|]|e]; [|count_lines|count_lines].
  destruct (FS.copy2 (fs st) pv (joinpath p tv)) as [fs1|e]; [|count_lines].
  cbv zeta. simpl fs.
  destruct ge as [[te|]|e]; [|count_lines|count_lines].
  destruct (FS.copy2 fs1 pe (joinpath p te)) as [fs2|e]; count_lines.
Qed.

Lemma loop_bodies_counted (st : walk_state) (sd : Path) (n : Z) :
  counted n st ->
  counted (n + 1) (CleanupAndFix.loop_body st sd) /\
  counted (n + 1) (FixVmrk.loop_body st sd).
Proof.
  intros H.
  assert (P : counted_upto n (n + 1) (print st (Processing (name sd))))
    by count_lines.
  rewrite cleanup_and_fix_loop_body_stage, fix_vmrk_loop_body_stage. cbv zeta.
  destruct (negb (FS.exists_ (fs (print st (Processing (name sd)))) (joinpath sd "eeg"))).
  - split; count_lines.
  - split; apply copy_stage_counted; exact P.
Qed.

Lemma fold_counted (body : walk_state -> Path -> walk_state) :
  (forall st sd n, counted n st -> counted (n + 1) (body st sd)) ->
  forall ds st n, counted n st ->
                  counted (n + Z.of_nat (List.length ds)) (fold_left body ds st).
Proof.
  intros Hb. induction ds as [|d ds IH]; intros st n H; simpl fold_left.
  - simpl. now rewrite Z.add_0_r.
  - replace (n + Z.of_nat (List.length (d :: ds)))
      with ((n + 1) + Z.of_nat (List.length ds)) by (simpl List.length; lia).
    apply IH, Hb, H.
Qed.

(** X5. At the end of a run of either walker the three counters of the
    summary are the numbers of printed "Created vmrk", "Created eeg" and
    "Error creating" lines, there is one "Processing" line per subject
    directory, and eeg <= vmrk <= eeg + errors, eeg + errors <= subjects. *)
Theorem walker_counters :
  forall (fs0 : node) (ds : list Path) (st : walk_state),
    subject_dirs_of fs0 [] = Ok ds ->
    CleanupAndFix.recreate_correct_files fs0 = Ok st \/
    FixVmrk.fix_vmrk_files fs0 = Ok st ->
    counted (Z.of_nat (List.length ds)) st.
Proof.
  intros fs0 ds st Hds H.
  unfold CleanupAndFix.recreate_correct_files, FixVmrk.fix_vmrk_files in H.
  rewrite Hds in H. simpl in H.
  assert (I : counted 0 (mkWalk fs0 0 0 0 [Found (List.length ds)]))
    by (unfold counted, counted_upto, lines; simpl; lia).
  destruct H as [H|H]; injection H as <-.
  - apply (fold_counted CleanupAndFix.loop_body
             (fun st sd n C => proj1 (loop_bodies_counted st sd n C)) ds _ 0 I).
  - apply (fold_counted FixVmrk.loop_body
             (fun st sd n C => proj2 (loop_bodies_counted st sd n C)) ds _ 0 I).
Qed.

Lemma walker_counters_witness :
  exists st, CleanupAndFix.recreate_correct_files dataset = Ok st /\
             counted 5 st /\ fixed_vmrk_count st = 2 /\ error_count st = 1.
Proof.
  eexists. split; [reflexivity|]. split; [|split; vm_compute; reflexivity].
  apply (walker_counters dataset
           [["sub-001"]; ["sub-002"]; ["sub-005"]; ["sub-100"]; ["sub-115"]]).
  - vm_compute. reflexivity.
  - left. reflexivity.
Defined.

Lemma copy_stage_processing (label : Path) (d : string) (gv ge : result (option string))
  (p : Path) (st : walk_state) :
  filter is_processing (out (copy_stage label d gv ge p st))
  = filter is_processing (out st).
Proof.
  unfold copy_stage.
  repeat match goal with
         | |- context [match ?x with _ => _ end] => destruct x
         end;
    unfold print, except; simpl; rewrite ?filter_app; simpl;
    rewrite ?app_nil_r; reflexivity.
Qed.

Lemma loop_bodies_processing (st : walk_state) (sd : Path) :
  filter is_processing (out (CleanupAndFix.loop_body st sd))
  = (filter is_processing (out st) ++ [Processing (name sd)])%list /\
  filter is_processing (out (FixVmrk.loop_body st sd))
  = (filter is_processing (out st) ++ [Processing (name sd)])%list.
Proof.
  rewrite cleanup_and_fix_loop_body_stage, fix_vmrk_loop_body_stage. cbv zeta.
  destruct (negb (FS.exists_ (fs (print st (Processing (name sd)))) (joinpath sd "eeg")));
    rewrite ?copy_stage_processing; unfold print; simpl;
    rewrite ?filter_app; simpl; rewrite ?app_nil_r; split; reflexivity.
Qed.

Lemma fold_processing (body : walk_state -> Path -> walk_state) :
  (forall st sd, filter is_processing (out (body st sd))
                 = (filter is_processing (out st) ++ [Processing (name sd)])%list) ->
  forall ds st,
    filter is_processing (out (fold_left body ds st))
    = (filter is_processing (out st)
       ++ map (fun d => Processing (name d)) ds)%list.
Proof.
  intros Hb. induction ds as [|d ds IH]; intros st; simpl.
  - now rewrite app_nil_r.
  - rewrite IH, Hb, <- app_assoc. reflexivity.
Qed.

(** X6. The "Processing" lines of a run of either walker name the subject
    directories one by one in the sorted order, whatever happens to each of
    them. *)
Theorem walker_announces_in_order :
  forall (fs0 : node) (ds : list Path) (st : walk_state),
    subject_dirs_of fs0 [] = Ok ds ->
    CleanupAndFix.recreate_correct_files fs0 = Ok st \/
    FixVmrk.fix_vmrk_files fs0 = Ok st ->
    filter is_processing (out st) = map (fun d => Processing (name d)) ds.
Proof.
  intros fs0 ds st Hds H.
  unfold CleanupAndFix.recreate_correct_files, FixVmrk.fix_vmrk_files in H.
  rewrite Hds in H. simpl in H.
  destruct H as [H|H]; injection H as <-.
  - apply (fold_processing CleanupAndFix.loop_body
             (fun st sd => proj1 (loop_bodies_processing st sd))).
  - apply (fold_processing FixVmrk.loop_body
             (fun st sd => proj2 (loop_bodies_processing st sd))).
Qed.

Lemma walker_announces_in_order_witness :
  exists st, FixVmrk.fix_vmrk_files dataset = Ok st /\
             filter is_processing (out st)
             = [Processing "sub-001"; Processing "sub-002"; Processing "sub-005";
                Processing "sub-100"; Processing "sub-115"].
Proof.
  eexists. split; [reflexivity|].
  apply (walker_announces_in_order dataset
           [["sub-001"]; ["sub-002"]; ["sub-005"]; ["sub-100"]; ["sub-115"]]).
  - vm_compute. reflexivity.
  - right. reflexivity.
Defined.

(** ** What the walkers leave alone *)

Lemma unrelated_below (p : Path) :
  forall (q ext : Path), unrelated q p -> unrelated q (p ++ ext)%list.
Proof.
  unfold unrelated.
  induction p as [|a p IH]; intros q ext [H1 H2].
  - destruct q; discriminate.
  - destruct q as [|b q]; [discriminate|]. simpl in *.
    destruct (String.eqb b a) eqn:Eba, (String.eqb a b) eqn:Eab; simpl in *;
      try (split; reflexivity).
    + apply IH. split; assumption.
    + apply String.eqb_eq in Eba. subst. rewrite String.eqb_refl in Eab. discriminate.
    + apply String.eqb_eq in Eab. subst. rewrite String.eqb_refl in Eba. discriminate.
Qed.

Lemma copy2_frame (a b : node) (src dst q : Path) :
  FS.copy2 a src dst = Ok b -> unrelated q dst ->
  FS.resolve q b = FS.resolve q a.
Proof.
  unfold FS.copy2. intros H U.
  assert (U' : unrelated q (if FS.is_dir a dst then joinpath dst (name src) else dst)).
  { destruct (FS.is_dir a dst); [apply unrelated_below|]; exact U. }
  destruct (FS.path_eqb src _); [discriminate|].
  destruct (FS.resolve src a) as [[m t d|]|]; try discriminate.
  destruct (FS.readable m); [|discriminate].
  destruct U' as [U1 U2]. exact (alter_at_frame _ _ _ _ _ H U1 U2).
Qed.

Lemma copy_stage_frame (label : Path) (d : string) (gv ge : result (option string))
  (p : Path) (st : walk_state) (q : Path) :
  unrelated q p ->
  FS.resolve q (fs (copy_stage label d gv ge p st)) = FS.resolve q (fs st).
Proof.
  intros U. unfold copy_stage.
  destruct (FS.glob (fs st) p vmrk_pattern) as [|pv lv]; [reflexivity|].
  destruct (FS.glob (fs st) p eeg_pattern) as [|pe le]; [reflexivity|].
  destruct gv as [[tv|]|e]; [|reflexivity|reflexivity].
  destruct (FS.copy2 (fs st) pv (joinpath p tv)) as [fs1|e] eqn:C1; [|reflexivity].
  cbv zeta. simpl fs.
  assert (F1 : FS.resolve q fs1 = FS.resolve q (fs st))
    by (apply (copy2_frame _ _ _ _ _ C1), unrelated_below, U).
  destruct ge as [[te|]|e]; [|exact F1|exact F1].
  destruct (FS.copy2 fs1 pe (joinpath p te)) as [fs2|e] eqn:C2; [|exact F1].
  simpl. rewrite <- F1.
  apply (copy2_frame _ _ _ _ _ C2), unrelated_below, U.
Qed.

Lemma loop_bodies_frame (st : walk_state) (sd q : Path) :
  unrelated q (joinpath sd "eeg") ->
  FS.resolve q (fs (CleanupAndFix.loop_body st sd)) = FS.resolve q (fs st) /\
  FS.resolve q (fs (FixVmrk.loop_body st sd)) = FS.resolve q (fs st).
Proof.
  intros U.
  rewrite cleanup_and_fix_loop_body_stage, fix_vmrk_loop_body_stage. cbv zeta.
  destruct (negb (FS.exists_ (fs (print st (Processing (name sd)))) (joinpath sd "eeg"))).
  - split; reflexivity.
  - split; rewrite (copy_stage_frame _ _ _ _ _ _ q U); reflexivity.
Qed.

Lemma fold_frame (body : walk_state -> Path -> walk_state) (q : Path) :
  forall ds,
    (forall st sd, In sd ds -> FS.resolve q (fs (body st sd)) = FS.resolve q (fs st)) ->
    forall st, FS.resolve q (fs (fold_left body ds st)) = FS.resolve q (fs st).
Proof.
  induction ds as [|d ds IH]; intros Hb st; simpl; [reflexivity|].
  rewrite IH by (intros; apply Hb; right; assumption).
  apply Hb. left. reflexivity.
Qed.

(** X7. A run of either walker changes nothing outside the [eeg]
    directories of the subject directories it walks: every path that neither
    leads to such a directory nor lies in one resolves to the same node
    before and after the run. *)
Theorem walker_changes_only_eeg_directories :
  forall (fs0 : node) (ds : list Path) (st : walk_state) (q : Path),
    subject_dirs_of fs0 [] = Ok ds ->
    CleanupAndFix.recreate_correct_files fs0 = Ok st \/
    FixVmrk.fix_vmrk_files fs0 = Ok st ->
    (forall d, In d ds -> unrelated q (joinpath d "eeg")) ->
    FS.resolve q (fs st) = FS.resolve q fs0.
Proof.
  intros fs0 ds st q Hds H U.
  unfold CleanupAndFix.recreate_correct_files, FixVmrk.fix_vmrk_files in H.
  rewrite Hds in H. simpl in H.
  destruct H as [H|H]; injection H as <-.
  - apply (fold_frame CleanupAndFix.loop_body q ds
             (fun st sd I => proj1 (loop_bodies_frame st sd q (U sd I)))).
  - apply (fold_frame FixVmrk.loop_body q ds
             (fun st sd I => proj2 (loop_bodies_frame st sd q (U sd I)))).
Qed.

Lemma walker_changes_only_eeg_directories_witness :
  exists st, CleanupAndFix.recreate_correct_files dataset = Ok st /\
             FS.resolve ["README"] (fs st) = FS.resolve ["README"] dataset.
Proof.
  eexists. split; [reflexivity|].
  apply (walker_changes_only_eeg_directories dataset
           [["sub-001"]; ["sub-002"]; ["sub-005"]; ["sub-100"]; ["sub-115"]]).
  - vm_compute. reflexivity.
  - left. reflexivity.
  - intros d Hd. simpl in Hd.
    repeat (destruct Hd as [<-|Hd]; [vm_compute; split; reflexivity|]).
    contradiction.
Defined.

(** X8. A run of either walker removes nothing and turns no file into a
    directory or back: every path that existed before exists afterwards
    with the same kind (directories with the same mode), and every new path
    is a regular file whose parent directory existed and was writable. *)
Theorem walker_only_adds_files :
  forall (fs0 : node) (st : walk_state),
    CleanupAndFix.recreate_correct_files fs0 = Ok st \/
    FixVmrk.fix_vmrk_files fs0 = Ok st ->
    grows fs0 (fs st).
Proof.
  intros fs0 st H.
  unfold CleanupAndFix.recreate_correct_files, FixVmrk.fix_vmrk_files in H.
  destruct (subject_dirs_of fs0 []) as [ds|]; simpl in H;
    [|destruct H; discriminate].
  destruct H as [H|H]; injection H as <-.
  - apply (fold_grows CleanupAndFix.loop_body
             (fun st sd => proj1 (loop_bodies_grow st sd)) ds
             (mkWalk fs0 0 0 0 [Found (List.length ds)])).
  - apply (fold_grows FixVmrk.loop_body
             (fun st sd => proj2 (loop_bodies_grow st sd)) ds
             (mkWalk fs0 0 0 0 [Found (List.length ds)])).
Qed.

Lemma walker_only_adds_files_witness :
  exists st, FixVmrk.fix_vmrk_files dataset = Ok st /\ grows dataset (fs st).
Proof.
  eexists. split; [reflexivity|].
  apply (walker_only_adds_files dataset). right. reflexivity.
Defined.

(** ** What the cleanup scripts leave alone *)

Lemma cleaned_at_same (l : list Path) (a b : node) (q : Path) :
  FS.resolve q b = FS.resolve q a -> cleaned_at l a b q.
Proof.
  unfold cleaned_at, mode_kept. intros ->.
  destruct (FS.resolve q a) as [[m t d|m es]|]; auto.
Qed.

Lemma cleaned_refl (l : list Path) (a : node) : cleaned l a a.
Proof. intros q. now apply cleaned_at_same. Qed.

Lemma cleaned_mono (l l' : list Path) (a b : node) :
  incl l l' -> cleaned l a b -> cleaned l' a b.
Proof.
  intros I H q. specialize (H q). unfold cleaned_at, mode_kept in *.
  destruct (FS.resolve q a) as [[m0 t0 d0|m0 es0]|],
           (FS.resolve q b) as [[m t d|m es]|]; auto.
  - destruct H as (? & ? & [?|[? ?]]); repeat split; auto.
  - destruct H as [?|[? ?]]; auto.
Qed.

Lemma cleaned_trans (l : list Path) (a b c : node) :
  cleaned l a b -> cleaned l b c -> cleaned l a c.
Proof.
  intros H1 H2 q. specialize (H1 q). specialize (H2 q).
  unfold cleaned_at, mode_kept in *.
  destruct (FS.resolve q a) as [[m0 t0 d0|m0 es0]|],
           (FS.resolve q b) as [[m1 t1 d1|m1 es1]|],
           (FS.resolve q c) as [[m t d|m es]|];
    try contradiction; auto.
  - destruct H1 as (-> & -> & M1), H2 as (-> & -> & M2).
    repeat split. destruct M1 as [->|[-> ?]], M2 as [->|[-> ?]]; auto.
  - destruct H1 as [->|[-> ?]], H2 as [->|[-> ?]]; auto.
Qed.

Lemma resolve_dir_mode (m m' : Z) (es : list (string * node)) (x : string) (ext : Path) :
  FS.resolve (x :: ext) (Dir m es) = FS.resolve (x :: ext) (Dir m' es).
Proof. reflexivity. Qed.

Lemma chmod_cleaned (a b : node) (p : Path) :
  FS.chmod a p 420 = Ok b -> cleaned [p] a b.
Proof.
  unfold FS.chmod. intros H.
  destruct (exists_last (l := p)) as (par & c & ->).
  { intros ->. destruct a; discriminate. }
  destruct (alter_at_below _ _ _ _ _ H) as (pm & es & r & Hp & Hf & Ha & Hb).
  intros q.
  destruct (path_trichotomy (par ++ [c])%list q) as [[ext ->]|[(ext & Hne & E)|[U1 U2]]].
  - unfold cleaned_at, mode_kept. rewrite <- app_assoc, Ha, Hb.
    destruct (FS.lookup c es) as [[m0 mt0 dd0|m0 es0]|]; simpl in Hf;
      inversion Hf; subst r.
    + destruct ext as [|x ext]; simpl; [|exact I].
      repeat split. right. split; [reflexivity|]. left. simpl; rewrite ?app_nil_r; reflexivity.
    + destruct ext as [|x ext].
      * simpl. right. split; [reflexivity|]. left. simpl; rewrite ?app_nil_r; reflexivity.
      * rewrite (resolve_dir_mode 420 m0).
        destruct (FS.resolve (x :: ext) (Dir m0 es0)) as [[m t d|m es1]|]; auto.
  - rewrite E in H.
    destruct (alter_at_above _ _ _ _ _ H Hne) as (m0 & es0 & es' & H0 & H1).
    unfold cleaned_at, mode_kept. rewrite H0, H1. left. reflexivity.
  - apply cleaned_at_same. exact (alter_at_frame _ _ _ _ _ H U1 U2).
Qed.

Lemma unlink_cleaned (a b : node) (p : Path) :
  FS.unlink a p = Ok b -> cleaned [p] a b.
Proof.
  unfold FS.unlink. intros H.
  destruct (exists_last (l := p)) as (par & c & ->).
  { intros ->. destruct a; discriminate. }
  destruct (alter_at_below _ _ _ _ _ H) as (pm & es & r & Hp & Hf & Ha & Hb).
  intros q.
  destruct (path_trichotomy (par ++ [c])%list q) as [[ext ->]|[(ext & Hne & E)|[U1 U2]]].
  - unfold cleaned_at, mode_kept. rewrite <- app_assoc, Ha, Hb.
    destruct (FS.lookup c es) as [[m0 mt0 dd0|m0 es0]|]; simpl in Hf;
      try discriminate.
    destruct (FS.writable pm); [|discriminate]. inversion Hf; subst r.
    destruct ext as [|x ext]; simpl; [|exact I].
    left. simpl; rewrite ?app_nil_r; reflexivity.
  - rewrite E in H.
    destruct (alter_at_above _ _ _ _ _ H Hne) as (m0 & es0 & es' & H0 & H1).
    unfold cleaned_at, mode_kept. rewrite H0, H1. left. reflexivity.
  - apply cleaned_at_same. exact (alter_at_frame _ _ _ _ _ H U1 U2).
Qed.

Lemma delete_fs_cleaned (n : node) (p : Path) : cleaned [p] n (delete_fs n p).
Proof.
  unfold delete_fs.
  destruct (FS.chmod n p 420) as [n1|] eqn:C; [|apply cleaned_refl].
  destruct (FS.unlink n1 p) as [n2|] eqn:U; [|now apply chmod_cleaned].
  apply (cleaned_trans _ _ n1); [now apply chmod_cleaned|now apply unlink_cleaned].
Qed.

Lemma fold_delete_cleaned (l' : list Path) :
  forall (l : list Path) (n : node),
    incl l l' -> cleaned l' n (fold_left delete_fs l n).
Proof.
  induction l as [|p l IH]; intros n I; simpl; [apply cleaned_refl|].
  apply (cleaned_trans _ _ (delete_fs n p)).
  - apply (cleaned_mono [p]); [|apply delete_fs_cleaned].
    intros x [<-|[]]. apply I. left. reflexivity.
  - apply IH. intros x Hx. apply I. right. exact Hx.
Qed.

Lemma rglob_sound (pat : string) :
  forall (n : node) (here q : Path),
    In q (FS.rglob_node pat here n) ->
    exists par c, q = (here ++ par ++ [c])%list /\ PyStr.fnmatch pat c = true.
Proof.
  fix IH 1. intros [m t d|m es] here q H; simpl in H; [contradiction|].
  apply in_app_or in H as [H|H].
  - apply in_map_iff in H as ([c v] & <- & Hf). apply filter_In in Hf as [_ Hf].
    exists [], c. split; [reflexivity|exact Hf].
  - induction es as [|[nm ch] es IHes]; simpl in H; [contradiction|].
    apply in_app_or in H as [H|H]; [|exact (IHes H)].
    apply IH in H as (par & c & -> & Hf).
    exists (nm :: par), c. split; [|exact Hf].
    unfold joinpath. rewrite <- app_assoc. reflexivity.
Qed.

Lemma cleanup_paths_named (fs0 : node) (q : Path) :
  In q (FS.rglob fs0 "COCOA_*_VO.*" ++ FS.rglob fs0 "SASA_*_VO.*")%list ->
  cleanup_name (name q) = true.
Proof.
  intros H. unfold cleanup_name.
  apply in_app_or in H as [H|H]; apply rglob_sound in H as (par & c & -> & Hf);
    simpl app; change (par ++ [c])%list with (joinpath par c);
    rewrite name_joinpath, Hf; [reflexivity|apply orb_true_r].
Qed.

(** X9. Either cleanup script removes nothing but regular files whose name
    matches COCOA_*_VO.* or SASA_*_VO.*: no directory goes, nothing
    appears, every file that stays keeps its data and time, and a mode
    changes (to 0o644) only on a path with such a name; a file with any other
    name is afterwards exactly as it was. *)
Theorem cleanup_touches_only_named_paths :
  forall (fs0 fs1 : node),
    fs1 = CleanupFiles.cfs (CleanupFiles.cleanup_files fs0) \/
    fs1 = CleanupAndFix.cfs (CleanupAndFix.cleanup_incorrect_files fs0) ->
    (forall q n, FS.resolve q fs0 = Some n -> FS.resolve q fs1 = None ->
                 FS.is_dir_node n = false /\ cleanup_name (name q) = true) /\
    (forall q n, FS.resolve q fs1 = Some n ->
                 exists n0, FS.resolve q fs0 = Some n0 /\
                            FS.is_dir_node n0 = FS.is_dir_node n) /\
    (forall q m t d, FS.resolve q fs1 = Some (File m t d) ->
                     exists m0, FS.resolve q fs0 = Some (File m0 t d) /\
                                (m = m0 \/ m = 420 /\ cleanup_name (name q) = true)) /\
    (forall q m es, FS.resolve q fs1 = Some (Dir m es) ->
                    exists m0 es0, FS.resolve q fs0 = Some (Dir m0 es0) /\
                                   (m = m0 \/ m = 420 /\ cleanup_name (name q) = true)) /\
    (forall q m t d, FS.resolve q fs0 = Some (File m t d) ->
                     cleanup_name (name q) = false ->
                     FS.resolve q fs1 = Some (File m t d)).
Proof.
  intros fs0 fs1 H.
  set (l := (FS.rglob fs0 "COCOA_*_VO.*" ++ FS.rglob fs0 "SASA_*_VO.*")%list).
  assert (E : fs1 = fold_left delete_fs l fs0).
  { destruct (cleanup_fs_both fs0) as [E1 E2]. destruct H as [->| ->]; assumption. }
  pose proof (fold_delete_cleaned l l fs0 (incl_refl l)) as C. rewrite <- E in C.
  assert (N : forall q, In q l -> cleanup_name (name q) = true)
    by (intros q; apply cleanup_paths_named).
  unfold cleaned, cleaned_at, mode_kept in C.
  repeat split.
  - specialize (C q). rewrite H0, H1 in C. destruct n; [reflexivity|contradiction].
  - specialize (C q). rewrite H0, H1 in C. destruct n; [auto|contradiction].
  - intros q n Hq. specialize (C q). rewrite Hq in C.
    destruct (FS.resolve q fs0) as [[m0 t0 d0|m0 es0]|], n as [m t d|m es];
      try contradiction; eexists; split; reflexivity.
  - intros q m t d Hq. specialize (C q). rewrite Hq in C.
    destruct (FS.resolve q fs0) as [[m0 t0 d0|m0 es0]|]; try contradiction.
    destruct C as (-> & -> & M). exists m0. split; [reflexivity|].
    destruct M as [->|[-> I]]; auto.
  - intros q m es Hq. specialize (C q). rewrite Hq in C.
    destruct (FS.resolve q fs0) as [[m0 t0 d0|m0 es0]|]; try contradiction.
    exists m0, es0. split; [reflexivity|]. destruct C as [->|[-> I]]; auto.
  - intros q m t d Hq Hn. specialize (C q). rewrite Hq in C.
    assert (Hl : ~ In q l) by (intros I; rewrite (N q I) in Hn; discriminate).
    destruct (FS.resolve q fs1) as [[m1 t1 d1|m1 es1]|]; try contradiction.
    destruct C as (-> & -> & [->|[_ I]]); [reflexivity|contradiction].
Qed.

Lemma cleanup_touches_only_named_paths_witness :
  FS.resolve ["sub-001"; "eeg"; "sub-001_task-visualoddball_eeg.vmrk"]
    (CleanupFiles.cfs (CleanupFiles.cleanup_files read_only_dataset))
  = Some (File 292 1700000000 "markers sub-001").
Proof.
  apply (proj2 (proj2 (proj2 (proj2
           (cleanup_touches_only_named_paths read_only_dataset _
              (or_introl eq_refl)))))); reflexivity.
Defined.

(** ** Counters of the cleanup scripts *)

Lemma delete_step_counted (st : CleanupFiles.clean_state) (p : Path) (n : Z) :
  cleanup_counted n st -> cleanup_counted (n + 1) (CleanupFiles.delete_step st p).
Proof.
  unfold cleanup_counted, CleanupFiles.delete_step. intros H.
  destruct (FS.chmod (CleanupFiles.cfs st) p 420) as [fs1|e]; simpl;
    [destruct (FS.unlink fs1 p) as [fs2|e]; simpl|];
    rewrite !lines_app; simpl; lia.
Qed.

Lemma fold_delete_counted (l : list Path) :
  forall (st : CleanupFiles.clean_state) (n : Z),
    cleanup_counted n st ->
    cleanup_counted (n + Z.of_nat (List.length l))
      (fold_left CleanupFiles.delete_step l st).
Proof.
  induction l as [|p l IH]; intros st n H; simpl fold_left.
  - simpl. now rewrite Z.add_0_r.
  - replace (n + Z.of_nat (List.length (p :: l)))
      with ((n + 1) + Z.of_nat (List.length l)) by (simpl List.length; lia).
    apply IH, delete_step_counted, H.
Qed.

(** X10. cleanup_files.py counts every path it found exactly once: the
    deleted and the failed ones add up to the number of matches, and each
    counter is the number of its printed lines. *)
Theorem cleanup_files_counters :
  forall fs0 : node,
    cleanup_counted
      (Z.of_nat (List.length (FS.rglob fs0 "COCOA_*_VO.*" ++ FS.rglob fs0 "SASA_*_VO.*")))
      (CleanupFiles.cleanup_files fs0).
Proof.
  intros fs0. unfold CleanupFiles.cleanup_files. cbv zeta.
  apply (fold_delete_counted _ _ 0).
  unfold cleanup_counted, lines. simpl. lia.
Qed.

Lemma delete_steps_agree (a : CleanupAndFix.clean_state)
  (b : CleanupFiles.clean_state) (p : Path) :
  same_cleanup a b ->
  same_cleanup (CleanupAndFix.delete_step a p) (CleanupFiles.delete_step b p).
Proof.
  unfold same_cleanup, CleanupAndFix.delete_step, CleanupFiles.delete_step.
  intros (-> & -> & ->).
  destruct (FS.chmod (CleanupFiles.cfs b) p 420) as [fs1|e]; simpl;
    [destruct (FS.unlink fs1 p) as [fs2|e]; simpl|]; repeat split.
Qed.

Lemma fold_delete_steps_agree (l : list Path) :
  forall (a : CleanupAndFix.clean_state) (b : CleanupFiles.clean_state),
    same_cleanup a b ->
    same_cleanup (fold_left CleanupAndFix.delete_step l a)
                 (fold_left CleanupFiles.delete_step l b).
Proof.
  induction l as [|p l IH]; intros a b H; simpl; [exact H|].
  apply IH, delete_steps_agree, H.
Qed.

(** X11. The cleanup step of cleanup_and_fix.py and cleanup_files.py do the
    same: on the same tree they leave the same file system, count the same
    number of deleted files and print the same lines about them. *)
Theorem cleanup_scripts_agree :
  forall fs0 : node,
    same_cleanup (CleanupAndFix.cleanup_incorrect_files fs0)
                 (CleanupFiles.cleanup_files fs0).
Proof.
  intros fs0.
  unfold CleanupAndFix.cleanup_incorrect_files, CleanupFiles.cleanup_files.
  cbv zeta. apply fold_delete_steps_agree. repeat split.
Qed.

(** ** The names the patterns stand for *)

Lemma fnmatch_star_split (pat nm : string) :
  PyStr.fnmatch (String "*" pat) nm = true ->
  exists pre suf, nm = pre ++ suf /\ PyStr.fnmatch pat suf = true.
Proof.
  simpl. induction nm as [|c nm IH]; intros H.
  - apply orb_prop in H as [H|H]; [|discriminate].
    exists EmptyString, EmptyString. split; [reflexivity|exact H].
  - apply orb_prop in H as [H|H].
    + exists EmptyString, (String c nm). split; [reflexivity|exact H].
    + destruct (IH H) as (pre & suf & -> & M).
      exists (String c pre), suf. split; [reflexivity|exact M].
Qed.

Lemma fnmatch_literal_split (lit pat : string) :
  star_free lit = true ->
  forall nm, PyStr.fnmatch (lit ++ pat) nm = true ->
             exists s, nm = lit ++ s /\ PyStr.fnmatch pat s = true.
Proof.
  induction lit as [|c lit IH]; intros SF nm H.
  - exists nm. split; [reflexivity|exact H].
  - simpl in SF. apply andb_prop in SF as [Hc SF].
    simpl in H. destruct (Ascii.eqb c "*"); [discriminate|].
    destruct nm as [|c' nm]; [discriminate|].
    apply andb_prop in H as [E H]. apply Ascii.eqb_eq in E. subst c'.
    destruct (IH SF nm H) as (s & -> & M). exists s. split; [reflexivity|exact M].
Qed.

Lemma series_pattern (lit nm : string) :
  star_free lit = true ->
  PyStr.fnmatch (lit ++ "*_VO.*") nm = true ->
  exists a b, nm = lit ++ a ++ "_VO." ++ b.
Proof.
  intros SF H.
  apply (fnmatch_literal_split lit "*_VO.*" SF) in H as (s & -> & H).
  apply (fnmatch_star_split "_VO.*") in H as (pre & suf & -> & H).
  apply (fnmatch_literal_split "_VO." "*" eq_refl) in H as (b & -> & _).
  exists pre, b. reflexivity.
Qed.

(** X12. The two patterns of the cleanup scripts stand for exactly the names
    COCOA_<a>_VO.<b> and SASA_<a>_VO.<b>, with any texts, also empty ones,
    for <a> and <b>. *)
Theorem cleanup_name_shape :
  forall nm : string,
    cleanup_name nm = true <->
    exists a b, nm = "COCOA_" ++ a ++ "_VO." ++ b \/
                nm = "SASA_" ++ a ++ "_VO." ++ b.
Proof.
  intros nm. unfold cleanup_name. split.
  - intros H. apply orb_prop in H as [H|H].
    + apply (series_pattern "COCOA_" nm eq_refl) in H as (a & b & ->).
      exists a, b. left. reflexivity.
    + apply (series_pattern "SASA_" nm eq_refl) in H as (a & b & ->).
      exists a, b. right. reflexivity.
  - intros (a & b & [-> | ->]).
    + change (PyStr.fnmatch ("COCOA_" ++ "*_VO.*") ("COCOA_" ++ a ++ "_VO." ++ b)
              || PyStr.fnmatch "SASA_*_VO.*" ("COCOA_" ++ a ++ "_VO." ++ b) = true)%bool.
      now rewrite (vo_matches "COCOA_" a b eq_refl).
    + change (PyStr.fnmatch "COCOA_*_VO.*" ("SASA_" ++ a ++ "_VO." ++ b)
              || PyStr.fnmatch ("SASA_" ++ "*_VO.*") ("SASA_" ++ a ++ "_VO." ++ b) = true)%bool.
      rewrite (vo_matches "SASA_" a b eq_refl). apply orb_true_r.
Qed.

Lemma sub_not_cleanup_name (nm : string) :
  PyStr.startswith "sub-" nm = true -> cleanup_name nm = false.
Proof.
  intros H. destruct (cleanup_name nm) eqn:E; [|reflexivity].
  unfold cleanup_name in E.
  destruct nm as [|c nm]; [discriminate|].
  unfold PyStr.startswith in H. apply prefix_correct in H. simpl in H.
  injection H as -> _. vm_compute in E. discriminate.
Qed.

Lemma cleanup_cleaned (fs0 fs1 : node) :
  fs1 = CleanupFiles.cfs (CleanupFiles.cleanup_files fs0) \/
  fs1 = CleanupAndFix.cfs (CleanupAndFix.cleanup_incorrect_files fs0) ->
  cleaned (FS.rglob fs0 "COCOA_*_VO.*" ++ FS.rglob fs0 "SASA_*_VO.*")%list fs0 fs1.
Proof.
  intros H. destruct (cleanup_fs_both fs0) as [E1 E2].
  assert (E : fs1 = fold_left delete_fs
                      (FS.rglob fs0 "COCOA_*_VO.*" ++ FS.rglob fs0 "SASA_*_VO.*")%list fs0)
    by (destruct H as [->| ->]; assumption).
  rewrite E. apply fold_delete_cleaned, incl_refl.
Qed.

(** X13. Either cleanup script leaves everything called sub-... alone: such
    a file is afterwards where it was with the same mode, time and data, and
    such a directory is still a directory with the same mode. *)
Theorem cleanup_keeps_sub_entries :
  forall (fs0 fs1 : node) (q : Path) (n : node),
    fs1 = CleanupFiles.cfs (CleanupFiles.cleanup_files fs0) \/
    fs1 = CleanupAndFix.cfs (CleanupAndFix.cleanup_incorrect_files fs0) ->
    FS.resolve q fs0 = Some n ->
    PyStr.startswith "sub-" (name q) = true ->
    match n with
    | File _ _ _ => FS.resolve q fs1 = Some n
    | Dir m _ => exists es', FS.resolve q fs1 = Some (Dir m es')
    end.
Proof.
  intros fs0 fs1 q n H Hq Hs.
  pose proof (cleanup_cleaned fs0 fs1 H q) as C.
  assert (Hl : ~ In q (FS.rglob fs0 "COCOA_*_VO.*" ++ FS.rglob fs0 "SASA_*_VO.*")%list).
  { intros I. apply cleanup_paths_named in I.
    rewrite (sub_not_cleanup_name _ Hs) in I. discriminate. }
  unfold cleaned_at, mode_kept in C. rewrite Hq in C.
  destruct n as [m t d|m es], (FS.resolve q fs1) as [[m1 t1 d1|m1 es1]|];
    try contradiction.
  - destruct C as (-> & -> & [->|[_ I]]); [reflexivity|contradiction].
  - destruct C as [->|[_ I]]; [eauto|contradiction].
Qed.

Lemma cleanup_keeps_sub_entries_witness :
  exists es',
    FS.resolve ["sub-001"]
      (CleanupAndFix.cfs (CleanupAndFix.cleanup_incorrect_files locked_dataset))
    = Some (Dir 493 es').
Proof.
  apply (cleanup_keeps_sub_entries locked_dataset _ ["sub-001"]
           (Dir 493 [("eeg", Dir 365 [("COCOA_013_VO.vmrk", File 292 0 "markers")])])
           (or_intror eq_refl)); reflexivity.
Defined.

(** X14. No name either mapper returns for the extensions vmrk and eeg
    matches a source pattern of the walkers: a copy they make is not taken
    for a source recording by a later run. *)
Theorem targets_are_not_sources :
  forall (subject_dir : Path) (ext t : string),
    ext = "vmrk" \/ ext = "eeg" ->
    CleanupAndFix.get_expected_filename subject_dir ext = Ok (Some t) \/
    FixVmrk.get_expected_filename subject_dir ext = Ok t ->
    PyStr.fnmatch vmrk_pattern t = false /\ PyStr.fnmatch eeg_pattern t = false.
Proof.
  intros sd ext t He [H|H].
  - destruct (cleanup_and_fix_name sd ext t H) as [x ->]. now apply vo_not_source.
  - destruct (fix_vmrk_name sd ext t) as [x ->]; [now rewrite H|].
    now apply vo_not_source.
Qed.

Lemma targets_are_not_sources_witness :
  PyStr.fnmatch vmrk_pattern "SUBJECT_100_VO.vmrk" = false /\
  PyStr.fnmatch eeg_pattern "SUBJECT_100_VO.vmrk" = false.
Proof.
  apply (targets_are_not_sources ["sub-100"] "vmrk").
  - left. reflexivity.
  - right. reflexivity.
Defined.

(** ** Step 1 and step 2 of main *)

Lemma filter_map_comm {A B : Type} (g : A -> B) (P : B -> bool) (l : list A) :
  filter P (map g l) = map g (filter (fun x => P (g x)) l).
Proof.
  induction l as [|x l IH]; simpl; [reflexivity|].
  destruct (P (g x)); simpl; now rewrite IH.
Qed.

Lemma subject_candidates_names (pm : Z) (es : list (string * node)) :
  subject_candidates (Dir pm es) [] = Ok (map (fun nm => [nm]) (sub_names es)).
Proof.
  unfold subject_candidates, FS.iterdir, sub_names. simpl. f_equal.
  replace (map (fun e : string * node => joinpath [] (fst e)) es)
    with (map (fun nm => [nm]) (map fst es)) by (rewrite map_map; reflexivity).
  rewrite filter_map_comm. f_equal. apply filter_ext. intros nm.
  unfold FS.is_dir. simpl. destruct (FS.lookup nm es); reflexivity.
Qed.

Lemma sub_names_put (c : string) (v old : node) (es : list (string * node)) :
  FS.lookup c es = Some old ->
  FS.is_dir_node v = FS.is_dir_node old ->
  sub_names (FS.put c v es) = sub_names es.
Proof.
  intros L K. unfold sub_names. rewrite (put_names c v old es L).
  apply filter_ext. intros nm.
  destruct (String.eqb_spec nm c) as [->|N].
  - now rewrite lookup_put_same, L, K.
  - now rewrite (lookup_put_other nm c v es N).
Qed.

Lemma sub_names_remove (c : string) (old : node) (es : list (string * node)) :
  FS.lookup c es = Some old ->
  FS.is_dir_node old = false ->
  sub_names (FS.remove c es) = sub_names es.
Proof.
  intros L K. unfold sub_names.
  assert (E : forall l : list (string * node),
             filter (fun nm => (match FS.lookup nm (FS.remove c es) with
                                | Some n => FS.is_dir_node n
                                | None => false
                                end && PyStr.startswith "sub-" nm)%bool)
                    (map fst (FS.remove c l))
             = filter (fun nm => (match FS.lookup nm es with
                                  | Some n => FS.is_dir_node n
                                  | None => false
                                  end && PyStr.startswith "sub-" nm)%bool)
                      (map fst l)).
  { induction l as [|[k x] l IH]; simpl; [reflexivity|].
    destruct (String.eqb_spec k c) as [->|N].
    - rewrite L, K. simpl. exact IH.
    - simpl. rewrite (lookup_remove_other k c es N), IH. reflexivity. }
  apply E.
Qed.

Lemma alter_at_sub_names (f : Z -> option node -> result (option node)) :
  keeps_kinds f ->
  forall (p : Path) (pm : Z) (es : list (string * node)) (n' : node),
    FS.alter_at f p (Dir pm es) = Ok n' ->
    exists es', n' = Dir pm es' /\ sub_names es' = sub_names es.
Proof.
  intros K p pm es n' H.
  destruct p as [|c p]; [discriminate|].
  destruct p as [|c' p].
  - simpl in H. destruct (f pm (FS.lookup c es)) as [r|] eqn:F; [|discriminate].
    simpl in H. injection H as <-. specialize (K _ _ _ F).
    destruct (FS.lookup c es) as [old|] eqn:L; [|contradiction].
    destruct r as [v|]; eexists; split; try reflexivity.
    + now apply (sub_names_put c v old).
    + now apply (sub_names_remove c old).
  - apply alter_at_step in H as (ch & ch' & L & A & ->); [|discriminate].
    destruct (alter_at_dir _ _ _ _ A) as (m & ces & ces' & -> & ->).
    eexists. split; [reflexivity|]. now apply (sub_names_put c _ (Dir m ces)).
Qed.

Lemma chmod_keeps_kinds (mode : Z) : keeps_kinds (FS.chmod_entry mode).
Proof.
  intros pm [[m t d|m es]|] r H; simpl in H; try discriminate;
    injection H as <-; reflexivity.
Qed.

Lemma unlink_keeps_kinds : keeps_kinds FS.unlink_entry.
Proof.
  intros pm [[m t d|m es]|] r H; simpl in H; try discriminate.
  destruct (FS.writable pm); [|discriminate]. injection H as <-. reflexivity.
Qed.

Lemma delete_fs_candidates (n : node) (p : Path) :
  subject_candidates (delete_fs n p) [] = subject_candidates n [].
Proof.
  unfold delete_fs, FS.chmod, FS.unlink.
  destruct n as [m t d|pm es]; [destruct p; reflexivity|].
  destruct (FS.alter_at (FS.chmod_entry 420) p (Dir pm es)) as [n1|] eqn:C;
    [|reflexivity].
  destruct (alter_at_sub_names _ (chmod_keeps_kinds 420) _ _ _ _ C) as (es1 & -> & E1).
  destruct (FS.alter_at FS.unlink_entry p (Dir pm es1)) as [n2|] eqn:U.
  - destruct (alter_at_sub_names _ unlink_keeps_kinds _ _ _ _ U) as (es2 & -> & E2).
    rewrite !subject_candidates_names. congruence.
  - rewrite !subject_candidates_names. congruence.
Qed.

Lemma fold_delete_candidates (l : list Path) :
  forall n, subject_candidates (fold_left delete_fs l n) []
            = subject_candidates n [].
Proof.
  induction l as [|p l IH]; intros n; simpl; [reflexivity|].
  rewrite IH. apply delete_fs_candidates.
Qed.

Lemma cleanup_candidates (fs0 : node) :
  subject_candidates (CleanupAndFix.cfs (CleanupAndFix.cleanup_incorrect_files fs0)) []
  = subject_candidates fs0 [].
Proof.
  rewrite (proj2 (cleanup_fs_both fs0)). apply fold_delete_candidates.
Qed.

(** X15. Step 1 of main hides no subject from step 2: after the cleanup the
    walker finds the same subject directories in the same order as it would
    have found before it, so main raises exactly when the walker alone
    raises, with the same exception, and otherwise prints the same
    "Processing" lines. *)
Theorem main_walks_the_same_subjects :
  forall fs0 : node,
    subject_dirs_of (CleanupAndFix.cfs (CleanupAndFix.cleanup_incorrect_files fs0)) []
    = subject_dirs_of fs0 [] /\
    (forall e, CleanupAndFix.main fs0 = Raise e <->
               CleanupAndFix.recreate_correct_files fs0 = Raise e) /\
    (forall st, CleanupAndFix.main fs0 = Ok st ->
                exists st', CleanupAndFix.recreate_correct_files fs0 = Ok st' /\
                            filter is_processing (out st)
                            = filter is_processing (out st')).
Proof.
  intros fs0.
  assert (E : subject_dirs_of
                (CleanupAndFix.cfs (CleanupAndFix.cleanup_incorrect_files fs0)) []
              = subject_dirs_of fs0 [])
    by (unfold subject_dirs_of; now rewrite cleanup_candidates).
  split; [exact E|].
  unfold CleanupAndFix.main, CleanupAndFix.recreate_correct_files. cbv zeta.
  rewrite E. destruct (subject_dirs_of fs0 []) as [ds|e0]; simpl.
  - split; [intros e; split; discriminate|].
    intros st H. injection H as <-. eexists. split; [reflexivity|].
    rewrite !(fold_processing CleanupAndFix.loop_body
                (fun st sd => proj1 (loop_bodies_processing st sd))).
    reflexivity.
  - split; [intros e; split; auto|]. discriminate.
Qed.

(** ** A cleanup without errors *)






Lemma cleanup_name_empty : cleanup_name (name []) = false.
Proof. reflexivity. Qed.



(** X17. A name the mapper of fix_vmrk_files.py returns is one the cleanup
    scripts look for exactly when the subject number is in 1..96 or
    111..127: the SUBJECT_ copies that script makes for the other subject
    directories are out of the reach of both cleanup scripts. *)
Theorem fix_vmrk_names_and_cleanup :
  forall (subject_dir : Path) (i : Z) (ext t : string),
    subject_number subject_dir = Ok i ->
    FixVmrk.get_expected_filename subject_dir ext = Ok t ->
    (cleanup_name t = true <-> 1 <= i <= 96 \/ 111 <= i <= 127).
Proof.
  intros sd i ext t Hi. unfold FixVmrk.get_expected_filename. rewrite Hi.
  simpl bind. range_cases; intros E; injection E as <-; split; intros R.
  all: first
    [ left; lia
    | right; lia
    | exfalso; lia
    | unfold cleanup_name; apply orb_true_iff; left;
      exact (vo_matches "COCOA_" (PyStr.format_03d (i + 13)) ext eq_refl)
    | unfold cleanup_name; apply orb_true_iff; right;
      exact (vo_matches "SASA_" (PyStr.format_03d (i - 96)) ext eq_refl)
    | exfalso; unfold cleanup_name in R; apply orb_prop in R as [R|R];
      [apply (series_pattern "COCOA_" _ eq_refl) in R as (a & b & R)
      |apply (series_pattern "SASA_" _ eq_refl) in R as (a & b & R)];
      discriminate R ].
Qed.

Lemma fix_vmrk_names_and_cleanup_witness :
  cleanup_name "SUBJECT_100_VO.eeg" = true <-> 1 <= 100 <= 96 \/ 111 <= 100 <= 127.
Proof.
  apply (fix_vmrk_names_and_cleanup ["sub-100"] 100 "eeg"); reflexivity.
Defined.
